(** * git-diff: the diff parser, the command runner and the relative-time
      formatter of [git_diff/git_data.py], embedded and verified.

    Python values are modelled as follows.
    - [str] is [string]; a character is a code point below 256.  On these
      code points the regular-expression class [\d] is exactly [0-9] and the
      white space of [str.strip]/[str.split] is the set [is_space] below.
    - [int] is [Z].  [int(s)] is CPython's conversion: it raises [ValueError]
      on a text that is not a decimal numeral and, since CPython 3.11 (and the
      security releases of 3.7 to 3.10), also when the numeral has more than
      [sys.int_info.default_max_str_digits = 4300] digits.
    - a [dict] with a fixed key set is a record; [None] is [option].
    - exceptions are the [Raise] branch of [result].
    - the hunk dictionaries are mutable objects that the parser reaches
      through several references; they live in an explicit heap.
    - the outcome of the subprocess and the reading of the clock are inputs:
      [run_git] takes the environment as a function and [_relative_time]
      takes the time of the call.
    - [float] is the IEEE double, as [SpecFloat] of the Standard Library
      defines it for the precision 53 and the exponent bound 1024; the
      operations round to the nearest double, ties to even. *)

From Stdlib Require Import String Ascii List ZArith NArith Bool Lia.
From Stdlib Require Import DecimalString.
From Stdlib Require Import Sorted SpecFloat.
From Stdlib Require OrderedTypeEx.
Import ListNotations.
Open Scope string_scope.
Open Scope Z_scope.

(** ** Exceptions *)

Inductive exn : Type :=
| ValueError
| IndexError
| RuntimeError (msg : string)
| TimeoutExpired
| FileNotFoundError
| CalledProcessError (returncode : Z)
| OtherException
| OverflowError.

Inductive result (A : Type) : Type :=
| Ok (a : A)
| Raise (e : exn).

Arguments Ok {A} a.
Arguments Raise {A} e.

Definition bind {A B : Type} (r : result A) (k : A -> result B) : result B :=
  match r with
  | Ok a => k a
  | Raise e => Raise e
  end.

Notation "x <- r ;; k" := (bind r (fun x => k))
  (at level 61, r at next level, right associativity).

(** ** Python string primitives *)

Module PyStr.

Definition LF : ascii := "010"%char.
Definition CR : ascii := "013"%char.

Definition code (c : ascii) : N := N_of_ascii c.

(** [s.startswith(p)] *)
Definition startswith (s p : string) : bool := prefix p s.

(** [s[n:]] *)
Fixpoint drop (n : nat) (s : string) : string :=
  match n, s with
  | O, _ => s
  | S _, EmptyString => EmptyString
  | S n', String _ s' => drop n' s'
  end.

(** [bool(s)]: a text is true when it is not empty. *)
Definition truthy (s : string) : bool :=
  match s with
  | EmptyString => false
  | String _ _ => true
  end.

(** [s.split] at every line feed. *)
Fixpoint split_nl (s : string) : list string :=
  match s with
  | EmptyString => [EmptyString]
  | String c s' =>
      if Ascii.eqb c LF then EmptyString :: split_nl s'
      else match split_nl s' with
           | l :: ls => String c l :: ls
           | [] => [String c EmptyString]
           end
  end.

(** [join] with a line feed between the items. *)
Fixpoint join_nl (ls : list string) : string :=
  match ls with
  | [] => EmptyString
  | [l] => l
  | l :: ls' => l ++ String LF (join_nl ls')
  end.

(** [c.isspace()] on code points below 256: tab to carriage return, the
    four separators 28 to 31, the space, NEL and the no-break space. *)
Definition is_space (c : ascii) : bool :=
  let n := code c in
  ((9 <=? n) && (n <=? 13) || (28 <=? n) && (n <=? 32)
   || (n =? 133) || (n =? 160))%N.

Fixpoint lstrip (s : string) : string :=
  match s with
  | EmptyString => EmptyString
  | String c s' => if is_space c then lstrip s' else s
  end.

Fixpoint rstrip (s : string) : string :=
  match s with
  | EmptyString => EmptyString
  | String c s' =>
      match rstrip s' with
      | EmptyString => if is_space c then EmptyString else String c EmptyString
      | r => String c r
      end
  end.

(** [s.strip()] *)
Definition strip (s : string) : string := rstrip (lstrip s).

(** [s.split()]: the maximal runs of characters that are not white space. *)
Fixpoint split (s : string) : list string :=
  match s with
  | EmptyString => []
  | String c s' =>
      if is_space c then split s'
      else match s' with
           | EmptyString => [String c EmptyString]
           | String c' _ =>
               if is_space c' then String c EmptyString :: split s'
               else match split s' with
                    | t :: ts => String c t :: ts
                    | [] => [String c EmptyString]
                    end
           end
  end.

(** The line boundaries of [str.splitlines] below 256. *)
Definition is_linebreak (c : ascii) : bool :=
  let n := code c in
  ((10 <=? n) && (n <=? 13) || (28 <=? n) && (n <=? 30) || (n =? 133))%N.

(** [splitlines_from after_cr s]: the lines of [s]; [after_cr] tells that
    the character before [s] was a carriage return, so that a line feed at
    the head of [s] belongs to the same boundary. *)
Fixpoint splitlines_from (after_cr : bool) (s : string) : list string :=
  match s with
  | EmptyString => []
  | String c s' =>
      if after_cr && Ascii.eqb c LF then splitlines_from false s'
      else if is_linebreak c then
        EmptyString :: splitlines_from (Ascii.eqb c CR) s'
      else match splitlines_from false s' with
           | l :: ls => String c l :: ls
           | [] => [String c EmptyString]
           end
  end.

(** [s.splitlines()] *)
Definition splitlines (s : string) : list string := splitlines_from false s.

(** [c] is matched by [\d]. *)
Definition is_digit (c : ascii) : bool :=
  let n := code c in ((48 <=? n) && (n <=? 57))%N.

Definition digit_value (c : ascii) : Z := Z.of_N (code c) - 48.

(** The longest run of digits at the head of [s], and what follows it:
    what a greedy [\d*] consumes. *)
Fixpoint span_digits (s : string) : string * string :=
  match s with
  | EmptyString => (EmptyString, EmptyString)
  | String c s' =>
      if is_digit c then
        let (d, r) := span_digits s' in (String c d, r)
      else (EmptyString, s)
  end.

Fixpoint all_digits (s : string) : bool :=
  match s with
  | EmptyString => true
  | String c s' => is_digit c && all_digits s'
  end.

Fixpoint decimal_value (acc : Z) (s : string) : Z :=
  match s with
  | EmptyString => acc
  | String c s' => decimal_value (10 * acc + digit_value c) s'
  end.

(** The longest prefix without a line feed: what a greedy [.*] consumes. *)
Fixpoint dot_star (s : string) : string :=
  match s with
  | EmptyString => EmptyString
  | String c s' => if Ascii.eqb c LF then EmptyString else String c (dot_star s')
  end.

(** [str(n)] for an integer. *)
Definition str_of_int (n : Z) : string := NilZero.string_of_int (Z.to_int n).

End PyStr.

Import PyStr.

(** [l[-1]] *)
Fixpoint last_item {A : Type} (l : list A) : result A :=
  match l with
  | [] => Raise IndexError
  | [x] => Ok x
  | _ :: l' => last_item l'
  end.

(** CPython's default bound on the digits of a numeral that [int] converts. *)
Definition int_max_str_digits : nat := 4300.

(** [int(s)] for a text without sign, white space or underscore, which is all
    that the parser passes: the captures of [\d+]. *)
Definition py_int (s : string) : result Z :=
  if truthy s && all_digits s then
    if (int_max_str_digits <? String.length s)%nat then Raise ValueError
    else Ok (decimal_value 0 s)
  else Raise ValueError.

(** ** The three regular expressions of [parse_diff]

    Each matcher returns the captured groups, [None] standing for Python's
    [None] (no match).  The patterns are deterministic on their inputs: a
    greedy [\d+] must take the whole run of digits, since what follows it in
    the pattern is never a digit. *)

Module Re.

(** The last place where [r] reads a space and [b/] followed by at least one
    character of the same line; the text before it and the text after. *)
Fixpoint rsplit_b (r : string) : option (string * string) :=
  match r with
  | EmptyString => None
  | String c r' =>
      match (if Ascii.eqb c LF then None else rsplit_b r') with
      | Some (g1, g2) => Some (String c g1, g2)
      | None =>
          if startswith r " b/" then
            match dot_star (drop 3 r) with
            | EmptyString => None
            | g2 => Some (EmptyString, g2)
            end
          else None
      end
  end.

(** [re.match] of [diff --git a/(.+) b/(.+)] on [line]: groups 1 and 2.  The
    first [(.+)] is greedy, so it extends to the last space-[b/] that still
    leaves a character for the second. *)
Definition diff_git (line : string) : option (string * string) :=
  if startswith line "diff --git a/" then
    match drop 13 line with
    | EmptyString => None
    | String c r' =>
        if Ascii.eqb c LF then None
        else match rsplit_b r' with
             | Some (g1, g2) => Some (String c g1, g2)
             | None => None
             end
    end
  else None.

(** [(?:,(\d+))?]: the optional count and the rest of the text. *)
Definition opt_count (s : string) : option string * string :=
  match s with
  | String "," s' =>
      match span_digits s' with
      | (EmptyString, _) => (None, s)
      | (d, r) => (Some d, r)
      end
  | _ => (None, s)
  end.

Record hunk_groups : Type := {
  g_old_start : string;
  g_old_count : option string;
  g_new_start : string;
  g_new_count : option string;
  g_context : string
}.

(** [re.match] of the hunk-header pattern on [line]: the text [@@ -], a
    run of digits (group 1), optionally a comma and a run of digits
    (group 2), a space and [+], a run of digits (group 3), optionally a
    comma and a run of digits (group 4), a space and [@@], and the rest of
    the line (group 5). *)
Definition hunk_header (line : string) : option hunk_groups :=
  if startswith line "@@ -" then
    let (d1, r1) := span_digits (drop 4 line) in
    if truthy d1 then
      let (o1, r2) := opt_count r1 in
      if startswith r2 " +" then
        let (d3, r3) := span_digits (drop 2 r2) in
        if truthy d3 then
          let (o2, r4) := opt_count r3 in
          if startswith r4 " @@" then
            Some {| g_old_start := d1; g_old_count := o1;
                    g_new_start := d3; g_new_count := o2;
                    g_context := dot_star (drop 3 r4) |}
          else None
        else None
      else None
    else None
  else None.

(** [re.search] of [(\d+)%] in [line]: group 1 of the leftmost match. *)
Fixpoint similarity (s : string) : option string :=
  match s with
  | EmptyString => None
  | String c s' =>
      if is_digit c then
        let (d, r) := span_digits s in
        if startswith r "%" then Some d else similarity s'
      else similarity s'
  end.

End Re.

(** ** The data model: the dictionaries that [parse_diff] builds *)

(** One body line of a hunk: the keys [type] and [content]. *)
Record Line : Type := {
  type : string;
  content : string
}.

(** The dictionary of a hunk.  [h_additions] and [h_deletions] are its keys
    [additions] and [deletions], which the dictionary of a file has too. *)
Record Hunk : Type := {
  old_start : Z;
  old_count : Z;
  new_start : Z;
  new_count : Z;
  context : string;
  lines : list Line;
  h_additions : Z;
  h_deletions : Z
}.

(** The dictionary of a file; [status] is one of the texts [modified],
    [added], [deleted], [renamed] and [copied]. *)
Record FileDiff : Type := {
  old_path : string;
  new_path : string;
  status : string;
  hunks : list Hunk;
  additions : Z;
  deletions : Z;
  is_binary : bool;
  is_new : bool;
  is_deleted : bool;
  old_mode : option string;
  new_mode : option string;
  similarity : option Z
}.

(** The dictionary that [parse_diff] returns. *)
Record DiffResult : Type := {
  files : list FileDiff;
  total_files : Z;
  total_additions : Z;
  total_deletions : Z;
  stat_summary : string
}.

(** Field updates, [d[key] = v]. *)

Definition set_old_path (v : string) (f : FileDiff) : FileDiff :=
  {| old_path := v; new_path := new_path f; status := status f;
     hunks := hunks f; additions := additions f; deletions := deletions f;
     is_binary := is_binary f; is_new := is_new f; is_deleted := is_deleted f;
     old_mode := old_mode f; new_mode := new_mode f;
     similarity := similarity f |}.

Definition set_new_path (v : string) (f : FileDiff) : FileDiff :=
  {| old_path := old_path f; new_path := v; status := status f;
     hunks := hunks f; additions := additions f; deletions := deletions f;
     is_binary := is_binary f; is_new := is_new f; is_deleted := is_deleted f;
     old_mode := old_mode f; new_mode := new_mode f;
     similarity := similarity f |}.

Definition set_status (v : string) (f : FileDiff) : FileDiff :=
  {| old_path := old_path f; new_path := new_path f; status := v;
     hunks := hunks f; additions := additions f; deletions := deletions f;
     is_binary := is_binary f; is_new := is_new f; is_deleted := is_deleted f;
     old_mode := old_mode f; new_mode := new_mode f;
     similarity := similarity f |}.

Definition set_hunks (v : list Hunk) (f : FileDiff) : FileDiff :=
  {| old_path := old_path f; new_path := new_path f; status := status f;
     hunks := v; additions := additions f; deletions := deletions f;
     is_binary := is_binary f; is_new := is_new f; is_deleted := is_deleted f;
     old_mode := old_mode f; new_mode := new_mode f;
     similarity := similarity f |}.

Definition set_counts (a d : Z) (f : FileDiff) : FileDiff :=
  {| old_path := old_path f; new_path := new_path f; status := status f;
     hunks := hunks f; additions := a; deletions := d;
     is_binary := is_binary f; is_new := is_new f; is_deleted := is_deleted f;
     old_mode := old_mode f; new_mode := new_mode f;
     similarity := similarity f |}.

Definition set_is_binary (v : bool) (f : FileDiff) : FileDiff :=
  {| old_path := old_path f; new_path := new_path f; status := status f;
     hunks := hunks f; additions := additions f; deletions := deletions f;
     is_binary := v; is_new := is_new f; is_deleted := is_deleted f;
     old_mode := old_mode f; new_mode := new_mode f;
     similarity := similarity f |}.

Definition set_is_new (v : bool) (f : FileDiff) : FileDiff :=
  {| old_path := old_path f; new_path := new_path f; status := status f;
     hunks := hunks f; additions := additions f; deletions := deletions f;
     is_binary := is_binary f; is_new := v; is_deleted := is_deleted f;
     old_mode := old_mode f; new_mode := new_mode f;
     similarity := similarity f |}.

Definition set_is_deleted (v : bool) (f : FileDiff) : FileDiff :=
  {| old_path := old_path f; new_path := new_path f; status := status f;
     hunks := hunks f; additions := additions f; deletions := deletions f;
     is_binary := is_binary f; is_new := is_new f; is_deleted := v;
     old_mode := old_mode f; new_mode := new_mode f;
     similarity := similarity f |}.

Definition set_old_mode (v : option string) (f : FileDiff) : FileDiff :=
  {| old_path := old_path f; new_path := new_path f; status := status f;
     hunks := hunks f; additions := additions f; deletions := deletions f;
     is_binary := is_binary f; is_new := is_new f; is_deleted := is_deleted f;
     old_mode := v; new_mode := new_mode f;
     similarity := similarity f |}.

Definition set_new_mode (v : option string) (f : FileDiff) : FileDiff :=
  {| old_path := old_path f; new_path := new_path f; status := status f;
     hunks := hunks f; additions := additions f; deletions := deletions f;
     is_binary := is_binary f; is_new := is_new f; is_deleted := is_deleted f;
     old_mode := old_mode f; new_mode := v;
     similarity := similarity f |}.

Definition set_similarity (v : option Z) (f : FileDiff) : FileDiff :=
  {| old_path := old_path f; new_path := new_path f; status := status f;
     hunks := hunks f; additions := additions f; deletions := deletions f;
     is_binary := is_binary f; is_new := is_new f; is_deleted := is_deleted f;
     old_mode := old_mode f; new_mode := new_mode f;
     similarity := v |}.

(** The dictionary that a [diff --git] line creates. *)
Definition new_file (old new : string) : FileDiff :=
  {| old_path := old; new_path := new; status := "modified";
     hunks := []; additions := 0; deletions := 0;
     is_binary := false; is_new := false; is_deleted := false;
     old_mode := None; new_mode := None; similarity := None |}.

(** [sum(...)] over integers. *)
Definition sum (l : list Z) : Z := fold_left Z.add l 0.

Definition _finalize_file (f : FileDiff) : FileDiff :=
  set_counts (sum (map h_additions (hunks f))) (sum (map h_deletions (hunks f))) f.

(** ** The parser state

    The local variables of [parse_diff].  A hunk dictionary is created once
    and then mutated in place while references to it sit in [current_hunk]
    and in the list [current_hunks]; the heap holds the objects and a
    reference is the position of its object. *)

Definition ref : Type := nat.

Record state : Type := {
  st_files : list FileDiff;
  current_file : option FileDiff;
  heap : list Hunk;
  current_hunks : list ref;
  current_hunk : option ref;
  in_hunk : bool
}.

Definition empty_hunk : Hunk :=
  {| old_start := 0; old_count := 0; new_start := 0; new_count := 0;
     context := ""; lines := []; h_additions := 0; h_deletions := 0 |}.

(** The object behind a reference. *)
Definition deref (hp : list Hunk) (r : ref) : Hunk := nth r hp empty_hunk.

(** In-place update of the object behind [r]. *)
Fixpoint mutate (hp : list Hunk) (r : ref) (g : Hunk -> Hunk) : list Hunk :=
  match hp, r with
  | [], _ => []
  | h :: hp', O => g h :: hp'
  | h :: hp', S r' => h :: mutate hp' r' g
  end.

(** [h["lines"].append(l)], with the two counters moved by [da] and [dd]. *)
Definition append_line (l : Line) (da dd : Z) (h : Hunk) : Hunk :=
  {| old_start := old_start h; old_count := old_count h;
     new_start := new_start h; new_count := new_count h;
     context := context h; lines := lines h ++ [l];
     h_additions := h_additions h + da; h_deletions := h_deletions h + dd |}.

Definition initial_state : state :=
  {| st_files := []; current_file := None; heap := [];
     current_hunks := []; current_hunk := None; in_hunk := false |}.

(** [bool(current_file)]: a dictionary with keys is true, [None] is not. *)
Definition has_file (st : state) : bool :=
  match current_file st with Some _ => true | None => false end.

(** [if current_hunk: current_hunks.append(current_hunk)] *)
Definition flush_hunk (st : state) : list ref :=
  match current_hunk st with
  | Some r => current_hunks st ++ [r]
  | None => current_hunks st
  end.

(** The block that closes the current file, at a file header and at the end
    of the input: flush the hunk, store the list under [hunks], finalize and
    append to [files]. *)
Definition close_file (st : state) : list FileDiff :=
  match current_file st with
  | Some f =>
      st_files st ++
        [_finalize_file (set_hunks (map (deref (heap st)) (flush_hunk st)) f)]
  | None => st_files st
  end.

(** A change of the current file's dictionary. *)
Definition update_file (g : FileDiff -> FileDiff) (st : state) : state :=
  {| st_files := st_files st;
     current_file := option_map g (current_file st);
     heap := heap st; current_hunks := current_hunks st;
     current_hunk := current_hunk st; in_hunk := in_hunk st |}.

(** A change of the current hunk's dictionary. *)
Definition update_hunk (g : Hunk -> Hunk) (st : state) : state :=
  match current_hunk st with
  | Some r =>
      {| st_files := st_files st; current_file := current_file st;
         heap := mutate (heap st) r g; current_hunks := current_hunks st;
         current_hunk := current_hunk st; in_hunk := in_hunk st |}
  | None => st
  end.

Definition mk_line (t c : string) : Line := {| type := t; content := c |}.

(** The dictionary of a matched hunk header; the conversions run in the order
    of the keys. *)
Definition new_hunk (g : Re.hunk_groups) : result Hunk :=
  a <- py_int (Re.g_old_start g) ;;
  b <- match Re.g_old_count g with Some d => py_int d | None => Ok 1 end ;;
  c <- py_int (Re.g_new_start g) ;;
  d <- match Re.g_new_count g with Some d => py_int d | None => Ok 1 end ;;
  Ok {| old_start := a; old_count := b; new_start := c; new_count := d;
        context := strip (Re.g_context g); lines := [];
        h_additions := 0; h_deletions := 0 |}.

(** [m.group(1) if m else ""] and [m.group(2) if m else ""] for the match of
    the file header. *)
Definition header_paths (line : string) : string * string :=
  match Re.diff_git line with
  | Some (a, b) => (a, b)
  | None => ("", "")
  end.

(** The body of the hunk: the innermost [if] chain. *)
Definition body_line (line : string) (st : state) : state :=
  if startswith line "---" || startswith line "+++" then st
  else if startswith line "+" then
    update_hunk (append_line (mk_line "add" (drop 1 line)) 1 0) st
  else if startswith line "-" then
    update_hunk (append_line (mk_line "del" (drop 1 line)) 0 1) st
  else if startswith line " " then
    update_hunk (append_line (mk_line "ctx" (drop 1 line)) 0 0) st
  else if startswith line "\" then
    update_hunk (append_line (mk_line "noeol" (drop 1 line)) 0 0) st
  else st.

(** One turn of the [while] loop: the [if]/[elif] chain on [line]. *)
Definition step (st : state) (line : string) : result state :=
  if startswith line "diff --git " then
    Ok {| st_files := close_file st;
          current_file :=
            Some (new_file (fst (header_paths line)) (snd (header_paths line)));
          heap := heap st; current_hunks := []; current_hunk := None;
          in_hunk := false |}
  else if startswith line "new file mode" && has_file st then
    m <- last_item (split line) ;;
    Ok (update_file
          (fun f => set_new_mode (Some m) (set_status "added" (set_is_new true f)))
          st)
  else if startswith line "deleted file mode" && has_file st then
    Ok (update_file (fun f => set_status "deleted" (set_is_deleted true f)) st)
  else if startswith line "old mode" && has_file st then
    m <- last_item (split line) ;;
    Ok (update_file (set_old_mode (Some m)) st)
  else if startswith line "new mode" && has_file st then
    m <- last_item (split line) ;;
    Ok (update_file (set_new_mode (Some m)) st)
  else if startswith line "Binary files" && has_file st then
    Ok (update_file (set_is_binary true) st)
  else if startswith line "similarity index" && has_file st then
    match Re.similarity line with
    | Some d => n <- py_int d ;; Ok (update_file (set_similarity (Some n)) st)
    | None => Ok st
    end
  else if startswith line "rename from " && has_file st then
    Ok (update_file
          (fun f => set_status "renamed" (set_old_path (drop 12 line) f)) st)
  else if startswith line "rename to " && has_file st then
    Ok (update_file
          (fun f => set_status "renamed" (set_new_path (drop 10 line) f)) st)
  else if startswith line "copy from " && has_file st then
    Ok (update_file (set_status "copied") st)
  else if startswith line "@@" && has_file st then
    let hs := flush_hunk st in
    match Re.hunk_header line with
    | Some g =>
        h <- new_hunk g ;;
        Ok {| st_files := st_files st; current_file := current_file st;
              heap := heap st ++ [h]; current_hunks := hs;
              current_hunk := Some (length (heap st)); in_hunk := true |}
    | None =>
        Ok {| st_files := st_files st; current_file := current_file st;
              heap := heap st; current_hunks := hs;
              current_hunk := current_hunk st; in_hunk := true |}
    end
  else if in_hunk st
          && match current_hunk st with Some _ => true | None => false end then
    Ok (body_line line st)
  else Ok st.

(** The loop over the lines. *)
Fixpoint run (st : state) (ls : list string) : result state :=
  match ls with
  | [] => Ok st
  | l :: ls' => st' <- step st l ;; run st' ls'
  end.

(** The caption: the last line of the stat text, stripped. *)
Definition stat_caption (stat_raw : string) : result string :=
  if truthy (strip stat_raw) then last_item (splitlines (strip stat_raw))
  else Ok "".

Definition parse_diff (diff_raw stat_raw : string) : result DiffResult :=
  st <- run initial_state (split_nl diff_raw) ;;
  let fs := close_file st in
  cap <- stat_caption stat_raw ;;
  Ok {| files := fs;
        total_files := Z.of_nat (length fs);
        total_additions := sum (map additions fs);
        total_deletions := sum (map deletions fs);
        stat_summary := cap |}.

(** ** The command runner *)

(** What running the command amounts to: the process ends with an exit code
    and its captured output, or it outlives the time limit, or the executable
    is not found ([FileNotFoundError]), or starting it fails in another way
    (any other exception below [Exception]), or the directory to run it in
    does not exist.  The last is a [FileNotFoundError] too, git installed or
    not: [subprocess.run] raises it for a working directory that is missing,
    and so does [os.getcwd()], which [run_git] calls inside the same [try]
    when it is given no directory, for a current directory that is gone. *)
Inductive process : Type :=
| Exits (returncode : Z) (stdout : string)
| TimesOut
| NotFound
| Fails
| NoSuchDirectory.

Record CompletedProcess : Type := {
  cp_returncode : Z;
  cp_stdout : string
}.

(** [subprocess.run(..., check=check)]: with [check] a non-zero exit code is
    turned into [CalledProcessError]. *)
Definition subprocess_run (p : process) (check : bool) : result CompletedProcess :=
  match p with
  | Exits rc out =>
      if check && negb (rc =? 0) then Raise (CalledProcessError rc)
      else Ok {| cp_returncode := rc; cp_stdout := out |}
  | TimesOut => Raise TimeoutExpired
  | NotFound => Raise FileNotFoundError
  | Fails => Raise OtherException
  | NoSuchDirectory => Raise FileNotFoundError
  end.

Section CommandRunner.

(** The environment: what happens to a command line run in a directory
    under a time limit. *)
Variable os : list string -> option string -> Z -> process.

Definition git_not_found : string :=
  "git not found. Please install git and ensure it is in your PATH.".

Definition run_git (args : list string) (cwd : option string)
    (check : bool) (timeout : Z) : result string :=
  match subprocess_run (os ("git" :: args) cwd timeout) check with
  | Ok r => Ok (cp_stdout r)
  | Raise TimeoutExpired => Ok ""
  | Raise FileNotFoundError => Raise (RuntimeError git_not_found)
  | Raise _ => Ok ""
  end.

End CommandRunner.

(** An environment in which the tool prints a line and exits with code 1, as
    [git diff --exit-code] does on a modified tree. *)
Definition os_exit1 (_ : list string) (_ : option string) (_ : Z) : process :=
  Exits 1 "diff --git a/f b/f".

(** ** The relative-time formatter *)

(** [float(n)] for an integer, as the subtraction of an integer from a float
    converts it: the nearest double, ties to even, and [OverflowError] for
    an integer beyond the doubles. *)
Definition float_of_int (n : Z) : result spec_float :=
  match binary_normalize 53 1024 n 0 false with
  | S754_infinity _ => Raise OverflowError
  | x => Ok x
  end.

(** [x - y] on floats. *)
Definition float_sub (x y : spec_float) : spec_float := SFsub 53 1024 x y.

(** [int(x)] for a float: truncation toward zero; [OverflowError] on an
    infinity and [ValueError] on a NaN. *)
Definition int_of_float (x : spec_float) : result Z :=
  match x with
  | S754_zero _ => Ok 0
  | S754_infinity _ => Raise OverflowError
  | S754_nan => Raise ValueError
  | S754_finite s m e =>
      let a := if 0 <=? e then Z.pos m * 2 ^ e else Z.pos m / 2 ^ (- e) in
      Ok (if s then - a else a)
  end.

(** [int(now - ts)]: the whole seconds between the time stamp and the
    reading of the clock, as the code computes them. *)
Definition seconds_since (now : spec_float) (ts : Z) : result Z :=
  y <- float_of_int ts ;;
  int_of_float (float_sub now y).

(** [f"{n} {unit}{'s' if n != 1 else ''} ago"] *)
Definition ago (n : Z) (unit : string) : string :=
  str_of_int n ++ " " ++ unit ++ (if negb (n =? 1) then "s" else "") ++ " ago".

(** [_relative_time(ts)] when [datetime.now().timestamp()] reads [now]. *)
Definition _relative_time (now : spec_float) (ts : Z) : result string :=
  if ts =? 0 then Ok ""
  else
    diff <- seconds_since now ts ;;
    Ok (if diff <? 60 then "just now"
        else if diff <? 3600 then ago (diff / 60) "minute"
        else if diff <? 86400 then ago (diff / 3600) "hour"
        else if diff <? 604800 then ago (diff / 86400) "day"
        else if diff <? 2592000 then ago (diff / 604800) "week"
        else if diff <? 31536000 then ago (diff / 2592000) "month"
        else ago (diff / 31536000) "year").

(** The double nearest to [m] times 2 to the [e]. *)
Definition double (m e : Z) : spec_float := binary_normalize 53 1024 m e false.

(** The buckets in the words of the specification: the lengths of the units
    in seconds, months of 30 days and years of 365 days, and the phrase with
    the plural suffix exactly when the count is not 1. *)
Module RelativeTimeSpec.

Definition minute : Z := 60.
Definition hour : Z := 60 * minute.
Definition day : Z := 24 * hour.
Definition week : Z := 7 * day.
Definition month : Z := 30 * day.
Definition year : Z := 365 * day.

Definition phrase (count : Z) (unit : string) : string :=
  if Z.eq_dec count 1 then "1 " ++ unit ++ " ago"
  else str_of_int count ++ " " ++ unit ++ "s ago".

End RelativeTimeSpec.

(** ** Properties and sample inputs *)

(** The summation invariant of one file. *)
Definition summation_invariant (f : FileDiff) : Prop :=
  additions f = sum (map h_additions (hunks f))
  /\ deletions f = sum (map h_deletions (hunks f)).

(** The character [c], [n] times. *)
Fixpoint replicate (n : nat) (c : ascii) : string :=
  match n with
  | O => EmptyString
  | S n' => String c (replicate n' c)
  end.

Definition nl : string := String LF EmptyString.

(** A modified file with one hunk, a malformed hunk header after it, and one
    more body line. *)
Definition diff_malformed_second_header : string :=
  "diff --git a/f b/f" ++ nl ++
  "@@ -1 +1,2 @@" ++ nl ++
  "+a" ++ nl ++
  "@@ bad" ++ nl ++
  "+b".

(** A hunk header whose first number has 4301 digits. *)
Definition diff_long_number : string :=
  "diff --git a/f b/f" ++ nl ++
  "@@ -" ++ replicate 4301 "1" ++ " +1 @@".

(** [s] holds no line feed. *)
Fixpoint no_lf (s : string) : bool :=
  match s with
  | EmptyString => true
  | String c s' => negb (Ascii.eqb c LF) && no_lf s'
  end.

(** What [parse_diff] returns on [diff_malformed_second_header]: the one hunk
    holds the line that follows the malformed header and is listed twice. *)
Definition hunk_with_stray_line : Hunk :=
  {| old_start := 1; old_count := 1; new_start := 1; new_count := 2;
     context := "";
     lines := [{| type := "add"; content := "a" |}; {| type := "add"; content := "b" |}];
     h_additions := 2; h_deletions := 0 |}.

Definition result_malformed_second_header : DiffResult :=
  {| files :=
       [{| old_path := "f"; new_path := "f"; status := "modified";
           hunks := [hunk_with_stray_line; hunk_with_stray_line];
           additions := 4; deletions := 0;
           is_binary := false; is_new := false; is_deleted := false;
           old_mode := None; new_mode := None; similarity := None |}];
     total_files := 1; total_additions := 4; total_deletions := 0;
     stat_summary := "" |}.

(** The result that holds one file without hunks, [cap] being the caption. *)
Definition single_file_result (f : FileDiff) (cap : string) : DiffResult :=
  {| files := [f]; total_files := 1;
     total_additions := 0; total_deletions := 0; stat_summary := cap |}.

(** A file section that holds a rename-from line and no rename-to line. *)
Definition diff_rename_from_only : string :=
  "diff --git a/a.txt b/a.txt" ++ nl ++ "rename from a.txt".

(** A text that [int] converts: a run of digits, not empty and within the
    bound. *)
Definition numeral (s : string) : bool :=
  truthy s && all_digits s && (String.length s <=? int_max_str_digits)%nat.

Definition numeral_opt (o : option string) : bool :=
  match o with
  | Some s => numeral s
  | None => true
  end.

(** The optional count of a hunk header range as it is written. *)
Definition count_text (o : option string) : string :=
  match o with
  | Some b => "," ++ b
  | None => ""
  end.

(** The hunk header with start [a] and optional count [ob] for the old file,
    [c] and [od] for the new one, and the trailing text [t]. *)
Definition hunk_header_line (a : string) (ob : option string)
    (c : string) (od : option string) (t : string) : string :=
  "@@ -" ++ a ++ count_text ob ++ " +" ++ c ++ count_text od ++ " @@" ++ t.

(** A modified file with one hunk header and nothing below it. *)
Definition diff_one_header (header : string) : string :=
  "diff --git a/f b/f" ++ nl ++ header.

Definition hunk_1_1 : Hunk :=
  {| old_start := 1; old_count := 1; new_start := 1; new_count := 1;
     context := ""; lines := []; h_additions := 0; h_deletions := 0 |}.

Definition modified_file (hs : list Hunk) (a d : Z) : FileDiff :=
  {| old_path := "f"; new_path := "f"; status := "modified";
     hunks := hs; additions := a; deletions := d;
     is_binary := false; is_new := false; is_deleted := false;
     old_mode := None; new_mode := None; similarity := None |}.

(** The four markers of a body line and the kinds they stand for. *)
Inductive marker : Type := Plus | Minus | Space | Backslash.

Definition marker_char (m : marker) : ascii :=
  match m with
  | Plus => "+"%char
  | Minus => "-"%char
  | Space => " "%char
  | Backslash => "\"%char
  end.


(** A body line as it is written: the marker, then the content. *)
Definition line_text (b : marker * string) : string :=
  String (marker_char (fst b)) (snd b).


(** The line is a body line that the parser records: it stays on one line,
    and it does not begin with three pluses or three dashes.  Inside a hunk
    the parser passes over every line that begins so, as it does over the
    two lines that restate the file paths. *)
Definition body_ok (b : marker * string) : bool :=
  no_lf (snd b)
  && match fst b with
     | Plus => negb (startswith (snd b) "++")
     | Minus => negb (startswith (snd b) "--")
     | _ => true
     end.



(** The hunk that the header [hunk_header_line a ob c od t] opens. *)
Definition header_hunk (a : string) (ob : option string)
    (c : string) (od : option string) (t : string) : Hunk :=
  {| old_start := decimal_value 0 a;
     old_count := match ob with Some b => decimal_value 0 b | None => 1 end;
     new_start := decimal_value 0 c;
     new_count := match od with Some d => decimal_value 0 d | None => 1 end;
     context := strip (dot_star t); lines := [];
     h_additions := 0; h_deletions := 0 |}.


(** A hunk with an addition, a deletion, a context line and the marker of a
    missing final line feed. *)
Definition diff_four_kinds : string :=
  "diff --git a/f b/f" ++ nl ++
  "@@ -1,2 +1,2 @@" ++ nl ++
  "+hello" ++ nl ++
  "-world" ++ nl ++
  " same" ++ nl ++
  "\ No newline at end of file".

Definition result_four_kinds : DiffResult :=
  {| files :=
       [modified_file
          [{| old_start := 1; old_count := 2; new_start := 1; new_count := 2;
              context := "";
              lines := [{| type := "add"; content := "hello" |}; {| type := "del"; content := "world" |};
                        {| type := "ctx"; content := "same" |};
                        {| type := "noeol"; content := " No newline at end of file" |}];
              h_additions := 1; h_deletions := 1 |}] 1 1];
     total_files := 1; total_additions := 1; total_deletions := 1;
     stat_summary := "" |}.

(** The prefixes that the [if]/[elif] chain of the loop tests before it comes
    to the body of a hunk. *)
Definition header_prefixes : list string :=
  ["diff --git "; "new file mode"; "deleted file mode"; "old mode"; "new mode";
   "Binary files"; "similarity index"; "rename from "; "rename to ";
   "copy from "; "@@"].

Definition is_header_line (l : string) : bool :=
  existsb (startswith l) header_prefixes.

(** The line begins with none of the four markers. *)
Definition no_marker (l : string) : bool :=
  negb (startswith l "+") && negb (startswith l "-")
  && negb (startswith l " ") && negb (startswith l "\").

(** A line of a file section that opens neither a file nor a hunk. *)
Definition section_line (l : string) : bool :=
  negb (startswith l "diff --git ") && negb (startswith l "@@").


(** A hunk in which an empty line, a deletion whose content starts with two
    dashes, an addition whose content starts with two pluses and a line with
    an unknown first character stand between two recorded lines. *)
Definition diff_dropped_lines : string :=
  "diff --git a/f b/f" ++ nl ++
  "@@ -1,3 +1,3 @@" ++ nl ++
  "+a" ++ nl ++
  "" ++ nl ++
  "--- a comment in SQL" ++ nl ++
  "+++i;" ++ nl ++
  "?z" ++ nl ++
  " b".

Definition result_dropped_lines : DiffResult :=
  {| files :=
       [modified_file
          [{| old_start := 1; old_count := 3; new_start := 1; new_count := 3;
              context := "";
              lines := [{| type := "add"; content := "a" |}; {| type := "ctx"; content := "b" |}];
              h_additions := 1; h_deletions := 0 |}] 1 0];
     total_files := 1; total_additions := 1; total_deletions := 0;
     stat_summary := "" |}.

(** No line of the text is longer than what [int] converts. *)
Definition short_lines (diff_raw : string) : Prop :=
  Forall (fun l => (String.length l <= int_max_str_digits)%nat) (split_nl diff_raw).

(** How many of the records are of the kind [t]. *)
Definition count_kind (t : string) (ls : list Line) : Z :=
  Z.of_nat (length (filter (fun l => String.eqb (type l) t) ls)).

(** The counters of a hunk agree with its lines. *)
Definition hunk_counted (h : Hunk) : Prop :=
  h_additions h = count_kind "add" (lines h)
  /\ h_deletions h = count_kind "del" (lines h).

(** Every reference that the parser holds points into the heap. *)
Definition refs_valid (st : state) : Prop :=
  Forall (fun r => (r < length (heap st))%nat) (current_hunks st)
  /\ (forall r, current_hunk st = Some r -> (r < length (heap st))%nat).

(** What holds of the parser state at every turn of the loop: the references
    are valid, and the counters of every hunk, open or closed, agree with the
    lines of the hunk. *)
Definition heap_invariant (st : state) : Prop :=
  refs_valid st
  /\ Forall hunk_counted (heap st)
  /\ Forall (fun f => Forall hunk_counted (hunks f)) (st_files st).

(** ** More of Python's text operations, for the repository queries *)

Module PyLib.

(** The double quote, which a text literal cannot spell. *)
Definition QUOTE : ascii := "034"%char.

(** [s.lstrip(chars)], [s.rstrip(chars)] and [s.strip(chars)] for the set of
    characters that [p] decides. *)
Fixpoint lstrip_by (p : ascii -> bool) (s : string) : string :=
  match s with
  | EmptyString => EmptyString
  | String c s' => if p c then lstrip_by p s' else s
  end.

Fixpoint rstrip_by (p : ascii -> bool) (s : string) : string :=
  match s with
  | EmptyString => EmptyString
  | String c s' =>
      match rstrip_by p s' with
      | EmptyString => if p c then EmptyString else String c EmptyString
      | r => String c r
      end
  end.

Definition strip_by (p : ascii -> bool) (s : string) : string :=
  rstrip_by p (lstrip_by p s).

(** [s.split(c, n)] for a separator of one character; [None] is the default
    of no bound on the number of cuts. *)
Fixpoint split_char (c : ascii) (n : option nat) (s : string) : list string :=
  match s with
  | EmptyString => [EmptyString]
  | String a s' =>
      let cuts :=
        match n with
        | Some O => false
        | _ => Ascii.eqb a c
        end in
      if cuts then EmptyString :: split_char c (option_map pred n) s'
      else match split_char c n s' with
           | l :: ls => String a l :: ls
           | [] => [String a EmptyString]
           end
  end.

(** The first place where [s] reads [sep]: what stands before and what stands
    after.  [sep in s] is [cut sep s <> None], and [s.split(sep, 1)] is the
    pair when there is one. *)
Fixpoint cut (sep s : string) : option (string * string) :=
  if startswith s sep then Some (EmptyString, drop (String.length sep) s)
  else match s with
       | EmptyString => None
       | String a s' =>
           match cut sep s' with
           | Some (x, y) => Some (String a x, y)
           | None => None
           end
       end.

(** [c.isdigit()] on code points below 256: the ten digits and the
    superscripts one, two and three. *)
Definition is_digit_char (c : ascii) : bool :=
  let n := code c in
  ((48 <=? n) && (n <=? 57) || (n =? 178) || (n =? 179) || (n =? 185))%N.

Fixpoint all_chars (p : ascii -> bool) (s : string) : bool :=
  match s with
  | EmptyString => true
  | String c s' => p c && all_chars p s'
  end.

(** [s.isdigit()] *)
Definition isdigit (s : string) : bool := truthy s && all_chars is_digit_char s.

(** The white space that [int] skips around a numeral: of the white space of
    [str.strip] it does not take the separators 28 to 31. *)
Definition is_int_space (c : ascii) : bool :=
  let n := code c in
  ((9 <=? n) && (n <=? 13) || (n =? 32) || (n =? 133) || (n =? 160))%N.

(** The digits of a numeral body: runs of digits with single underscores
    between them. *)
Fixpoint int_digits (after_digit : bool) (s : string) : option string :=
  match s with
  | EmptyString => if after_digit then Some EmptyString else None
  | String c s' =>
      if is_digit c then option_map (String c) (int_digits true s')
      else if Ascii.eqb c "_" && after_digit then
        match s' with
        | String c' _ => if is_digit c' then int_digits false s' else None
        | EmptyString => None
        end
      else None
  end.

(** [int(s)] for any text: white space around, an optional sign, the digits;
    more than [int_max_str_digits] digits are refused. *)
Definition py_int_text (s : string) : result Z :=
  let t := strip_by is_int_space s in
  let (negative, body) :=
    match t with
    | String "+" r => (false, r)
    | String "-" r => (true, r)
    | _ => (false, t)
    end in
  match int_digits false body with
  | Some ds =>
      if (int_max_str_digits <? String.length ds)%nat then Raise ValueError
      else Ok (if negative then - decimal_value 0 ds else decimal_value 0 ds)
  | None => Raise ValueError
  end.

(** [s[:n]] *)
Fixpoint take (n : nat) (s : string) : string :=
  match n, s with
  | O, _ => EmptyString
  | S _, EmptyString => EmptyString
  | S n', String c s' => String c (take n' s')
  end.

(** [l[:-1]] *)
Fixpoint but_last {A : Type} (l : list A) : list A :=
  match l with
  | [] => []
  | [_] => []
  | x :: l' => x :: but_last l'
  end.

End PyLib.

Import PyLib.

(** ** The repository queries built on [run_git] and [parse_diff] *)

(** [bool(x)] for an optional text: [None] and the empty text are false. *)
Definition truthy_opt (o : option string) : bool :=
  match o with
  | Some s => truthy s
  | None => false
  end.

(** The text of an optional argument where the code has found it true. *)
Definition text_of (o : option string) : string :=
  match o with
  | Some s => s
  | None => EmptyString
  end.

(** The dictionary of [get_file_content]. *)
Record FileContent : Type := {
  fc_content : string;
  fc_lines : Z;
  fc_path : string;
  fc_ref : string
}.

Definition not_a_repository (cwd : string) : string :=
  "Not a git repository (or any parent up to mount point): " ++ cwd.

Section Queries.

(** The environment: what a command does, and what [os.getcwd()] gives. *)
Variable os : list string -> option string -> Z -> process.
Variable getcwd : result string.

(** [run_git(args, cwd=cwd)] as all the queries call it: unchecked, with the
    default time limit. *)
Definition git (args : list string) (cwd : string) : result string :=
  run_git os args (Some cwd) false 30.

Definition run_git_lines (args : list string) (cwd : option string)
    : result (list string) :=
  raw <- run_git os args cwd false 30 ;;
  Ok (filter (fun l => truthy (strip l)) (splitlines raw)).

Definition get_repo_root (path : option string) : result string :=
  cwd <- (if truthy_opt path then Ok (text_of path) else getcwd) ;;
  out <- git ["rev-parse"; "--show-toplevel"] cwd ;;
  let root := strip out in
  if negb (truthy root) then Raise (RuntimeError (not_a_repository cwd))
  else Ok root.

(** [try: ... return True / except RuntimeError: return False] *)
Definition is_git_repo (path : option string) : result bool :=
  match get_repo_root path with
  | Ok _ => Ok true
  | Raise (RuntimeError _) => Ok false
  | Raise e => Raise e
  end.

(** The two command lines of [get_diff], the diff and the stat, before the
    path filter.  When the stat list is the diff list itself (the branch
    [else args]) the two names denote one list object; [shared] tells. *)
Definition get_diff_args (base compare : option string) (staged : bool)
    (context : Z) : list string * list string * bool :=
  let u := "-U" ++ str_of_int context in
  let args :=
    if staged then ["diff"; u; "--cached"]
    else if truthy_opt base && truthy_opt compare then
      ["diff"; u; text_of base ++ "..." ++ text_of compare]
    else if truthy_opt base then ["show"; u; "--format="; text_of base]
    else ["diff"; u] in
  let stat_args := filter (fun a => negb (startswith a "-U")) args in
  if existsb (String.eqb "show") stat_args then
    if truthy_opt base then
      (args, ["show"; "--stat"; "--format="; text_of base], false)
    else (args, args, true)
  else (args, (stat_args ++ ["--stat"])%list, false).

(** [args += ["--", path_filter]] and [stat_args_final += ...]: on one shared
    list both extensions land in the same object. *)
Definition with_path_filter (a : list string * list string * bool)
    (path_filter : option string) : list string * list string :=
  let '(args, stat, shared) := a in
  if truthy_opt path_filter then
    let f := ["--"; text_of path_filter] in
    if shared then ((args ++ f ++ f)%list, (args ++ f ++ f)%list)
    else ((args ++ f)%list, (stat ++ f)%list)
  else (args, stat).

Definition get_diff (repo_root : string) (base compare : option string)
    (staged : bool) (context : Z) (path_filter : option string)
    : result DiffResult :=
  let (args, stat_args_final) :=
    with_path_filter (get_diff_args base compare staged context) path_filter in
  stat_raw <- git stat_args_final repo_root ;;
  diff_raw <- git args repo_root ;;
  parse_diff diff_raw stat_raw.

Definition get_commit_diff (commit_hash : string) (repo_root : string)
    (context : Z) : result DiffResult :=
  get_diff repo_root (Some commit_hash) None false context None.

Definition get_staged_diff (repo_root : string) (context : Z) : result DiffResult :=
  get_diff repo_root None None true context None.

Definition get_unstaged_diff (repo_root : string) (context : Z) : result DiffResult :=
  get_diff repo_root None None false context None.

Definition get_range_diff (repo_root base compare : string) (context : Z)
    : result DiffResult :=
  stat_raw <- git ["diff"; "--stat"; base ++ "..." ++ compare] repo_root ;;
  diff_raw <- git ["diff"; "-U" ++ str_of_int context; base ++ "..." ++ compare]
                  repo_root ;;
  parse_diff diff_raw stat_raw.

Definition get_stash_diff (repo_root ref : string) (context : Z)
    : result DiffResult :=
  diff_raw <- git ["stash"; "show"; "-p"; "-U" ++ str_of_int context; ref]
                  repo_root ;;
  stat_raw <- git ["stash"; "show"; "--stat"; ref] repo_root ;;
  parse_diff diff_raw stat_raw.

Definition get_file_content (repo_root path ref : string) : result FileContent :=
  content <- git ["show"; ref ++ ":" ++ path] repo_root ;;
  Ok {| fc_content := content;
        fc_lines := Z.of_nat (length (splitlines content));
        fc_path := path; fc_ref := ref |}.

Definition resolve_ref (repo_root ref : string) : result string :=
  out <- git ["rev-parse"; ref] repo_root ;;
  Ok (strip out).

End Queries.

(** The line holds none of the characters at which [splitlines] cuts. *)
Definition no_linebreak (l : string) : bool :=
  all_chars (fun c => negb (is_linebreak c)) l.

(** An environment in which every command prints the same text and exits with
    the same code. *)
Definition os_const (rc : Z) (out : string)
    (_ : list string) (_ : option string) (_ : Z) : process :=
  Exits rc out.

(** An environment in which every stat command prints a summary and every
    other command prints [diff_four_kinds]. *)
Definition os_sample (argv : list string) (_ : option string) (_ : Z) : process :=
  if existsb (String.eqb "--stat") argv
  then Exits 0 (" f | 2 +-" ++ nl ++ " 1 file changed, 1 insertion(+), 1 deletion(-)" ++ nl)
  else Exits 0 diff_four_kinds.

Definition result_four_kinds_captioned : DiffResult :=
  {| files := files result_four_kinds;
     total_files := 1; total_additions := 1; total_deletions := 1;
     stat_summary := " 1 file changed, 1 insertion(+), 1 deletion(-)" |}.

(** ** The list-shaped queries *)

(** The longest run of characters that [p] accepts at the head of [s], and
    what follows it: what a greedy repetition of the class consumes. *)
Fixpoint span_by (p : ascii -> bool) (s : string) : string * string :=
  match s with
  | EmptyString => (EmptyString, EmptyString)
  | String c s' =>
      if p c then let (d, r) := span_by p s' in (String c d, r)
      else (EmptyString, s)
  end.

(** The class [[0-9a-f]]. *)
Definition is_hex (c : ascii) : bool :=
  let n := code c in
  ((48 <=? n) && (n <=? 57) || (97 <=? n) && (n <=? 102))%N.

(** The class [\w] on code points below 256: letters, digits and the
    underscore, with the letters and number signs of Latin-1. *)
Definition is_word (c : ascii) : bool :=
  let n := code c in
  ((48 <=? n) && (n <=? 57) || (65 <=? n) && (n <=? 90) || (n =? 95)
   || (97 <=? n) && (n <=? 122) || (n =? 170) || (178 <=? n) && (n <=? 179)
   || (n =? 181) || (185 <=? n) && (n <=? 186) || (188 <=? n) && (n <=? 190)
   || (192 <=? n) && (n <=? 214) || (216 <=? n) && (n <=? 246)
   || (248 <=? n) && (n <=? 255))%N.

Definition TAB : ascii := "009"%char.

Module StatusEntry.
Record t : Type := {
  staged : string;
  unstaged : string;
  path : string;
  old_path : option string;
  xy : string
}.
End StatusEntry.

Module TreeEntry.
Record t : Type := {
  mode : string;
  type : string;
  hash : string;
  size : Z;
  path : string;
  name : string;
  dir : string
}.
End TreeEntry.

Module Stash.
Record t : Type := {
  ref : string;
  hash : string;
  message : string;
  relative : string;
  timestamp : Z
}.
End Stash.

Module Ref.
Record t : Type := {
  name : string;
  hash : string;
  type : string
}.
End Ref.

(** [s.strip] of the double quote. *)
Definition strip_quotes (s : string) : string := strip_by (Ascii.eqb QUOTE) s.

(** The body of the loop of [get_status] for a line of four characters or
    more. *)
Definition status_entry (line : string) : StatusEntry.t :=
  let xy := take 2 line in
  let rest := drop 3 line in
  let (old, new) :=
    match cut " -> " rest with
    | Some (a, b) => (a, b)
    | None => (rest, rest)
    end in
  {| StatusEntry.staged := take 1 xy;
     StatusEntry.unstaged := take 1 (drop 1 xy);
     StatusEntry.path := strip_quotes (strip new);
     StatusEntry.old_path :=
       if String.eqb old new then None else Some (strip_quotes (strip old));
     StatusEntry.xy := xy |}.

(** [re.match] of the pattern of [git ls-tree -r --long] on [line]: digits
    (group 1), a space, word characters (group 2), a space, hexadecimal
    digits (group 3), white space, digits or a dash (group 4), a tab and the
    rest of the line (group 5).  Every repetition must take its whole run,
    since what follows it in the pattern is outside its class. *)
Definition ls_tree_groups (line : string)
    : option (string * string * string * string * string) :=
  let (g1, r1) := span_by is_digit line in
  if negb (truthy g1) then None else
  match r1 with
  | String " " r2 =>
      let (g2, r3) := span_by is_word r2 in
      if negb (truthy g2) then None else
      match r3 with
      | String " " r4 =>
          let (g3, r5) := span_by is_hex r4 in
          if negb (truthy g3) then None else
          let (ws, r6) := span_by is_space r5 in
          if negb (truthy ws) then None else
          let (d, r7) := span_by is_digit r6 in
          let size_and_rest :=
            if truthy d then Some (d, r7)
            else match r6 with
                 | String "-" r7' => Some ("-", r7')
                 | _ => None
                 end in
          match size_and_rest with
          | Some (g4, String t r8) =>
              if Ascii.eqb t TAB then
                match dot_star r8 with
                | EmptyString => None
                | g5 => Some (g1, g2, g3, g4, g5)
                end
              else None
          | _ => None
          end
      | _ => None
      end
  | _ => None
  end.

(** The loop of [get_file_tree] over the lines still to read. *)
Fixpoint file_tree_entries (ls : list string) : result (list TreeEntry.t) :=
  match ls with
  | [] => Ok []
  | line :: ls' =>
      match ls_tree_groups line with
      | Some (g1, g2, g3, g4, g5) =>
          size <- (if String.eqb g4 "-" then Ok 0 else py_int_text g4) ;;
          rest <- file_tree_entries ls' ;;
          Ok ({| TreeEntry.mode := g1; TreeEntry.type := g2;
                 TreeEntry.hash := g3; TreeEntry.size := size;
                 TreeEntry.path := g5;
                 TreeEntry.name :=
                   List.last (split_char "/" None g5) EmptyString;
                 TreeEntry.dir :=
                   String.concat "/" (but_last (split_char "/" None g5)) |}
                :: rest)
      | None => file_tree_entries ls'
      end
  end.

(** [int(x) if x.strip().isdigit() else 0] *)
Definition int_if_digit (x : string) : result Z :=
  if isdigit (strip x) then py_int_text x else Ok 0.

(** The loop of [get_stashes]. *)
Fixpoint stash_entries (ls : list string) : result (list Stash.t) :=
  match ls with
  | [] => Ok []
  | line :: ls' =>
      let parts := split_char "|" (Some 4%nat) line in
      if (3 <=? length parts)%nat then
        ts <- (match nth_error parts 4 with
               | Some x => int_if_digit x
               | None => Ok 0
               end) ;;
        rest <- stash_entries ls' ;;
        Ok ({| Stash.ref := nth 0 parts EmptyString;
               Stash.hash := nth 1 parts EmptyString;
               Stash.message := nth 2 parts EmptyString;
               Stash.relative := nth 3 parts EmptyString;
               Stash.timestamp := ts |} :: rest)
      else stash_entries ls'
  end.

(** The body of the loop of [get_all_refs]. *)
Definition ref_entry (line : string) : list Ref.t :=
  match split_char "|" (Some 2%nat) line with
  | [a; b; c] => [{| Ref.name := a; Ref.hash := b; Ref.type := c |}]
  | _ => []
  end.

(** [Counter(keys)]: the keys in the order of their first occurrence, each
    with the number of its occurrences. *)
Fixpoint counter_add (k : string) (c : list (string * Z)) : list (string * Z) :=
  match c with
  | [] => [(k, 1)]
  | (k', n) :: c' =>
      if String.eqb k k' then (k', n + 1) :: c'
      else (k', n) :: counter_add k c'
  end.

Definition Counter (keys : list string) : list (string * Z) :=
  fold_left (fun c k => counter_add k c) keys [].

(** The order of the pairs (text, number): by the text, then by the number. *)
Definition item_lt (a b : string * Z) : bool :=
  match String.compare (fst a) (fst b) with
  | Lt => true
  | Eq => snd a <? snd b
  | Gt => false
  end.

(** [sorted(items)]: a stable sort by [<]; every item goes in front of the
    first item that is greater. *)
Fixpoint insert_item (x : string * Z) (l : list (string * Z)) : list (string * Z) :=
  match l with
  | [] => [x]
  | y :: l' => if item_lt x y then x :: y :: l' else y :: insert_item x l'
  end.

Definition sorted_items (l : list (string * Z)) : list (string * Z) :=
  fold_left (fun acc x => insert_item x acc) l [].

Section ListQueries.

Variable os : list string -> option string -> Z -> process.

Definition get_status (repo_root : string) : result (list StatusEntry.t) :=
  raw <- git os ["status"; "--porcelain=v1"; "-u"] repo_root ;;
  Ok (map status_entry
        (filter (fun line => (4 <=? String.length line)%nat) (splitlines raw))).

Definition get_file_tree (repo_root ref : string) : result (list TreeEntry.t) :=
  raw <- git os ["ls-tree"; "-r"; "--long"; ref] repo_root ;;
  file_tree_entries (splitlines raw).

Definition get_stashes (repo_root : string) : result (list Stash.t) :=
  raw <- git os ["stash"; "list"; "--format=%gd|%H|%s|%cr|%at"] repo_root ;;
  stash_entries (splitlines raw).

Definition get_all_refs (repo_root : string) : result (list Ref.t) :=
  raw <- git os ["for-each-ref";
                 "--format=%(refname:short)|%(objectname:short)|%(objecttype)";
                 "refs/"] repo_root ;;
  Ok (flat_map ref_entry (splitlines raw)).

Definition get_commit_stats_by_day (repo_root : string) (days : Z)
    : result (list (string * Z)) :=
  raw <- git os ["log"; "--format=%ad"; "--date=short";
                 "--since=" ++ str_of_int days ++ " days ago"; "HEAD"]
             repo_root ;;
  Ok (sorted_items (Counter (splitlines raw))).

End ListQueries.

(** [find_free_port]: [can_bind port] tells whether binding the address
    succeeds, for a port that a socket takes, from 0 to 65535; for any other
    port [bind] raises [OverflowError], which the [except OSError] of the
    loop does not catch.  Creating the socket is taken to succeed.
    [scan_ports] is the loop over [range(start, end)]; [None] is its running
    to the end. *)
Fixpoint scan_ports (can_bind : Z -> bool) (port : Z) (n : nat)
    : result (option Z) :=
  match n with
  | O => Ok None
  | S n' =>
      if (port <? 0) || (65535 <? port) then Raise OverflowError
      else if can_bind port then Ok (Some port)
      else scan_ports can_bind (port + 1) n'
  end.

Definition find_free_port (can_bind : Z -> bool) (start stop : Z) : result Z :=
  found <- scan_ports can_bind start (Z.to_nat (stop - start)) ;;
  Ok (match found with
      | Some port => port
      | None => start
      end).

(** A port that a socket takes. *)
Definition port_ok (p : Z) : Prop := 0 <= p <= 65535.

(** [s] holds no occurrence of the character [c]. *)
Definition lacks (c : ascii) (s : string) : bool :=
  all_chars (fun a => negb (Ascii.eqb a c)) s.

(** A path as git prints it bare: not empty, without white space and without
    double quotes. *)
Definition plain (p : string) : bool :=
  truthy p && all_chars (fun c => negb (is_space c) && negb (Ascii.eqb c QUOTE)) p.

(** The command line of [get_all_refs]. *)
Definition all_refs_command : list string :=
  ["git"; "for-each-ref";
   "--format=%(refname:short)|%(objectname:short)|%(objecttype)"; "refs/"].

(** The line that [git stash list] prints for a stash under the format of
    [get_stashes]. *)
Definition stash_line (ref hash message relative timestamp : string) : string :=
  ref ++ "|" ++ hash ++ "|" ++ message ++ "|" ++ relative ++ "|" ++ timestamp.

(** The command line of [get_status], and the line that git prints for an
    entry: the two status letters, one more character and the path, or the
    old path, an arrow and the new path. *)
Definition status_command : list string :=
  ["git"; "status"; "--porcelain=v1"; "-u"].

Definition status_line (x y z : ascii) (rest : string) : string :=
  String x (String y (String z rest)).

Definition ARROW : string := " -> ".

(** What every entry of [get_file_tree] satisfies: the path is not empty, the
    name holds no slash, the size is not negative, and the directory and the
    name give the path back: the name alone when the path holds no slash,
    the directory, a slash and the name otherwise. *)
Definition tree_entry_ok (e : TreeEntry.t) : Prop :=
  truthy (TreeEntry.path e) = true
  /\ lacks "/" (TreeEntry.name e) = true
  /\ 0 <= TreeEntry.size e
  /\ TreeEntry.path e
     = (if lacks "/" (TreeEntry.path e) then TreeEntry.name e
        else TreeEntry.dir e ++ "/" ++ TreeEntry.name e)
  /\ (lacks "/" (TreeEntry.path e) = true -> TreeEntry.dir e = "").

(** The command line of [get_commit_stats_by_day]. *)
Definition stats_by_day_command (days : Z) : list string :=
  ["git"; "log"; "--format=%ad"; "--date=short";
   "--since=" ++ str_of_int days ++ " days ago"; "HEAD"].

(** How many times [k] stands in [ls]. *)
Definition occurrences (k : string) (ls : list string) : Z :=
  Z.of_nat (count_occ string_dec ls k).

(** The count that a counter holds for [k]: 0 for a key it does not have. *)
Fixpoint count_of (k : string) (c : list (string * Z)) : Z :=
  match c with
  | [] => 0
  | (k', n) :: c' => if String.eqb k k' then n else count_of k c'
  end.

(** The sum of the counts. *)
Definition total (items : list (string * Z)) : Z :=
  fold_right (fun x acc => snd x + acc) 0 items.

(** The order of the keys of two items. *)
Definition key_lt (a b : string * Z) : Prop :=
  String.compare (fst a) (fst b) = Lt.

(** A command that leaves nothing to read and raises no
    [FileNotFoundError]: it timed out, it failed with another exception, or
    it ran and printed nothing. *)
Definition quiet (p : process) : Prop :=
  match p with
  | Exits _ out => out = ""
  | NotFound | NoSuchDirectory => False
  | TimesOut | Fails => True
  end.

(** The result of [parse_diff] on two empty texts. *)
Definition empty_diff : DiffResult :=
  {| files := []; total_files := 0; total_additions := 0;
     total_deletions := 0; stat_summary := "" |}.

Definition os_timeout (_ : list string) (_ : option string) (_ : Z) : process :=
  TimesOut.

Definition os_no_git (_ : list string) (_ : option string) (_ : Z) : process :=
  NotFound.

(** An environment in which git is installed and runs wherever the
    directory exists; the directory [/gone] does not. *)
Definition os_directory_gone (_ : list string) (cwd : option string) (_ : Z)
    : process :=
  match cwd with
  | Some "/gone" => NoSuchDirectory
  | _ => Exits 0 "ok"
  end.

(** ** The raw git command of the server *)

(** What the handler sends: the status code and the JSON object, which has
    the one key [output] or the one key [error]. *)
Inductive payload : Type :=
| Output (out : string)
| Error (message : string).

Module Response.
Record t : Type := {
  status : Z;
  body : payload
}.
End Response.

Definition SAFE : list string :=
  ["log"; "show"; "diff"; "blame"; "ls-tree"; "ls-files";
   "rev-list"; "rev-parse"; "shortlog"; "for-each-ref";
   "stash"; "tag"; "branch"; "remote"; "status"; "describe"].

Definition command_not_allowed : Response.t :=
  {| Response.status := 403; Response.body := Error "Command not allowed" |}.

(** The branch of [_route] for the path [/api/git]; [cmd] is the value of
    the query parameter.  [x in SAFE] is [existsb (String.eqb x) SAFE]. *)
Definition route_git (os : list string -> option string -> Z -> process)
    (root cmd : string) : result Response.t :=
  let args := split cmd in
  let refused :=
    match args with
    | [] => true
    | a :: _ => negb (existsb (String.eqb a) SAFE)
    end in
  if refused then Ok command_not_allowed
  else
    out <- git os args root ;;
    Ok {| Response.status := 200; Response.body := Output out |}.

(** A word: a text that is not empty and holds no white space. *)
Definition word (w : string) : bool :=
  truthy w && all_chars (fun c => negb (is_space c)) w.

(** The words with one space between them. *)
Definition unwords (ws : list string) : string := String.concat " " ws.

Definition os_echo (argv : list string) (_ : option string) (_ : Z) : process :=
  Exits 0 (unwords argv).

(** An environment that serves the listed commands as [os_echo] does and
    fails every other command. *)
Definition os_listed (argv : list string) (_ : option string) (_ : Z) : process :=
  match argv with
  | _ :: sub :: _ =>
      if existsb (String.eqb sub) SAFE then Exits 0 (unwords argv) else Fails
  | _ => Fails
  end.

(** ** The commit history *)

Module Commit.
Record t : Type := {
  hash : string;
  short_hash : string;
  author_name : string;
  author_email : string;
  author_timestamp : Z;
  date : string;
  date_relative : string;
  committer_name : string;
  committer_email : string;
  committer_timestamp : Z;
  subject : string;
  parents : list string;
  refs : string
}.
End Commit.

Definition _COMMIT_FMT : string := "%H|%h|%an|%ae|%at|%cn|%ce|%ct|%s|%P|%D".

(** [[p.strip() for p in s.split() if p.strip()]] *)
Definition stripped_words (s : string) : list string :=
  map strip (filter (fun p => truthy (strip p)) (split s)).

Section History.

(** The environment: what a command does; the clock, as the readings of
    [datetime.now().timestamp()] in the order in which they are taken; and
    the local time of a time stamp in the format of the history, that is
    [datetime.fromtimestamp(ts).strftime], which raises on a time stamp out
    of its range. *)
Variable os : list string -> option string -> Z -> process.
Variable clock : nat -> spec_float.
Variable local_time : Z -> result string.

(** The loop of [get_commit_history] over the lines still to read, after
    [n] readings of the clock: [_relative_time] reads it for a time stamp
    other than 0 only. *)
Fixpoint commit_entries (n : nat) (ls : list string) : result (list Commit.t) :=
  match ls with
  | [] => Ok []
  | line :: ls' =>
      if negb (truthy (strip line)) then commit_entries n ls'
      else
        let parts := split_char "|" (Some 10%nat) line in
        if (length parts <? 10)%nat then commit_entries n ls'
        else
          ts <- int_if_digit (nth 4 parts EmptyString) ;;
          date <- (if ts =? 0 then Ok EmptyString else local_time ts) ;;
          relative <- _relative_time (clock n) ts ;;
          cts <- int_if_digit (nth 7 parts EmptyString) ;;
          rest <- commit_entries (if ts =? 0 then n else S n) ls' ;;
          Ok ({| Commit.hash := strip (nth 0 parts EmptyString);
                 Commit.short_hash := strip (nth 1 parts EmptyString);
                 Commit.author_name := strip (nth 2 parts EmptyString);
                 Commit.author_email := strip (nth 3 parts EmptyString);
                 Commit.author_timestamp := ts;
                 Commit.date := date;
                 Commit.date_relative := relative;
                 Commit.committer_name := strip (nth 5 parts EmptyString);
                 Commit.committer_email := strip (nth 6 parts EmptyString);
                 Commit.committer_timestamp := cts;
                 Commit.subject := strip (nth 8 parts EmptyString);
                 Commit.parents := stripped_words (nth 9 parts EmptyString);
                 Commit.refs :=
                   match nth_error parts 10 with
                   | Some x => strip x
                   | None => EmptyString
                   end |} :: rest)
  end.

Definition history_args (limit : Z) (branch : string)
    (author path_filter search : option string) : list string :=
  let format := "--format=" ++ _COMMIT_FMT in
  let count := "-" ++ str_of_int limit in
  let by_author := "--author=" ++ text_of author in
  let grep := "--grep=" ++ text_of search in
  (["log"; format; count; branch]
   ++ (if truthy_opt author then [by_author] else [])
   ++ (if truthy_opt search then [grep; "--regexp-ignore-case"] else [])
   ++ (if truthy_opt path_filter then ["--"; text_of path_filter] else []))%list.

Definition get_commit_history (repo_root : string) (limit : Z) (branch : string)
    (author path_filter search : option string) : result (list Commit.t) :=
  raw <- git os (history_args limit branch author path_filter search) repo_root ;;
  commit_entries 0 (splitlines raw).

Definition get_file_log (repo_root path : string) (limit : Z)
    : result (list Commit.t) :=
  get_commit_history repo_root limit "HEAD" None (Some path) None.

End History.

(** The line that [git log] prints for a commit under [_COMMIT_FMT]. *)
Definition commit_line (h sh an ae at' cn ce ct s P D : string) : string :=
  h ++ "|" ++ sh ++ "|" ++ an ++ "|" ++ ae ++ "|" ++ at' ++ "|" ++ cn ++ "|"
    ++ ce ++ "|" ++ ct ++ "|" ++ s ++ "|" ++ P ++ "|" ++ D.

(** A clock that always reads the same time, and a local time that always
    reads the same text. *)
Definition clock_at (now : Z) (_ : nat) : spec_float := double now 0.

Definition local_time_const (text : string) (_ : Z) : result string := Ok text.

(** ** Commits per author *)

Module AuthorCount.
Record t : Type := {
  count : Z;
  author : string
}.
End AuthorCount.

(** Where the last repetition of the pattern of [shortlog_groups] can start
    inside the run of white space [t] that follows the first character of
    that run: the last place whose character is not a line feed. *)
Fixpoint last_start (t : string) : option string :=
  match t with
  | EmptyString => None
  | String c t' =>
      match last_start t' with
      | Some s => Some s
      | None => if Ascii.eqb c LF then None else Some t
      end
  end.

(** [re.match] of the pattern of [git shortlog -sn] on [line]: white space,
    digits (group 1), white space, and at least one character of the line
    (group 2).  The white space before group 2 is as long as it can be; when
    nothing follows it, it gives characters back for group 2 to have one. *)
Definition shortlog_groups (line : string) : option (string * string) :=
  let (_, r1) := span_by is_space line in
  let (g1, r2) := span_by is_digit r1 in
  if negb (truthy g1) then None else
  let (ws, r3) := span_by is_space r2 in
  match ws with
  | EmptyString => None
  | String _ ws' =>
      match r3 with
      | String _ _ => Some (g1, dot_star r3)
      | EmptyString =>
          match last_start ws' with
          | Some s => Some (g1, dot_star s)
          | None => None
          end
      end
  end.

(** The loop of [get_commit_stats_by_author]. *)
Fixpoint author_entries (ls : list string) : result (list AuthorCount.t) :=
  match ls with
  | [] => Ok []
  | line :: ls' =>
      match shortlog_groups line with
      | Some (g1, g2) =>
          n <- py_int_text g1 ;;
          rest <- author_entries ls' ;;
          Ok ({| AuthorCount.count := n; AuthorCount.author := strip g2 |} :: rest)
      | None => author_entries ls'
      end
  end.

Definition get_commit_stats_by_author
    (os : list string -> option string -> Z -> process) (repo_root : string)
    : result (list AuthorCount.t) :=
  raw <- git os ["shortlog"; "-sn"; "--no-merges"; "HEAD"] repo_root ;;
  author_entries (splitlines raw).

(** A run of white space, possibly empty. *)
Definition blank (s : string) : bool := all_chars is_space s.

(** The line that [git shortlog -sn] prints for an author: the count, padded
    on the left, white space, and the name. *)
Definition shortlog_line (pad count sep name : string) : string :=
  pad ++ count ++ sep ++ name.

(** ** The detail of a commit *)

Module Detail.
Record t : Type := {
  hash : string;
  short_hash : string;
  author_name : string;
  author_email : string;
  author_timestamp : Z;
  date : string;
  date_relative : string;
  committer_name : string;
  committer_email : string;
  parents : list string;
  is_merge : bool;
  refs : string;
  subject : string;
  body : string
}.
End Detail.

Definition END_MARK : string := "<<<END>>>".

Definition detail_format : string :=
  "--format=%H%n%h%n%an%n%ae%n%at%n%cn%n%ce%n%P%n%D%n%s%n%b%n<<<END>>>".

(** The loop that gathers the body: the lines up to the first one that is
    the end mark. *)
Fixpoint until_end (ls : list string) : list string :=
  match ls with
  | [] => []
  | l :: ls' => if String.eqb l END_MARK then [] else l :: until_end ls'
  end.

Section CommitDetail.

(** The environment: what a command does, what the clock reads when
    [_relative_time] asks, and the local time of a time stamp. *)
Variable os : list string -> option string -> Z -> process.
Variable now : spec_float.
Variable local_time : Z -> result string.

(** [get_commit_detail]; [None] is the empty dict that it returns for an
    output of fewer than ten lines. *)
Definition get_commit_detail (ref repo_root : string)
    : result (option Detail.t) :=
  raw <- git os ["show"; "-s"; detail_format; ref] repo_root ;;
  let lines := split_nl raw in
  if (length lines <? 10)%nat then Ok None
  else
    let body_lines := until_end (skipn 10 lines) in
    ts <- int_if_digit (nth 4 lines EmptyString) ;;
    let parents := stripped_words (nth 7 lines EmptyString) in
    date <- (if ts =? 0 then Ok EmptyString else local_time ts) ;;
    relative <- _relative_time now ts ;;
    Ok (Some {| Detail.hash := strip (nth 0 lines EmptyString);
                Detail.short_hash := strip (nth 1 lines EmptyString);
                Detail.author_name := strip (nth 2 lines EmptyString);
                Detail.author_email := strip (nth 3 lines EmptyString);
                Detail.author_timestamp := ts;
                Detail.date := date;
                Detail.date_relative := relative;
                Detail.committer_name := strip (nth 5 lines EmptyString);
                Detail.committer_email := strip (nth 6 lines EmptyString);
                Detail.parents := parents;
                Detail.is_merge := (1 <? length parents)%nat;
                Detail.refs := strip (nth 8 lines EmptyString);
                Detail.subject := strip (nth 9 lines EmptyString);
                Detail.body := strip (join_nl body_lines) |}).

End CommitDetail.

(** What [git show] prints under [detail_format]: the ten fields, one to a
    line, the body, and the end mark on a line of its own. *)
Definition detail_text (h sh an ae at' cn ce P D s b : string) : string :=
  h ++ nl ++ sh ++ nl ++ an ++ nl ++ ae ++ nl ++ at' ++ nl ++ cn ++ nl ++ ce
    ++ nl ++ P ++ nl ++ D ++ nl ++ s ++ nl ++ b ++ nl ++ END_MARK ++ nl.

(** No line of the text is the end mark. *)
Definition free_of_mark (b : string) : bool :=
  forallb (fun l => negb (String.eqb l END_MARK)) (split_nl b).

(** ** Blame *)

(** [KeyError] is what a dict raises for a key it does not hold; [Earlier]
    is an exception of the kinds above. *)
Inductive blame_exn : Type :=
| KeyError (key : option string)
| Earlier (e : exn).

Inductive outcome (A : Type) : Type :=
| Returns (a : A)
| Throws (e : blame_exn).

Arguments Returns {A} a.
Arguments Throws {A} e.

Definition lift {A : Type} (r : result A) : outcome A :=
  match r with
  | Ok a => Returns a
  | Raise e => Throws (Earlier e)
  end.

Definition and_then {A B : Type} (o : outcome A) (k : A -> outcome B)
    : outcome B :=
  match o with
  | Returns a => k a
  | Throws e => Throws e
  end.

Module Meta.
(** The dict kept for a commit: the two keys it is created with, and the
    keys that the lines of the commit add. *)
Record t : Type := {
  hash : string;
  short_hash : string;
  author : option string;
  date : option string;
  summary : option string
}.
End Meta.

Module BlameLine.
(** An entry of the result; [meta] is [None] for the empty dict. *)
Record t : Type := {
  content : string;
  hash : option string;
  meta : option Meta.t
}.
End BlameLine.

Module Blame.
(** The state of the loop of [get_file_blame].  [meta] is the dict of the
    dicts of the commits, in the order of their insertion; an entry of
    [lines] holds its content and the key of the dict it refers to: the
    entry and [meta] share the dict itself, so what is written to the dict
    later shows in the entry. *)
Record state : Type := {
  current_hash : option string;
  meta : list (string * Meta.t);
  lines : list (string * option string)
}.
End Blame.

Fixpoint meta_get (h : string) (m : list (string * Meta.t)) : option Meta.t :=
  match m with
  | [] => None
  | (k, d) :: m' => if String.eqb h k then Some d else meta_get h m'
  end.

Fixpoint meta_set (h : string) (f : Meta.t -> Meta.t)
    (m : list (string * Meta.t)) : list (string * Meta.t) :=
  match m with
  | [] => []
  | (k, d) :: m' =>
      if String.eqb h k then (k, f d) :: m' else (k, d) :: meta_set h f m'
  end.

(** [meta[current_hash][key] = value]: the key of the outer dict must be
    there. *)
Definition meta_assign (st : Blame.state) (f : Meta.t -> Meta.t)
    : outcome Blame.state :=
  match Blame.current_hash st with
  | Some h =>
      match meta_get h (Blame.meta st) with
      | Some _ =>
          Returns {| Blame.current_hash := Blame.current_hash st;
                     Blame.meta := meta_set h f (Blame.meta st);
                     Blame.lines := Blame.lines st |}
      | None => Throws (KeyError (Some h))
      end
  | None => Throws (KeyError None)
  end.

(** [re.match] of the pattern of a header line: forty hexadecimal digits
    and a space. *)
Definition blame_header (line : string) : bool :=
  (String.length (take 40 line) =? 40)%nat
  && all_chars is_hex (take 40 line)
  && match drop 40 line with
     | String " " _ => true
     | _ => false
     end.

Section FileBlame.

(** The environment: what a command does, and the local date of a time
    stamp, that is [datetime.fromtimestamp(ts).strftime] with the format of
    a day, which raises on a time stamp out of its range. *)
Variable os : list string -> option string -> Z -> process.
Variable local_date : Z -> result string.

(** The body of the loop. *)
Definition blame_step (st : Blame.state) (line : string) : outcome Blame.state :=
  if blame_header line then
    match split line with
    | h :: _ =>
        Returns {| Blame.current_hash := Some h;
                   Blame.meta :=
                     match meta_get h (Blame.meta st) with
                     | Some _ => Blame.meta st
                     | None =>
                         (Blame.meta st
                          ++ [(h, {| Meta.hash := h; Meta.short_hash := take 7 h;
                                     Meta.author := None; Meta.date := None;
                                     Meta.summary := None |})])%list
                     end;
                   Blame.lines := Blame.lines st |}
    | [] => Throws (Earlier IndexError)
    end
  else if startswith line "author " then
    let value := strip (drop 7 line) in
    meta_assign st (fun d =>
      {| Meta.hash := Meta.hash d; Meta.short_hash := Meta.short_hash d;
         Meta.author := Some value; Meta.date := Meta.date d;
         Meta.summary := Meta.summary d |})
  else if startswith line "author-time " then
    and_then (lift (py_int_text (strip (drop 12 line)))) (fun ts =>
    and_then (lift (local_date ts)) (fun value =>
    meta_assign st (fun d =>
      {| Meta.hash := Meta.hash d; Meta.short_hash := Meta.short_hash d;
         Meta.author := Meta.author d; Meta.date := Some value;
         Meta.summary := Meta.summary d |})))
  else if startswith line "summary " then
    let value := strip (drop 8 line) in
    meta_assign st (fun d =>
      {| Meta.hash := Meta.hash d; Meta.short_hash := Meta.short_hash d;
         Meta.author := Meta.author d; Meta.date := Meta.date d;
         Meta.summary := Some value |})
  else if startswith line (String TAB "") then
    Returns {| Blame.current_hash := Blame.current_hash st;
               Blame.meta := Blame.meta st;
               Blame.lines :=
                 (Blame.lines st ++ [(drop 1 line, Blame.current_hash st)])%list |}
  else Returns st.

Fixpoint blame_run (st : Blame.state) (ls : list string) : outcome Blame.state :=
  match ls with
  | [] => Returns st
  | line :: ls' => and_then (blame_step st line) (fun st' => blame_run st' ls')
  end.

(** The entries as they are when the function returns: each with the dict
    of its commit as the whole loop has left it. *)
Definition blame_lines (st : Blame.state) : list BlameLine.t :=
  map (fun e : string * option string =>
         {| BlameLine.content := fst e;
            BlameLine.hash := snd e;
            BlameLine.meta :=
              match snd e with
              | Some h => meta_get h (Blame.meta st)
              | None => None
              end |})
      (Blame.lines st).

Definition blame_start : Blame.state :=
  {| Blame.current_hash := None; Blame.meta := []; Blame.lines := [] |}.

Definition get_file_blame (repo_root path ref : string)
    : outcome (list BlameLine.t) :=
  and_then (lift (git os ["blame"; "-p"; ref; "--"; path] repo_root)) (fun raw =>
  and_then (blame_run blame_start (splitlines raw)) (fun st =>
  Returns (blame_lines st))).

End FileBlame.

(** An object name as the pattern of the header takes it: forty hexadecimal
    digits. *)
Definition hex40 (h : string) : bool :=
  (String.length h =? 40)%nat && all_chars is_hex h.

(** What holds for every entry of a blame: either it belongs to no commit
    and has the empty dict, or its hash is an object name and its dict is
    the dict of this very commit, with the hash and its first seven
    digits. *)
Definition blame_entry_ok (e : BlameLine.t) : Prop :=
  match BlameLine.hash e with
  | None => BlameLine.meta e = None
  | Some h =>
      hex40 h = true
      /\ exists d, BlameLine.meta e = Some d
                   /\ Meta.hash d = h /\ Meta.short_hash d = take 7 h
  end.

(** The invariant of the loop of [get_file_blame]: every dict is filed
    under its own hash, which is an object name, and the current hash and
    the hashes of the entries have their dicts. *)
Definition blame_invariant (st : Blame.state) : Prop :=
  (forall k d, meta_get k (Blame.meta st) = Some d ->
     hex40 k = true /\ Meta.hash d = k /\ Meta.short_hash d = take 7 k)
  /\ (forall h, Blame.current_hash st = Some h ->
        meta_get h (Blame.meta st) <> None)
  /\ (forall c h, In (c, Some h) (Blame.lines st) ->
        meta_get h (Blame.meta st) <> None).

(** A line that the loop passes over or takes for content: neither a
    header nor one of the three lines that write to a dict. *)
Definition passive (line : string) : bool :=
  negb (blame_header line) && negb (startswith line "author ")
  && negb (startswith line "author-time ")
  && negb (startswith line "summary ").

Definition blame_command (ref path : string) : list string :=
  ["git"; "blame"; "-p"; ref; "--"; path].

(** What [git blame -p] prints for two lines of one commit: the header with
    the metadata of the commit before the first line, the bare header
    before the second. *)
Definition blame_sample : string :=
  "9fceb02d0ae598e95dc970b74767f19372d61af8 1 1 2" ++ nl
  ++ "author Ann Lee" ++ nl
  ++ "author-mail <ann@example.org>" ++ nl
  ++ "author-time 1700000000" ++ nl
  ++ "author-tz +0100" ++ nl
  ++ "committer Bob Roy" ++ nl
  ++ "summary Fix the parser" ++ nl
  ++ "filename src/a.py" ++ nl
  ++ String TAB "first line" ++ nl
  ++ "9fceb02d0ae598e95dc970b74767f19372d61af8 2 2" ++ nl
  ++ String TAB "second line" ++ nl.

Definition blame_sample_meta : Meta.t :=
  {| Meta.hash := "9fceb02d0ae598e95dc970b74767f19372d61af8";
     Meta.short_hash := "9fceb02";
     Meta.author := Some "Ann Lee";
     Meta.date := Some "2023-11-14";
     Meta.summary := Some "Fix the parser" |}.

Definition blame_sample_entries : list BlameLine.t :=
  [{| BlameLine.content := "first line";
      BlameLine.hash := Some "9fceb02d0ae598e95dc970b74767f19372d61af8";
      BlameLine.meta := Some blame_sample_meta |};
   {| BlameLine.content := "second line";
      BlameLine.hash := Some "9fceb02d0ae598e95dc970b74767f19372d61af8";
      BlameLine.meta := Some blame_sample_meta |}].

(** The same output for a repository whose object names have sixty-four
    digits: no line is a header. *)
Definition blame_sample_long_names : string :=
  "9fceb02d0ae598e95dc970b74767f19372d61af89fceb02d0ae598e95dc970b7 1 1 1" ++ nl
  ++ "author Ann Lee" ++ nl
  ++ String TAB "first line" ++ nl.

(** ** Parsing one file section after another *)

(** The parser state [b] as it is when the same lines are read after other
    file sections: the files [pre] closed before, and the hunk objects
    [junk] created before, which move every reference by their number. *)
Definition relocate (pre : list FileDiff) (junk : list Hunk) (b : state) : state :=
  {| st_files := pre ++ st_files b;
     current_file := current_file b;
     heap := junk ++ heap b;
     current_hunks := map (Nat.add (length junk)) (current_hunks b);
     current_hunk := option_map (Nat.add (length junk)) (current_hunk b);
     in_hunk := in_hunk b |}.

Definition relocated (pre : list FileDiff) (junk : list Hunk)
    (r : result state) : result state :=
  match r with
  | Ok b => Ok (relocate pre junk b)
  | Raise e => Raise e
  end.

(** Two file sections, each with one hunk. *)
Definition section_a : string :=
  "diff --git a/f b/f" ++ nl ++ "--- a/f" ++ nl ++ "+++ b/f" ++ nl
  ++ "@@ -1,2 +1,2 @@" ++ nl ++ " keep" ++ nl ++ "-old" ++ nl ++ "+new".

Definition section_b : string :=
  "diff --git a/g b/g" ++ nl ++ "new file mode 100644" ++ nl
  ++ "--- /dev/null" ++ nl ++ "+++ b/g" ++ nl
  ++ "@@ -0,0 +1,2 @@" ++ nl ++ "+one" ++ nl ++ "+two" ++ nl.

(** The number of file headers among the lines. *)
Definition headers (ls : list string) : nat :=
  length (filter (fun l => startswith l "diff --git ") ls).

(** * Theorems *)

(** ** The command runner *)

Section CommandRunnerFacts.

Variable os : list string -> option string -> Z -> process.
Variables (args : list string) (cwd : option string) (timeout : Z).

Lemma run_git_timeout (check : bool) :
  os ("git" :: args) cwd timeout = TimesOut ->
  run_git os args cwd check timeout = Ok "".
Proof. intros H. unfold run_git. rewrite H. reflexivity. Qed.

Lemma run_git_not_found (check : bool) :
  os ("git" :: args) cwd timeout = NotFound ->
  run_git os args cwd check timeout = Raise (RuntimeError git_not_found).
Proof. intros H. unfold run_git. rewrite H. reflexivity. Qed.

Lemma run_git_unchecked (rc : Z) (out : string) :
  os ("git" :: args) cwd timeout = Exits rc out ->
  run_git os args cwd false timeout = Ok out.
Proof. intros H. unfold run_git. rewrite H. reflexivity. Qed.

Lemma run_git_checked (rc : Z) (out : string) :
  os ("git" :: args) cwd timeout = Exits rc out ->
  run_git os args cwd true timeout = Ok (if rc =? 0 then out else "").
Proof.
  intros H. unfold run_git. rewrite H. simpl.
  destruct (rc =? 0); reflexivity.
Qed.

Lemma run_git_no_directory (check : bool) :
  os ("git" :: args) cwd timeout = NoSuchDirectory ->
  run_git os args cwd check timeout = Raise (RuntimeError git_not_found).
Proof. intros H. unfold run_git. rewrite H. reflexivity. Qed.

Lemma run_git_fails (check : bool) :
  os ("git" :: args) cwd timeout = Fails ->
  run_git os args cwd check timeout = Ok "".
Proof. intros H. unfold run_git. rewrite H. reflexivity. Qed.

Lemma run_git_returns (check : bool) :
  os ("git" :: args) cwd timeout <> NotFound ->
  os ("git" :: args) cwd timeout <> NoSuchDirectory ->
  exists out, run_git os args cwd check timeout = Ok out.
Proof.
  intros H H'. unfold run_git.
  destruct (os ("git" :: args) cwd timeout) as [rc out| | | |]; simpl.
  - destruct (check && negb (rc =? 0)); eexists; reflexivity.
  - eexists; reflexivity.
  - contradiction.
  - eexists; reflexivity.
  - contradiction.
Qed.

End CommandRunnerFacts.

(** C5, as stated, fails twice.  Without [check] a non-zero exit code does
    not empty the result: the captured output is returned.  And a missing
    executable is not the one condition that raises: with git installed, a
    working directory that does not exist raises the same [RuntimeError],
    with the message that git was not found. *)
Lemma run_git_nonzero_unchecked_not_empty :
  run_git os_exit1 ["diff"; "--exit-code"] None false 30
    = Ok "diff --git a/f b/f"
  /\ run_git os_exit1 ["diff"; "--exit-code"] None false 30 <> Ok ""
  /\ run_git os_directory_gone ["status"] (Some "/srv/repo") false 30 = Ok "ok"
  /\ run_git os_directory_gone ["status"] (Some "/gone") false 30
     = Raise (RuntimeError git_not_found).
Proof. split; [reflexivity | split; [discriminate | split; reflexivity]]. Qed.

(** C5, amended: [run_git] returns a text for every caller unless
    [subprocess.run] raises [FileNotFoundError], which it does when the
    executable is not found and also when the working directory does not
    exist; in both cases [run_git] raises [RuntimeError] with the message
    that git was not found.  On a timeout and on any other exception it
    returns the empty text; on a non-zero exit code it returns the empty
    text when the call was checked and the captured output when it was not;
    on exit code zero it returns the captured output. *)
Theorem run_git_contract :
  forall (os : list string -> option string -> Z -> process)
         (args : list string) (cwd : option string) (check : bool) (timeout : Z),
    let p := os ("git" :: args) cwd timeout in
    (p = NotFound \/ p = NoSuchDirectory ->
       run_git os args cwd check timeout = Raise (RuntimeError git_not_found))
    /\ (p <> NotFound -> p <> NoSuchDirectory ->
          exists out, run_git os args cwd check timeout = Ok out)
    /\ (p = TimesOut \/ p = Fails -> run_git os args cwd check timeout = Ok "")
    /\ (forall rc out, p = Exits rc out -> rc <> 0 ->
           run_git os args cwd check timeout = Ok (if check then "" else out))
    /\ (forall out, p = Exits 0 out ->
           run_git os args cwd check timeout = Ok out).
Proof.
  intros os args cwd check timeout p. subst p.
  split; [intros [H|H]; [apply run_git_not_found | apply run_git_no_directory];
          exact H|].
  split; [apply run_git_returns|].
  split; [intros [H|H]; [apply run_git_timeout | apply run_git_fails];
          exact H|].
  split.
  - intros rc out H Hrc. destruct check.
    + rewrite (run_git_checked _ _ _ _ _ _ H).
      destruct (Z.eqb_spec rc 0); [contradiction | reflexivity].
    + apply (run_git_unchecked _ _ _ _ _ _ H).
  - intros out H. destruct check.
    + rewrite (run_git_checked _ _ _ _ _ _ H). reflexivity.
    + apply (run_git_unchecked _ _ _ _ _ _ H).
Qed.

(** ** The relative-time formatter *)

Lemma ago_phrase (n : Z) (unit : string) :
  ago n unit = RelativeTimeSpec.phrase n unit.
Proof.
  unfold ago, RelativeTimeSpec.phrase.
  destruct (Z.eq_dec n 1) as [->|Hn]; [reflexivity|].
  destruct (Z.eqb_spec n 1); [contradiction|]. reflexivity.
Qed.

Lemma relative_time_diff (now : spec_float) (ts d : Z) :
  ts <> 0 -> seconds_since now ts = Ok d ->
  _relative_time now ts =
    Ok (if d <? 60 then "just now"
        else if d <? 3600 then ago (d / 60) "minute"
        else if d <? 86400 then ago (d / 3600) "hour"
        else if d <? 604800 then ago (d / 86400) "day"
        else if d <? 2592000 then ago (d / 604800) "week"
        else if d <? 31536000 then ago (d / 2592000) "month"
        else ago (d / 31536000) "year").
Proof.
  intros Hts Hd. unfold _relative_time.
  destruct (Z.eqb_spec ts 0); [contradiction|].
  rewrite Hd. reflexivity.
Qed.

Lemma relative_time_raises (now : spec_float) (ts : Z) (e : exn) :
  ts <> 0 -> seconds_since now ts = Raise e -> _relative_time now ts = Raise e.
Proof.
  intros Hts Hd. unfold _relative_time.
  destruct (Z.eqb_spec ts 0); [contradiction|].
  rewrite Hd. reflexivity.
Qed.

Ltac bucket :=
  repeat match goal with
    | |- context [?a <? ?b] => destruct (Z.ltb_spec a b); try lia
    end.

(** C8, as stated, fails: the timestamp 0, the first second of 1970, is read
    as an absent timestamp and rendered as the empty text, where the buckets
    give [53 years ago] for a clock that reads 1700000000. *)
Lemma relative_time_of_epoch_is_empty :
  _relative_time (double 1700000000 0) 0 = Ok ""
  /\ int_of_float (float_sub (double 1700000000 0) (double 0 0)) = Ok 1700000000
  /\ RelativeTimeSpec.phrase (1700000000 / RelativeTimeSpec.year) "year"
     = "53 years ago".
Proof. repeat split. Qed.

(** C8, amended: the timestamp 0 is rendered as the empty text.  For every
    other timestamp the formatter takes the whole seconds [d] of the
    difference between the reading of the clock and the timestamp, the
    subtraction being done on doubles; when the timestamp is beyond the
    doubles it raises [OverflowError]; otherwise it answers [just now] for
    [d] below 60 and then counts whole minutes, hours, days, weeks, months of
    30 days and years of 365 days, with the plural suffix exactly when the
    count is not 1.  For [d] of 30 the answer is [just now], of 90
    [1 minute ago], of 7200 [2 hours ago], as it is for a clock that reads
    a quarter of a second past 1700000030, half a second past 1700000090
    and 1700007200 and a commit made at 1700000000. *)
Theorem relative_time_buckets :
  forall (now : spec_float) (ts : Z),
    ts <> 0 ->
    let r := _relative_time now ts in
    let phrase := RelativeTimeSpec.phrase in
    _relative_time now 0 = Ok ""
    /\ (forall e, seconds_since now ts = Raise e -> r = Raise e)
    /\ (forall d, seconds_since now ts = Ok d ->
          (d < 60 -> r = Ok "just now")
          /\ (RelativeTimeSpec.minute <= d < RelativeTimeSpec.hour ->
                r = Ok (phrase (d / RelativeTimeSpec.minute) "minute"))
          /\ (RelativeTimeSpec.hour <= d < RelativeTimeSpec.day ->
                r = Ok (phrase (d / RelativeTimeSpec.hour) "hour"))
          /\ (RelativeTimeSpec.day <= d < RelativeTimeSpec.week ->
                r = Ok (phrase (d / RelativeTimeSpec.day) "day"))
          /\ (RelativeTimeSpec.week <= d < RelativeTimeSpec.month ->
                r = Ok (phrase (d / RelativeTimeSpec.week) "week"))
          /\ (RelativeTimeSpec.month <= d < RelativeTimeSpec.year ->
                r = Ok (phrase (d / RelativeTimeSpec.month) "month"))
          /\ (RelativeTimeSpec.year <= d ->
                r = Ok (phrase (d / RelativeTimeSpec.year) "year"))
          /\ (d = 30 -> r = Ok "just now")
          /\ (d = 90 -> r = Ok "1 minute ago")
          /\ (d = 7200 -> r = Ok "2 hours ago"))
    /\ _relative_time (double 6800000121 (-2)) 1700000000 = Ok "just now"
    /\ _relative_time (double 3400000181 (-1)) 1700000000 = Ok "1 minute ago"
    /\ _relative_time (double 1700007200 0) 1700000000 = Ok "2 hours ago"
    /\ _relative_time (double 1700000000 0) (2 ^ 1024) = Raise OverflowError.
Proof.
  intros now ts Hts r phrase. subst r phrase.
  unfold RelativeTimeSpec.year, RelativeTimeSpec.month, RelativeTimeSpec.week,
    RelativeTimeSpec.day, RelativeTimeSpec.hour, RelativeTimeSpec.minute.
  split; [reflexivity|].
  split; [intros e He; apply (relative_time_raises now ts e Hts He)|].
  split; [|repeat split; vm_compute; reflexivity].
  intros d Hd. rewrite (relative_time_diff now ts d Hts Hd).
  repeat split; intros H;
    try (rewrite <- ?ago_phrase; bucket; reflexivity);
    subst d; reflexivity.
Qed.

(** The clock reads half a second past 1700000090 and the commit was made at
    1700000000. *)
Lemma relative_time_buckets_witness :
  1700000000 <> 0
  /\ seconds_since (double 3400000181 (-1)) 1700000000 = Ok 90
  /\ _relative_time (double 3400000181 (-1)) 1700000000 = Ok "1 minute ago".
Proof.
  split; [discriminate|]. split; [reflexivity|].
  destruct (relative_time_buckets (double 3400000181 (-1)) 1700000000)
    as (_ & _ & H & _); [discriminate|].
  apply (H 90 eq_refl). reflexivity.
Defined.

(** ** Texts and lines *)

Lemma split_nl_nonempty (s : string) : split_nl s <> [].
Proof.
  destruct s as [|c s]; simpl; [discriminate|].
  destruct (Ascii.eqb c LF); [discriminate|].
  destruct (split_nl s); discriminate.
Qed.

Lemma split_nl_no_lf (s : string) : no_lf s = true -> split_nl s = [s].
Proof.
  induction s as [|c s IH]; simpl; [reflexivity|].
  intros H. apply andb_prop in H. destruct H as [Hc Hs].
  apply negb_true_iff in Hc. rewrite Hc, (IH Hs). reflexivity.
Qed.

Lemma split_nl_app (a b : string) :
  no_lf a = true -> split_nl (a ++ String LF b) = a :: split_nl b.
Proof.
  induction a as [|c a IH]; simpl; [reflexivity|].
  intros H. apply andb_prop in H. destruct H as [Hc Ha].
  apply negb_true_iff in Hc. rewrite Hc, (IH Ha). reflexivity.
Qed.

Lemma split_nl_join (l : string) (ls : list string) :
  forallb no_lf (l :: ls) = true -> split_nl (join_nl (l :: ls)) = l :: ls.
Proof.
  revert l. induction ls as [|l' ls IH]; intros l H.
  - simpl in *. rewrite andb_true_r in H. apply split_nl_no_lf, H.
  - change (join_nl (l :: l' :: ls)) with (l ++ String LF (join_nl (l' :: ls))).
    simpl in H. apply andb_prop in H. destruct H as [Hl H].
    rewrite (split_nl_app _ _ Hl), IH; [reflexivity | exact H].
Qed.

(** ** The loop *)

Lemma run_app (st : state) (a b : list string) :
  run st (a ++ b) = (st' <- run st a ;; run st' b).
Proof.
  revert st. induction a as [|l a IH]; intros st; simpl; [reflexivity|].
  destruct (step st l); simpl; [apply IH | reflexivity].
Qed.

Lemma bind_ok {A B : Type} (r : result A) (k : A -> result B) (b : B) :
  (x <- r ;; k x) = Ok b -> exists a, r = Ok a /\ k a = Ok b.
Proof. destruct r; simpl; intros H; [eauto | discriminate]. Qed.

(** Case analysis along the [if]/[elif] chain of [step]. *)
Ltac chain :=
  repeat match goal with
    | |- context [_ && has_file ?st] =>
        destruct (has_file st) eqn:?; rewrite ?andb_true_r, ?andb_false_r
    | |- context [if startswith ?l ?p then _ else _] =>
        destruct (startswith l p) eqn:?
    end.

(** What a step can do to the list of closed files: nothing, unless the line
    is a file header, which closes the current file. *)
Lemma step_files (st st' : state) (l : string) :
  step st l = Ok st' ->
  st_files st' = if startswith l "diff --git " then close_file st else st_files st.
Proof.
  unfold step. destruct (startswith l "diff --git ") eqn:Hd.
  - intros H. injection H as <-. reflexivity.
  - chain; intros H;
      repeat match type of H with
        | (_ <- ?r ;; _) = Ok _ =>
            apply bind_ok in H; destruct H as (? & _ & H)
        | match ?x with _ => _ end = Ok _ => destruct x
        | (if ?b then _ else _) = Ok _ => destruct b
        end;
      try (injection H as <-); try reflexivity.
    all: unfold body_line, update_hunk; chain; simpl;
      repeat match goal with
        | |- context [match ?x with _ => _ end] => destruct x
        end; reflexivity.
Qed.

(** ** The summation invariant *)

Lemma finalize_file_invariant (f : FileDiff) :
  summation_invariant (_finalize_file f).
Proof. split; reflexivity. Qed.

Lemma close_file_invariant (st : state) :
  Forall summation_invariant (st_files st) ->
  Forall summation_invariant (close_file st).
Proof.
  intros H. unfold close_file. destruct (current_file st) as [f|]; [|exact H].
  apply Forall_app. split; [exact H|].
  constructor; [apply finalize_file_invariant | constructor].
Qed.

Lemma step_invariant (st st' : state) (l : string) :
  step st l = Ok st' ->
  Forall summation_invariant (st_files st) ->
  Forall summation_invariant (st_files st').
Proof.
  intros Hstep H. rewrite (step_files _ _ _ Hstep).
  destruct (startswith l "diff --git "); [apply close_file_invariant|]; exact H.
Qed.

Lemma run_invariant (ls : list string) :
  forall st st',
    run st ls = Ok st' ->
    Forall summation_invariant (st_files st) ->
    Forall summation_invariant (st_files st').
Proof.
  induction ls as [|l ls IH]; simpl; intros st st' Hrun H.
  - injection Hrun as <-. exact H.
  - apply bind_ok in Hrun. destruct Hrun as (st1 & Hstep & Hrun).
    apply (IH _ _ Hrun). apply (step_invariant _ _ _ Hstep H).
Qed.

(** ** Malformed hunk headers *)

(** C2 fails on the code when a hunk is open: the malformed header leaves
    [current_hunk] pointing at the previous hunk, which is appended to the list
    once more, so the body lines that follow are recorded in that hunk and
    counted, and the hunk is listed twice. *)
Theorem malformed_header_keeps_previous_hunk :
  parse_diff diff_malformed_second_header ""
  = Ok result_malformed_second_header.
Proof. vm_compute. reflexivity. Qed.

(** ** Totality *)

(** C4 fails on the code: a hunk header whose number has more digits than
    [int] converts makes [parse_diff] raise [ValueError]. *)
Theorem parse_diff_raises_on_long_number :
  parse_diff diff_long_number "" = Raise ValueError.
Proof. vm_compute. reflexivity. Qed.

(** ** The caption never fails *)

Lemma splitlines_nonempty (c : ascii) (s : string) :
  splitlines (String c s) <> [].
Proof.
  unfold splitlines. simpl.
  destruct (is_linebreak c); [discriminate|].
  destruct (splitlines_from false s); discriminate.
Qed.

Lemma last_item_ok {A : Type} (l : list A) :
  l <> [] -> exists x, last_item l = Ok x.
Proof.
  induction l as [|a l IH]; [congruence|]. intros _.
  destruct l as [|b l]; [exists a; reflexivity|].
  apply IH. discriminate.
Qed.

Lemma stat_caption_ok (stat_raw : string) :
  exists cap, stat_caption stat_raw = Ok cap.
Proof.
  unfold stat_caption. destruct (strip stat_raw) as [|c s] eqn:E; simpl.
  - exists "". reflexivity.
  - apply last_item_ok, splitlines_nonempty.
Qed.

(** ** Renames *)

Lemma prefix_empty (s : string) : prefix "" s = true.
Proof. destruct s; reflexivity. Qed.

Lemma step_file_header (st : state) (h : string) :
  startswith h "diff --git " = true ->
  step st h =
    Ok {| st_files := close_file st;
          current_file :=
            Some (new_file (fst (header_paths h)) (snd (header_paths h)));
          heap := heap st; current_hunks := []; current_hunk := None;
          in_hunk := false |}.
Proof. intros H. unfold step. rewrite H. reflexivity. Qed.

Lemma step_rename_from (st : state) (x : string) :
  has_file st = true ->
  step st ("rename from " ++ x) =
    Ok (update_file (fun f => set_status "renamed" (set_old_path x f)) st).
Proof.
  intros H. unfold step, startswith. simpl.
  rewrite prefix_empty, H. reflexivity.
Qed.

Lemma step_rename_to (st : state) (y : string) :
  has_file st = true ->
  step st ("rename to " ++ y) =
    Ok (update_file (fun f => set_status "renamed" (set_new_path y f)) st).
Proof.
  intros H. unfold step, startswith. simpl.
  rewrite prefix_empty, H. reflexivity.
Qed.

(** C3, as stated, fails: a section with the rename-from line alone is
    already renamed. *)
Lemma rename_from_alone_is_renamed :
  parse_diff diff_rename_from_only "" =
    Ok (single_file_result
          {| old_path := "a.txt"; new_path := "a.txt"; status := "renamed";
             hunks := []; additions := 0; deletions := 0;
             is_binary := false; is_new := false; is_deleted := false;
             old_mode := None; new_mode := None; similarity := None |} "").
Proof. vm_compute. reflexivity. Qed.

(** C3, amended: a file section made of the file header, [rename from x] and
    [rename to y] yields one file with status [renamed], old path [x] and new
    path [y], and so do the two lines after whatever else the section holds;
    each of the two lines sets the status [renamed] on its own, the first
    replacing only the old path and the second only the new path. *)
Theorem rename_lines_set_status :
  forall (h x y stat_raw : string),
    startswith h "diff --git " = true ->
    no_lf h = true -> no_lf x = true -> no_lf y = true ->
    exists cap,
      stat_caption stat_raw = Ok cap
      /\ parse_diff (join_nl [h; "rename from " ++ x; "rename to " ++ y]) stat_raw
         = Ok (single_file_result
                 {| old_path := x; new_path := y; status := "renamed";
                    hunks := []; additions := 0; deletions := 0;
                    is_binary := false; is_new := false; is_deleted := false;
                    old_mode := None; new_mode := None; similarity := None |}
                 cap)
      /\ parse_diff (join_nl [h; "rename from " ++ x]) stat_raw
         = Ok (single_file_result
                 {| old_path := x; new_path := snd (header_paths h);
                    status := "renamed";
                    hunks := []; additions := 0; deletions := 0;
                    is_binary := false; is_new := false; is_deleted := false;
                    old_mode := None; new_mode := None; similarity := None |}
                 cap)
      /\ parse_diff (join_nl [h; "rename to " ++ y]) stat_raw
         = Ok (single_file_result
                 {| old_path := fst (header_paths h); new_path := y;
                    status := "renamed";
                    hunks := []; additions := 0; deletions := 0;
                    is_binary := false; is_new := false; is_deleted := false;
                    old_mode := None; new_mode := None; similarity := None |}
                 cap)
      /\ (forall st f,
            current_file st = Some f ->
            exists st' f',
              run st ["rename from " ++ x; "rename to " ++ y] = Ok st'
              /\ current_file st' = Some f'
              /\ status f' = "renamed" /\ old_path f' = x /\ new_path f' = y).
Proof.
  intros h x y stat_raw Hh Lh Lx Ly.
  destruct (stat_caption_ok stat_raw) as [cap Hcap]. exists cap.
  split; [exact Hcap|].
  assert (Any : forall st f,
             current_file st = Some f ->
             exists st' f',
               run st ["rename from " ++ x; "rename to " ++ y] = Ok st'
               /\ current_file st' = Some f'
               /\ status f' = "renamed" /\ old_path f' = x /\ new_path f' = y).
  { intros st f Hf. cbn [run].
    rewrite step_rename_from by (unfold has_file; rewrite Hf; reflexivity).
    cbn [bind].
    rewrite step_rename_to
      by (unfold has_file, update_file; simpl; rewrite Hf; reflexivity).
    cbn [bind]. do 2 eexists. split; [reflexivity|].
    simpl. rewrite Hf. simpl. repeat split. }
  refine ((fun P => conj (proj1 P) (conj (proj1 (proj2 P))
                     (conj (proj2 (proj2 P)) Any))) _).
  unfold parse_diff.
  rewrite !split_nl_join by (simpl; rewrite ?Lh, ?Lx, ?Ly; reflexivity).
  cbn [run]. rewrite !step_file_header by exact Hh. cbn [bind].
  rewrite step_rename_from, step_rename_to by reflexivity. cbn [bind].
  rewrite step_rename_to by reflexivity. cbn [bind].
  rewrite Hcap. repeat split; reflexivity.
Qed.

Lemma rename_lines_set_status_witness :
  exists cap,
    stat_caption "" = Ok cap
    /\ parse_diff
         (join_nl ["diff --git a/a.txt b/b.txt"; "rename from " ++ "a.txt";
                   "rename to " ++ "b.txt"]) ""
       = Ok (single_file_result
               {| old_path := "a.txt"; new_path := "b.txt"; status := "renamed";
                  hunks := []; additions := 0; deletions := 0;
                  is_binary := false; is_new := false; is_deleted := false;
                  old_mode := None; new_mode := None; similarity := None |}
               cap).
Proof.
  destruct (rename_lines_set_status "diff --git a/a.txt b/b.txt" "a.txt" "b.txt" ""
              eq_refl eq_refl eq_refl eq_refl) as (cap & Hcap & H & _).
  exists cap. split; [exact Hcap | exact H].
Defined.

(** ** Hunk headers *)

Lemma span_digits_app (a r : string) :
  all_digits a = true ->
  match r with
  | EmptyString => True
  | String c _ => is_digit c = false
  end ->
  span_digits (a ++ r) = (a, r).
Proof.
  intros Ha Hr. induction a as [|c a IH]; simpl in *.
  - destruct r as [|c r]; [reflexivity|]. simpl. rewrite Hr. reflexivity.
  - apply andb_prop in Ha. destruct Ha as [Hc Ha].
    rewrite Hc, (IH Ha). reflexivity.
Qed.

Lemma numeral_inv (s : string) :
  numeral s = true ->
  truthy s = true /\ all_digits s = true
  /\ (String.length s <= int_max_str_digits)%nat.
Proof.
  unfold numeral. intros H.
  apply andb_prop in H. destruct H as [H Hl].
  apply andb_prop in H. destruct H as [Ht Hd].
  apply Nat.leb_le in Hl. auto.
Qed.

Lemma py_int_numeral (s : string) :
  numeral s = true -> py_int s = Ok (decimal_value 0 s).
Proof.
  intros H. apply numeral_inv in H. destruct H as (Ht & Hd & Hl).
  unfold py_int. rewrite Ht, Hd. simpl.
  destruct (Nat.ltb_spec int_max_str_digits (String.length s)); [lia|reflexivity].
Qed.

(** The optional group takes a written count and leaves what follows. *)
Lemma opt_count_text (o : option string) (r : string) :
  numeral_opt o = true ->
  match r with
  | EmptyString => True
  | String c _ => is_digit c = false /\ c <> ","%char
  end ->
  Re.opt_count (count_text o ++ r) = (o, r).
Proof.
  intros Ho Hr. destruct o as [b|]; simpl.
  - apply numeral_inv in Ho. destruct Ho as (Ht & Hd & _).
    rewrite span_digits_app; [| exact Hd | destruct r; tauto].
    destruct b; [discriminate | reflexivity].
  - destruct r as [|c r]; [reflexivity|]. destruct Hr as [_ Hc].
    unfold Re.opt_count.
    destruct c as [[] [] [] [] [] [] [] []]; try reflexivity.
    contradiction Hc; reflexivity.
Qed.

Lemma hunk_header_groups (a : string) (ob : option string)
    (c : string) (od : option string) (t : string) :
  numeral a = true -> numeral c = true ->
  numeral_opt ob = true -> numeral_opt od = true ->
  Re.hunk_header (hunk_header_line a ob c od t) =
    Some {| Re.g_old_start := a; Re.g_old_count := ob;
            Re.g_new_start := c; Re.g_new_count := od;
            Re.g_context := dot_star t |}.
Proof.
  intros Ha Hc Hob Hod.
  apply numeral_inv in Ha. destruct Ha as (Hta & Hda & _).
  apply numeral_inv in Hc. destruct Hc as (Htc & Hdc & _).
  unfold Re.hunk_header, hunk_header_line, startswith. simpl.
  rewrite prefix_empty.
  rewrite span_digits_app;
    [| exact Hda | destruct ob; simpl; reflexivity].
  rewrite Hta.
  rewrite opt_count_text; [| exact Hob | split; [reflexivity | discriminate]].
  simpl. rewrite prefix_empty.
  rewrite span_digits_app;
    [| exact Hdc | destruct od; simpl; reflexivity].
  rewrite Htc.
  rewrite opt_count_text; [| exact Hod | split; [reflexivity | discriminate]].
  simpl. rewrite prefix_empty. reflexivity.
Qed.

Lemma new_hunk_of_groups (a : string) (ob : option string)
    (c : string) (od : option string) (t : string) :
  numeral a = true -> numeral c = true ->
  numeral_opt ob = true -> numeral_opt od = true ->
  new_hunk {| Re.g_old_start := a; Re.g_old_count := ob;
              Re.g_new_start := c; Re.g_new_count := od;
              Re.g_context := t |} =
    Ok {| old_start := decimal_value 0 a;
          old_count := match ob with Some b => decimal_value 0 b | None => 1 end;
          new_start := decimal_value 0 c;
          new_count := match od with Some d => decimal_value 0 d | None => 1 end;
          context := strip t; lines := [];
          h_additions := 0; h_deletions := 0 |}.
Proof.
  intros Ha Hc Hob Hod. unfold new_hunk. simpl.
  rewrite (py_int_numeral _ Ha), (py_int_numeral _ Hc). simpl.
  destruct ob as [b|], od as [d|]; simpl in *;
    rewrite ?(py_int_numeral _ Hob), ?(py_int_numeral _ Hod); reflexivity.
Qed.

Lemma step_hunk_header (st : state) (a : string) (ob : option string)
    (c : string) (od : option string) (t : string) :
  has_file st = true ->
  numeral a = true -> numeral c = true ->
  numeral_opt ob = true -> numeral_opt od = true ->
  step st (hunk_header_line a ob c od t) =
    Ok {| st_files := st_files st; current_file := current_file st;
          heap := heap st ++ [header_hunk a ob c od t];
          current_hunks := flush_hunk st;
          current_hunk := Some (length (heap st)); in_hunk := true |}.
Proof.
  intros Hf Ha Hc Hob Hod. unfold step.
  replace (startswith (hunk_header_line a ob c od t) "@@") with true
    by (unfold startswith, hunk_header_line; reflexivity).
  rewrite (hunk_header_groups a ob c od t Ha Hc Hob Hod).
  rewrite (new_hunk_of_groups a ob c od (dot_star t) Ha Hc Hob Hod).
  unfold hunk_header_line, startswith. simpl. rewrite Hf. reflexivity.
Qed.

(** C6: inside a file section a hunk header opens a hunk whose starts are the
    written numbers and whose counts are the written counts, 1 standing for
    a count that is omitted, in either range; so [@@ -1,1 +1,1 @@] and
    [@@ -1 +1 @@] give the same hunk, with both counts 1. *)
Theorem hunk_count_defaults_to_one :
  forall (st : state) (a : string) (ob : option string)
         (c : string) (od : option string) (t : string),
    has_file st = true ->
    numeral a = true -> numeral c = true ->
    numeral_opt ob = true -> numeral_opt od = true ->
    (exists h,
       step st (hunk_header_line a ob c od t) =
         Ok {| st_files := st_files st; current_file := current_file st;
               heap := heap st ++ [h]; current_hunks := flush_hunk st;
               current_hunk := Some (length (heap st)); in_hunk := true |}
       /\ old_start h = decimal_value 0 a
       /\ new_start h = decimal_value 0 c
       /\ (ob = None -> old_count h = 1)
       /\ (od = None -> new_count h = 1)
       /\ (forall b, ob = Some b -> old_count h = decimal_value 0 b)
       /\ (forall d, od = Some d -> new_count h = decimal_value 0 d))
    /\ parse_diff (diff_one_header "@@ -1,1 +1,1 @@") ""
       = Ok {| files := [modified_file [hunk_1_1] 0 0]; total_files := 1;
               total_additions := 0; total_deletions := 0; stat_summary := "" |}
    /\ parse_diff (diff_one_header "@@ -1 +1 @@") ""
       = parse_diff (diff_one_header "@@ -1,1 +1,1 @@") "".
Proof.
  intros st a ob c od t Hf Ha Hc Hob Hod.
  split; [|split; vm_compute; reflexivity].
  exists (header_hunk a ob c od t). split.
  - apply step_hunk_header; assumption.
  - simpl. repeat split; intros; subst; reflexivity.
Qed.

Lemma hunk_count_defaults_to_one_witness :
  exists h,
    step {| st_files := []; current_file := Some (new_file "f" "f");
            heap := []; current_hunks := []; current_hunk := None;
            in_hunk := false |}
         (hunk_header_line "12" None "14" (Some "3") " def f():") =
      Ok {| st_files := []; current_file := Some (new_file "f" "f");
            heap := [h]; current_hunks := [];
            current_hunk := Some O; in_hunk := true |}
    /\ old_count h = 1 /\ new_count h = 3.
Proof.
  destruct (hunk_count_defaults_to_one
              {| st_files := []; current_file := Some (new_file "f" "f");
                 heap := []; current_hunks := []; current_hunk := None;
                 in_hunk := false |}
              "12" None "14" (Some "3") " def f():"
              eq_refl eq_refl eq_refl eq_refl eq_refl)
    as [(h & Hstep & _ & _ & Hold & _ & _ & Hnew) _].
  exists h. split; [exact Hstep|].
  split; [apply Hold; reflexivity | apply (Hnew "3"); reflexivity].
Defined.

(** ** Body lines *)











Lemma all_digits_no_lf (s : string) : all_digits s = true -> no_lf s = true.
Proof.
  induction s as [|c s IH]; simpl; [reflexivity|].
  intros H. apply andb_prop in H. destruct H as [Hc Hs].
  rewrite (IH Hs), andb_true_r.
  destruct c as [[] [] [] [] [] [] [] []]; try reflexivity; discriminate Hc.
Qed.


Lemma numeral_no_lf (s : string) : numeral s = true -> no_lf s = true.
Proof. intros H. apply all_digits_no_lf. apply (numeral_inv s H). Qed.


Lemma body_lines_no_lf (bs : list (marker * string)) :
  forallb body_ok bs = true -> forallb no_lf (map line_text bs) = true.
Proof.
  induction bs as [|[m c] bs IH]; simpl; [reflexivity|].
  intros H. apply andb_prop in H. destruct H as [Hb Hbs].
  unfold body_ok in Hb. simpl in Hb. apply andb_prop in Hb.
  destruct Hb as [Hc _]. rewrite Hc, (IH Hbs). destruct m; reflexivity.
Qed.




(** ** Lines that leave the hunks alone *)

Lemma startswith_app (l p : string) :
  startswith l p = true -> l = p ++ drop (String.length p) l.
Proof.
  unfold startswith. revert l. induction p as [|c p IH]; intros l H.
  - reflexivity.
  - destruct l as [|c' l]; simpl in H; [discriminate|].
    destruct (ascii_dec c c') as [<-|]; [|discriminate].
    simpl. f_equal. apply IH, H.
Qed.

(** Reading a hypothesis on the first characters of [l] into [l] itself. *)
Ltac expose l :=
  match goal with
  | H : startswith l ?p = true |- _ =>
      let E := fresh "E" in
      pose proof (startswith_app l p H) as E; simpl in E;
      rewrite E in *; clear E
  end.

Lemma step_dashes_pluses (st : state) (l : string) :
  startswith l "---" = true \/ startswith l "+++" = true ->
  step st l = Ok st.
Proof.
  intros [H|H]; expose l; unfold step, startswith; simpl;
    destruct (in_hunk st), (current_hunk st); simpl;
    unfold body_line, startswith; simpl; rewrite ?prefix_empty; reflexivity.
Qed.

Lemma is_header_line_false (l : string) :
  is_header_line l = false ->
  Forall (fun p => startswith l p = false) header_prefixes.
Proof.
  unfold is_header_line. intros H. apply Forall_forall. intros p Hp.
  destruct (startswith l p) eqn:E; [|reflexivity].
  rewrite <- H. symmetry. apply existsb_exists. exists p. auto.
Qed.

Lemma step_not_header (st : state) (l : string) :
  is_header_line l = false ->
  step st l =
    if in_hunk st && match current_hunk st with Some _ => true | None => false end
    then Ok (body_line l st) else Ok st.
Proof.
  intros H. apply is_header_line_false in H. unfold header_prefixes in H.
  repeat match goal with
    | H : Forall _ (_ :: _) |- _ => inversion H; subst; clear H
    end.
  unfold step.
  repeat match goal with
    | H : startswith l _ = false |- _ => rewrite H; clear H
    end.
  reflexivity.
Qed.

Lemma body_line_no_marker (st : state) (l : string) :
  no_marker l = true -> body_line l st = st.
Proof.
  unfold no_marker. intros H.
  repeat match type of H with
    | _ && _ = true => apply andb_prop in H; destruct H as [H ?]
    end.
  repeat match goal with
    | H : negb _ = true |- _ => apply negb_true_iff in H
    end.
  unfold body_line.
  destruct (startswith l "---" || startswith l "+++"); [reflexivity|].
  repeat match goal with
    | H : startswith l _ = false |- _ => rewrite H; clear H
    end.
  reflexivity.
Qed.

Lemma step_no_marker (st : state) (l : string) :
  no_marker l = true -> is_header_line l = false -> step st l = Ok st.
Proof.
  intros Hm Hh. rewrite (step_not_header st l Hh), (body_line_no_marker st l Hm).
  destruct (in_hunk st && _); reflexivity.
Qed.

Lemma body_line_frame (st : state) (l : string) :
  st_files (body_line l st) = st_files st
  /\ current_file (body_line l st) = current_file st
  /\ current_hunks (body_line l st) = current_hunks st
  /\ current_hunk (body_line l st) = current_hunk st
  /\ in_hunk (body_line l st) = in_hunk st.
Proof.
  unfold body_line, update_hunk.
  destruct (startswith l "---" || startswith l "+++"); [tauto|].
  destruct (current_hunk st) eqn:E;
    repeat match goal with
      | |- context [if ?b then _ else _] => destruct b
      end; simpl; rewrite ?E; tauto.
Qed.

Lemma update_file_frame (g : FileDiff -> FileDiff) (st : state) :
  (forall f, is_binary f = true -> is_binary (g f) = true) ->
  st_files (update_file g st) = st_files st
  /\ current_hunks (update_file g st) = current_hunks st
  /\ current_hunk (update_file g st) = current_hunk st
  /\ in_hunk (update_file g st) = in_hunk st
  /\ heap (update_file g st) = heap st
  /\ (forall f, current_file st = Some f ->
        exists f', current_file (update_file g st) = Some f'
                   /\ (is_binary f = true -> is_binary f' = true)).
Proof.
  intros Hg. repeat split; try reflexivity.
  intros f Hf. exists (g f). simpl. rewrite Hf. split; [reflexivity | apply Hg].
Qed.

(** A line that opens neither a file nor a hunk leaves the closed files and
    the references to the hunks as they are, keeps the current file and its
    binary flag, and touches the hunks only if it begins with a marker. *)
Lemma step_section_line (st st' : state) (l : string) :
  section_line l = true -> step st l = Ok st' ->
  st_files st' = st_files st
  /\ current_hunks st' = current_hunks st
  /\ current_hunk st' = current_hunk st
  /\ in_hunk st' = in_hunk st
  /\ (no_marker l = true -> heap st' = heap st)
  /\ (forall f, current_file st = Some f ->
        exists f', current_file st' = Some f'
                   /\ (is_binary f = true -> is_binary f' = true)).
Proof.
  unfold section_line. intros Hs.
  apply andb_prop in Hs. destruct Hs as [Hd Hat].
  apply negb_true_iff in Hd. apply negb_true_iff in Hat.
  assert (Keep : forall st0,
             st_files st0 = st_files st /\ current_file st0 = current_file st
             /\ current_hunks st0 = current_hunks st
             /\ current_hunk st0 = current_hunk st /\ in_hunk st0 = in_hunk st ->
             (no_marker l = true -> heap st0 = heap st) ->
             st_files st0 = st_files st
             /\ current_hunks st0 = current_hunks st
             /\ current_hunk st0 = current_hunk st
             /\ in_hunk st0 = in_hunk st
             /\ (no_marker l = true -> heap st0 = heap st)
             /\ (forall f, current_file st = Some f ->
                   exists f', current_file st0 = Some f'
                              /\ (is_binary f = true -> is_binary f' = true))).
  { intros st0 (A & B & C & D & E) F. repeat split; try assumption.
    intros f Hf. exists f. rewrite B. auto. }
  assert (Upd : forall g,
             (forall f, is_binary f = true -> is_binary (g f) = true) ->
             st_files (update_file g st) = st_files st
             /\ current_hunks (update_file g st) = current_hunks st
             /\ current_hunk (update_file g st) = current_hunk st
             /\ in_hunk (update_file g st) = in_hunk st
             /\ (no_marker l = true -> heap (update_file g st) = heap st)
             /\ (forall f, current_file st = Some f ->
                   exists f', current_file (update_file g st) = Some f'
                              /\ (is_binary f = true -> is_binary f' = true))).
  { intros g Hg. destruct (update_file_frame g st Hg) as (A & B & C & D & E & F).
    repeat split; auto. }
  unfold step. rewrite Hd, Hat. cbn [andb].
  chain; intros H;
    repeat match type of H with
      | (_ <- ?r ;; _) = Ok _ =>
          apply bind_ok in H; destruct H as (? & _ & H)
      | match ?x with _ => _ end = Ok _ => destruct x eqn:?
      end;
    try (injection H as <-);
    try (apply Upd; intros; simpl; auto; fail);
    try (apply Keep; [tauto | reflexivity]).
  all: try (apply Keep; [apply body_line_frame |];
            intros Hm; rewrite (body_line_no_marker st l Hm); reflexivity).
Qed.

(** C10: a line that begins with [---] or [+++], and a line that begins with
    none of the markers [+], [-], space and backslash and is not one of the
    header lines either, leaves the whole parser state as it is, in an open
    hunk as anywhere else: nothing is appended to a hunk and no count moves.
    A line without marker that the chain reads as file metadata changes that
    metadata and no hunk.  The empty line and a deletion whose content starts
    with two dashes are among the lines that vanish. *)
Theorem unmarked_lines_are_dropped :
  forall (st : state) (l : string),
    (startswith l "---" = true \/ startswith l "+++" = true ->
       step st l = Ok st)
    /\ (no_marker l = true -> is_header_line l = false -> step st l = Ok st)
    /\ (no_marker l = true -> section_line l = true ->
        forall st', step st l = Ok st' ->
          heap st' = heap st
          /\ current_hunks st' = current_hunks st
          /\ current_hunk st' = current_hunk st
          /\ st_files st' = st_files st)
    /\ step st "" = Ok st
    /\ parse_diff diff_dropped_lines "" = Ok result_dropped_lines.
Proof.
  intros st l.
  split; [apply step_dashes_pluses|].
  split; [apply step_no_marker|].
  split.
  - intros Hm Hs st' H.
    destruct (step_section_line st st' l Hs H) as (A & B & C & _ & E & _).
    auto.
  - split; [apply step_no_marker; reflexivity | vm_compute; reflexivity].
Qed.

(** ** Binary files *)



(** ** When the parser returns *)

Lemma split_nonempty (c : ascii) (s : string) :
  is_space c = false -> split (String c s) <> [].
Proof.
  intros Hc. simpl. rewrite Hc. destruct s as [|c' s]; [discriminate|].
  destruct (is_space c'); [discriminate|].
  destruct (split (String c' s)); discriminate.
Qed.

Lemma span_digits_spec (s : string) :
  forall d r, span_digits s = (d, r) ->
    all_digits d = true /\ (String.length d + String.length r = String.length s)%nat.
Proof.
  induction s as [|c s IH]; simpl; intros d r H.
  - injection H as <- <-. auto.
  - destruct (is_digit c) eqn:Hc.
    + destruct (span_digits s) as [d' r'] eqn:E. injection H as <- <-.
      destruct (IH d' r' eq_refl) as [Hd Hl]. simpl. rewrite Hc, Hd. auto.
    + injection H as <- <-. auto.
Qed.

Lemma numeral_intro (d : string) :
  truthy d = true -> all_digits d = true ->
  (String.length d <= int_max_str_digits)%nat -> numeral d = true.
Proof.
  intros Ht Hd Hl. unfold numeral. rewrite Ht, Hd. simpl.
  apply Nat.leb_le, Hl.
Qed.

Lemma drop_length (n : nat) (s : string) :
  (String.length (drop n s) <= String.length s)%nat.
Proof.
  revert s. induction n as [|n IH]; intros s; [simpl; lia|].
  destruct s as [|c s]; simpl; [lia|]. specialize (IH s). lia.
Qed.

Lemma opt_count_spec (s : string) (o : option string) (r : string) :
  Re.opt_count s = (o, r) ->
  (String.length s <= int_max_str_digits)%nat ->
  numeral_opt o = true /\ (String.length r <= String.length s)%nat.
Proof.
  unfold Re.opt_count. intros H Hl.
  assert (Skip : (None, s) = (o, r) ->
                 numeral_opt o = true /\ (String.length r <= String.length s)%nat).
  { intros E. injection E as <- <-. auto. }
  destruct s as [|c s]; [auto|].
  destruct c as [[] [] [] [] [] [] [] []]; auto.
  destruct (span_digits s) as [d r'] eqn:E.
  destruct (span_digits_spec s d r' E) as [Hd Hlen].
  destruct d as [|c d]; [auto|]. injection H as <- <-.
  simpl in *. split; [|lia].
  apply numeral_intro; [reflexivity | exact Hd | simpl; lia].
Qed.

Lemma hunk_header_spec (l : string) (g : Re.hunk_groups) :
  Re.hunk_header l = Some g ->
  (String.length l <= int_max_str_digits)%nat ->
  numeral (Re.g_old_start g) = true /\ numeral_opt (Re.g_old_count g) = true
  /\ numeral (Re.g_new_start g) = true /\ numeral_opt (Re.g_new_count g) = true.
Proof.
  unfold Re.hunk_header. intros H Hl.
  destruct (startswith l "@@ -"); [|discriminate].
  pose proof (drop_length 4 l) as L0.
  destruct (span_digits (drop 4 l)) as [d1 r1] eqn:E1.
  destruct (span_digits_spec _ _ _ E1) as [Hd1 L1].
  destruct (truthy d1) eqn:T1; [|discriminate].
  destruct (Re.opt_count r1) as [o1 r2] eqn:E2.
  destruct (opt_count_spec r1 o1 r2 E2) as [Ho1 L2]; [lia|].
  destruct (startswith r2 " +"); [|discriminate].
  pose proof (drop_length 2 r2) as L3.
  destruct (span_digits (drop 2 r2)) as [d3 r3] eqn:E3.
  destruct (span_digits_spec _ _ _ E3) as [Hd3 L4].
  destruct (truthy d3) eqn:T3; [|discriminate].
  destruct (Re.opt_count r3) as [o2 r4] eqn:E4.
  destruct (opt_count_spec r3 o2 r4 E4) as [Ho2 L5]; [lia|].
  destruct (startswith r4 " @@"); [|discriminate].
  injection H as <-. simpl.
  repeat split; try assumption; apply numeral_intro; try assumption; lia.
Qed.

Lemma similarity_spec (s : string) (d : string) :
  Re.similarity s = Some d ->
  truthy d = true /\ all_digits d = true
  /\ (String.length d <= String.length s)%nat.
Proof.
  induction s as [|c s IH]; [discriminate|].
  assert (Rec : Re.similarity s = Some d ->
                truthy d = true /\ all_digits d = true
                /\ (String.length d <= String.length (String c s))%nat).
  { intros H. destruct (IH H) as (A & B & C). simpl. auto. }
  cbn [Re.similarity]. destruct (is_digit c) eqn:Hc; [|exact Rec].
  destruct (span_digits (String c s)) as [d' r] eqn:E.
  destruct (startswith r "%"); [|exact Rec].
  intros H. injection H as <-.
  destruct (span_digits_spec _ _ _ E) as [Hd Hl].
  simpl in E. rewrite Hc in E. destruct (span_digits s). injection E as <- <-.
  repeat split; [exact Hd | lia].
Qed.

Lemma last_token_ok (l : string) (c : ascii) (p : string) :
  startswith l (String c p) = true -> is_space c = false ->
  exists m, last_item (split l) = Ok m.
Proof.
  intros H Hc. rewrite (startswith_app l _ H). simpl.
  apply last_item_ok. apply split_nonempty, Hc.
Qed.

Lemma similarity_returns (st : state) (l : string) :
  (String.length l <= int_max_str_digits)%nat ->
  exists st',
    match Re.similarity l with
    | Some d => n <- py_int d ;; Ok (update_file (set_similarity (Some n)) st)
    | None => Ok st
    end = Ok st'.
Proof.
  intros Hl. destruct (Re.similarity l) as [d|] eqn:E; [|eexists; reflexivity].
  destruct (similarity_spec l d E) as (Ht & Hd & Hlen).
  rewrite (py_int_numeral d) by (apply numeral_intro; [assumption .. | lia]).
  eexists; reflexivity.
Qed.

Lemma new_hunk_returns (l : string) (g : Re.hunk_groups) :
  (String.length l <= int_max_str_digits)%nat ->
  Re.hunk_header l = Some g -> exists h, new_hunk g = Ok h.
Proof.
  intros Hl E. destruct (hunk_header_spec l g E Hl) as (A & B & C & D).
  destruct g as [a ob c od t]. simpl in A, B, C, D.
  rewrite (new_hunk_of_groups a ob c od t A C B D). eexists; reflexivity.
Qed.

Lemma step_returns (st : state) (l : string) :
  (String.length l <= int_max_str_digits)%nat ->
  exists st', step st l = Ok st'.
Proof.
  intros Hl. unfold step. chain;
    try match goal with
      | H : startswith l (String ?c ?p) = true
        |- context [last_item (split l)] =>
          destruct (last_token_ok l c p H eq_refl) as [m ->]
      end;
    try solve [eexists; reflexivity];
    try solve [apply similarity_returns, Hl];
    try solve [destruct (in_hunk st && _); eexists; reflexivity].
  destruct (Re.hunk_header l) as [g|] eqn:E; [|eexists; reflexivity].
  destruct (new_hunk_returns l g Hl E) as [h ->]. eexists; reflexivity.
Qed.

Lemma run_returns (ls : list string) :
  forall st,
    Forall (fun l => (String.length l <= int_max_str_digits)%nat) ls ->
    exists st', run st ls = Ok st'.
Proof.
  induction ls as [|l ls IH]; intros st H; simpl.
  - exists st. reflexivity.
  - inversion H as [|? ? Hl Hls]; subst.
    destruct (step_returns st l Hl) as [st1 ->]. simpl. apply IH, Hls.
Qed.

Lemma parse_diff_returns (diff_raw stat_raw : string) :
  short_lines diff_raw -> exists r, parse_diff diff_raw stat_raw = Ok r.
Proof.
  intros H. unfold parse_diff.
  destruct (run_returns (split_nl diff_raw) initial_state H) as [st ->].
  destruct (stat_caption_ok stat_raw) as [cap ->].
  simpl. eexists; reflexivity.
Qed.

(** X1: the parser returns on every text, malformed or not, in which no line
    is longer than the numerals that [int] converts; the caption never
    fails. *)
Theorem parse_diff_returns_on_short_lines :
  forall (diff_raw stat_raw : string),
    short_lines diff_raw ->
    exists r, parse_diff diff_raw stat_raw = Ok r.
Proof. exact parse_diff_returns. Qed.

Lemma parse_diff_returns_on_short_lines_witness :
  exists r, parse_diff diff_malformed_second_header "" = Ok r.
Proof.
  apply (parse_diff_returns_on_short_lines diff_malformed_second_header "").
  unfold short_lines. vm_compute split_nl.
  repeat (constructor; [apply Nat.leb_le; reflexivity|]). constructor.
Defined.

(** ** The summation invariant of the result *)

(** C1: whatever the input, every file of the result of [parse_diff] carries
    the sums of its hunks' additions and deletions, and the totals of the
    result are the sums of the files' values; there is a result whenever no
    line of the input is longer than a numeral can be. *)
Theorem parse_diff_summation :
  forall (diff_raw stat_raw : string),
    (short_lines diff_raw -> exists r, parse_diff diff_raw stat_raw = Ok r)
    /\ (forall r : DiffResult,
          parse_diff diff_raw stat_raw = Ok r ->
          Forall summation_invariant (files r)
          /\ total_additions r = sum (map additions (files r))
          /\ total_deletions r = sum (map deletions (files r))).
Proof.
  intros diff_raw stat_raw. split; [apply parse_diff_returns|].
  intros r H. unfold parse_diff in H.
  apply bind_ok in H. destruct H as (st & Hrun & H).
  apply bind_ok in H. destruct H as (cap & _ & H).
  injection H as <-. simpl. split; [|split; reflexivity].
  apply close_file_invariant.
  apply (run_invariant _ _ _ Hrun). constructor.
Qed.

Lemma parse_diff_summation_witness :
  parse_diff diff_malformed_second_header "" = Ok result_malformed_second_header
  /\ Forall summation_invariant (files result_malformed_second_header)
  /\ total_additions result_malformed_second_header
     = sum (map additions (files result_malformed_second_header))
  /\ total_deletions result_malformed_second_header
     = sum (map deletions (files result_malformed_second_header)).
Proof.
  split; [reflexivity|].
  apply (parse_diff_summation diff_malformed_second_header "").
  reflexivity.
Defined.

(** ** Binary sections *)



(** ** The heap of hunks *)

Lemma mutate_length (hp : list Hunk) (r : ref) (g : Hunk -> Hunk) :
  length (mutate hp r g) = length hp.
Proof.
  revert r. induction hp as [|h hp IH]; intros r; [destruct r; reflexivity|].
  destruct r as [|r]; simpl; [|rewrite IH]; reflexivity.
Qed.

Lemma mutate_Forall (P : Hunk -> Prop) (hp : list Hunk) (r : ref)
    (g : Hunk -> Hunk) :
  (forall h, P h -> P (g h)) -> Forall P hp -> Forall P (mutate hp r g).
Proof.
  intros Hg. revert r. induction hp as [|h hp IH]; intros r H.
  - destruct r; constructor.
  - inversion H; subst. destruct r as [|r]; simpl; constructor; auto.
Qed.

Lemma count_kind_app (t : string) (ls : list Line) (l : Line) :
  count_kind t (ls ++ [l]) =
    count_kind t ls + (if String.eqb (type l) t then 1 else 0).
Proof.
  unfold count_kind. rewrite filter_app, length_app. simpl.
  destruct (String.eqb (type l) t); simpl; lia.
Qed.

Lemma append_line_counted (t c : string) (h : Hunk) :
  hunk_counted h ->
  hunk_counted
    (append_line (mk_line t c)
       (if String.eqb t "add" then 1 else 0)
       (if String.eqb t "del" then 1 else 0) h).
Proof.
  intros [Ha Hd]. unfold hunk_counted, append_line. simpl.
  rewrite !count_kind_app. simpl. rewrite Ha, Hd. split; reflexivity.
Qed.

Lemma body_line_counted (st : state) (l : string) :
  Forall hunk_counted (heap st) -> Forall hunk_counted (heap (body_line l st)).
Proof.
  intros H. unfold body_line, update_hunk.
  destruct (startswith l "---" || startswith l "+++"); [exact H|].
  destruct (current_hunk st) as [r|];
    repeat match goal with
      | |- context [if ?b then _ else _] => destruct b
      end; simpl; try exact H; apply mutate_Forall; try exact H; intros h Hh.
  - apply (append_line_counted "add" _ h Hh).
  - apply (append_line_counted "del" _ h Hh).
  - apply (append_line_counted "ctx" _ h Hh).
  - apply (append_line_counted "noeol" _ h Hh).
Qed.

Lemma body_line_heap_length (st : state) (l : string) :
  length (heap (body_line l st)) = length (heap st).
Proof.
  unfold body_line, update_hunk.
  destruct (startswith l "---" || startswith l "+++"); [reflexivity|].
  destruct (current_hunk st) as [r|];
    repeat match goal with
      | |- context [if ?b then _ else _] => destruct b
      end; simpl; rewrite ?mutate_length; reflexivity.
Qed.

Lemma new_hunk_counted (g : Re.hunk_groups) (h : Hunk) :
  new_hunk g = Ok h -> hunk_counted h.
Proof.
  unfold new_hunk. intros H.
  repeat (apply bind_ok in H; destruct H as (? & _ & H)).
  injection H as <-. split; reflexivity.
Qed.

Lemma flush_hunk_valid (st : state) :
  refs_valid st ->
  Forall (fun r => (r < length (heap st))%nat) (flush_hunk st).
Proof.
  intros [Hs Hc]. unfold flush_hunk. destruct (current_hunk st) as [r|]; [|exact Hs].
  apply Forall_app. split; [exact Hs|]. constructor; [apply Hc; reflexivity | constructor].
Qed.

Lemma deref_counted (hp : list Hunk) (r : ref) :
  Forall hunk_counted hp -> hunk_counted (deref hp r).
Proof.
  intros H. unfold deref. destruct (Nat.lt_ge_cases r (length hp)) as [Hr|Hr].
  - apply (proj1 (Forall_forall _ _) H). apply nth_In, Hr.
  - rewrite nth_overflow by exact Hr. split; reflexivity.
Qed.

Lemma close_file_counted (st : state) :
  Forall hunk_counted (heap st) ->
  Forall (fun f => Forall hunk_counted (hunks f)) (st_files st) ->
  Forall (fun f => Forall hunk_counted (hunks f)) (close_file st).
Proof.
  intros Hh Hf. unfold close_file. destruct (current_file st) as [f|]; [|exact Hf].
  apply Forall_app. split; [exact Hf|]. constructor; [|constructor]. simpl.
  apply Forall_forall. intros h Hin. apply in_map_iff in Hin.
  destruct Hin as (r & <- & _). apply deref_counted, Hh.
Qed.

Lemma Forall_lt_weaken (rs : list ref) (n : nat) :
  Forall (fun r => (r < n)%nat) rs -> Forall (fun r => (r < n + 1)%nat) rs.
Proof. apply Forall_impl. intros; lia. Qed.

Lemma step_heap_invariant (st st' : state) (l : string) :
  step st l = Ok st' -> heap_invariant st -> heap_invariant st'.
Proof.
  intros Hstep (Hv & Hh & Hf).
  pose proof (flush_hunk_valid st Hv) as Hfl. destruct Hv as [Hs Hc].
  destruct (startswith l "diff --git ") eqn:Hd.
  - rewrite (step_file_header st l Hd) in Hstep. injection Hstep as <-.
    split; [split; [constructor | discriminate]|].
    split; [exact Hh | apply close_file_counted; assumption].
  - revert Hstep. unfold step. rewrite Hd. chain; intros H;
      repeat match type of H with
        | (_ <- ?r ;; _) = Ok _ =>
            apply bind_ok in H; destruct H as (? & ? & H)
        | match ?x with _ => _ end = Ok _ => destruct x eqn:?
        | (if ?b then _ else _) = Ok _ => destruct b
        end;
      try (injection H as <-);
      try solve [repeat split; assumption].
    + split; [split; simpl|split; simpl].
      * rewrite length_app. simpl. apply Forall_lt_weaken, Hfl.
      * intros r Hr. injection Hr as <-. rewrite length_app. simpl. lia.
      * apply Forall_app. split; [exact Hh|].
        constructor; [eapply new_hunk_counted; eassumption | constructor].
      * exact Hf.
    + pose proof (body_line_frame st l) as (A & B & C & D & E).
      pose proof (body_line_heap_length st l) as L.
      split; [split|split].
      * rewrite C, L. exact Hs.
      * rewrite D, L. exact Hc.
      * apply body_line_counted, Hh.
      * rewrite A. exact Hf.
    + pose proof (body_line_frame st l) as (A & B & C & D & E).
      pose proof (body_line_heap_length st l) as L.
      split; [split|split].
      * rewrite C, L. exact Hs.
      * rewrite D, L. exact Hc.
      * apply body_line_counted, Hh.
      * rewrite A. exact Hf.
Qed.

Lemma run_heap_invariant (ls : list string) :
  forall st st', run st ls = Ok st' -> heap_invariant st -> heap_invariant st'.
Proof.
  induction ls as [|l ls IH]; simpl; intros st st' Hrun H.
  - injection Hrun as <-. exact H.
  - apply bind_ok in Hrun. destruct Hrun as (st1 & Hstep & Hrun).
    apply (IH _ _ Hrun). apply (step_heap_invariant _ _ _ Hstep H).
Qed.

Lemma initial_heap_invariant : heap_invariant initial_state.
Proof.
  split; [split; [constructor | discriminate] | split; constructor].
Qed.

(** The references that the loop holds never dangle. *)
Lemma run_refs_valid (ls : list string) (st : state) :
  run initial_state ls = Ok st -> refs_valid st.
Proof.
  intros H. apply (run_heap_invariant ls _ _ H initial_heap_invariant).
Qed.

(** X2: in every hunk of the result the counters are the numbers of its
    addition and deletion lines, also for a hunk that a malformed header left
    open. *)
Theorem hunk_counters_agree :
  forall (diff_raw stat_raw : string) (r : DiffResult),
    parse_diff diff_raw stat_raw = Ok r ->
    forall f h, In f (files r) -> In h (hunks f) ->
      h_additions h = count_kind "add" (lines h)
      /\ h_deletions h = count_kind "del" (lines h).
Proof.
  intros diff_raw stat_raw r H f h Hf Hh. unfold parse_diff in H.
  apply bind_ok in H. destruct H as (st & Hrun & H).
  apply bind_ok in H. destruct H as (cap & _ & H).
  injection H as <-. simpl in Hf.
  destruct (run_heap_invariant _ _ _ Hrun initial_heap_invariant)
    as (_ & Hheap & Hfiles).
  pose proof (close_file_counted st Hheap Hfiles) as Hall.
  apply (proj1 (Forall_forall _ _) (proj1 (Forall_forall _ _) Hall f Hf) h Hh).
Qed.

Lemma hunk_counters_agree_witness :
  h_additions hunk_with_stray_line = count_kind "add" (lines hunk_with_stray_line)
  /\ h_deletions hunk_with_stray_line = count_kind "del" (lines hunk_with_stray_line).
Proof.
  apply (hunk_counters_agree diff_malformed_second_header ""
           result_malformed_second_header eq_refl
           (modified_file [hunk_with_stray_line; hunk_with_stray_line] 4 0)
           hunk_with_stray_line);
    left; reflexivity.
Defined.

(** ** A malformed header with no hunk open *)

Lemma step_malformed_header (st : state) (bad : string) :
  startswith bad "@@" = true -> Re.hunk_header bad = None ->
  has_file st = true ->
  step st bad =
    Ok {| st_files := st_files st; current_file := current_file st;
          heap := heap st; current_hunks := flush_hunk st;
          current_hunk := current_hunk st; in_hunk := true |}.
Proof.
  intros Hat Hre Hf. expose bad. unfold step, startswith. simpl.
  rewrite prefix_empty, Hf, Hre. reflexivity.
Qed.

Lemma step_body_no_hunk (st : state) (b : marker * string) :
  current_hunk st = None -> step st (line_text b) = Ok st.
Proof.
  intros Hc. destruct b as [m c]. unfold step, line_text, startswith.
  destruct m; simpl; rewrite Hc, andb_false_r; reflexivity.
Qed.

Lemma run_body_no_hunk (bs : list (marker * string)) (st : state) :
  current_hunk st = None -> run st (map line_text bs) = Ok st.
Proof.
  intros Hc. induction bs as [|b bs IH]; simpl; [reflexivity|].
  rewrite (step_body_no_hunk st b Hc). exact IH.
Qed.

(** X3: when the first hunk header of a file section is malformed, no hunk
    is opened and the body lines below it are dropped: the file has no hunk
    and counts nothing. *)
Theorem malformed_first_header_drops_body :
  forall (bad : string) (bs : list (marker * string)) (stat_raw : string),
    startswith bad "@@" = true -> Re.hunk_header bad = None ->
    no_lf bad = true -> forallb body_ok bs = true ->
    exists cap,
      stat_caption stat_raw = Ok cap
      /\ parse_diff (join_nl ("diff --git a/f b/f" :: bad :: map line_text bs))
           stat_raw
         = Ok (single_file_result (modified_file [] 0 0) cap).
Proof.
  intros bad bs stat_raw Hat Hre Hlf Hbs.
  destruct (stat_caption_ok stat_raw) as [cap Hcap]. exists cap.
  split; [exact Hcap|].
  unfold parse_diff. rewrite split_nl_join
    by (cbn [forallb]; rewrite Hlf, (body_lines_no_lf bs Hbs); reflexivity).
  cbn [run]. rewrite step_file_header by reflexivity. cbn [bind].
  rewrite (step_malformed_header _ bad Hat Hre) by reflexivity. cbn [bind].
  rewrite run_body_no_hunk by reflexivity. cbn [bind].
  rewrite Hcap. reflexivity.
Qed.

Lemma malformed_first_header_drops_body_witness :
  exists cap,
    stat_caption "" = Ok cap
    /\ parse_diff
         (join_nl ("diff --git a/f b/f" :: "@@ bad"
                     :: map line_text [(Plus, "a"); (Minus, "b")])) ""
       = Ok (single_file_result (modified_file [] 0 0) cap).
Proof.
  apply (malformed_first_header_drops_body "@@ bad" [(Plus, "a"); (Minus, "b")] "");
    reflexivity.
Defined.

(** * The repository queries *)

(** ** Lines of the output *)

Lemma splitlines_from_no_linebreak (s : string) :
  forall after_cr, Forall (fun l => no_linebreak l = true) (splitlines_from after_cr s).
Proof.
  induction s as [|c s IH]; intros after_cr; simpl; [constructor|].
  destruct (after_cr && Ascii.eqb c LF); [apply IH|].
  destruct (is_linebreak c) eqn:Hc.
  - constructor; [reflexivity | apply IH].
  - specialize (IH false). destruct (splitlines_from false s) as [|l ls].
    + constructor; [|constructor]. unfold no_linebreak. simpl. rewrite Hc. reflexivity.
    + inversion IH as [|? ? Hl Hls]; subst. constructor; [|exact Hls].
      unfold no_linebreak in *. simpl. rewrite Hc, Hl. reflexivity.
Qed.

Lemma run_git_unchecked_ok (os : list string -> option string -> Z -> process)
    (args : list string) (cwd : option string) (timeout : Z) :
  os ("git" :: args) cwd timeout <> NotFound ->
  os ("git" :: args) cwd timeout <> NoSuchDirectory ->
  run_git os args cwd false timeout =
    Ok (match os ("git" :: args) cwd timeout with
        | Exits _ out => out
        | _ => ""
        end).
Proof.
  intros H H'. unfold run_git.
  destruct (os ("git" :: args) cwd timeout); simpl; congruence.
Qed.

(** X4: [run_git_lines] returns, in their order, the lines of the output
    that hold a character other than white space, and nothing else: when
    the command runs and prints [out], the result is the list of the lines
    of [out] without the blank ones, so that a line is in the result exactly
    when it is a line of [out] and is not blank, and no line of the result
    holds a line boundary.  After a timeout the result is empty.  It raises
    [RuntimeError] when [subprocess.run] raises [FileNotFoundError], that is
    when git or the working directory is missing. *)
Theorem run_git_lines_nonblank :
  forall (os : list string -> option string -> Z -> process)
         (args : list string) (cwd : option string),
    (forall rc out,
       os ("git" :: args) cwd 30 = Exits rc out ->
       run_git_lines os args cwd
       = Ok (filter (fun l => negb (String.eqb (strip l) "")) (splitlines out))
       /\ forall ls, run_git_lines os args cwd = Ok ls ->
            forall l, In l ls <-> In l (splitlines out) /\ strip l <> "")
    /\ (os ("git" :: args) cwd 30 = TimesOut ->
          run_git_lines os args cwd = Ok [])
    /\ (os ("git" :: args) cwd 30 = NotFound
        \/ os ("git" :: args) cwd 30 = NoSuchDirectory ->
          run_git_lines os args cwd = Raise (RuntimeError git_not_found))
    /\ (forall ls, run_git_lines os args cwd = Ok ls ->
          forall l, In l ls ->
            strip l <> "" /\ no_linebreak l = true).
Proof.
  intros os args cwd. unfold run_git_lines.
  assert (Hf : forall l, truthy (strip l) = negb (String.eqb (strip l) ""))
    by (intros l; destruct (strip l); reflexivity).
  split; [|split; [|split]].
  - intros rc out H. rewrite (run_git_unchecked os args cwd 30 rc out H).
    cbn [bind]. rewrite (filter_ext _ _ Hf). split; [reflexivity|].
    intros ls E l. injection E as <-. rewrite filter_In.
    destruct (strip l); simpl; split; intros [H1 H2]; split;
      congruence || discriminate || reflexivity.
  - intros H. rewrite (run_git_timeout os args cwd 30 false H). reflexivity.
  - intros [H|H].
    + rewrite (run_git_not_found os args cwd 30 false H). reflexivity.
    + rewrite (run_git_no_directory os args cwd 30 false H). reflexivity.
  - intros ls H l Hl. apply bind_ok in H. destruct H as (raw & _ & H).
    injection H as <-. apply filter_In in Hl. destruct Hl as [Hin Ht]. split.
    + destruct (strip l); [discriminate | discriminate].
    + apply (proj1 (Forall_forall _ _) (splitlines_from_no_linebreak raw false) l Hin).
Qed.

(** ** Repository discovery *)

Lemma rstrip_rstrip (s : string) : rstrip (rstrip s) = rstrip s.
Proof.
  induction s as [|c s IH]; [reflexivity|]. simpl.
  destruct (rstrip s) as [|c' r] eqn:E.
  - destruct (is_space c) eqn:Hc; simpl; [reflexivity | rewrite Hc; reflexivity].
  - change (rstrip (String c (String c' r))) with
      (match rstrip (String c' r) with
       | EmptyString => if is_space c then EmptyString else String c EmptyString
       | r0 => String c r0
       end).
    rewrite IH. reflexivity.
Qed.

Lemma lstrip_head (s : string) :
  match lstrip s with
  | EmptyString => True
  | String c _ => is_space c = false
  end.
Proof.
  induction s as [|c s IH]; simpl; [exact I|].
  destruct (is_space c) eqn:Hc; [exact IH | exact Hc].
Qed.

Lemma rstrip_head (c : ascii) (s : string) :
  is_space c = false -> exists r, rstrip (String c s) = String c r.
Proof.
  intros Hc. simpl. destruct (rstrip s); rewrite ?Hc; eexists; reflexivity.
Qed.

Lemma strip_strip (s : string) : strip (strip s) = strip s.
Proof.
  unfold strip. pose proof (lstrip_head s) as H.
  destruct (lstrip s) as [|c t]; [reflexivity|].
  destruct (rstrip_head c t H) as [r E]. rewrite E.
  change (lstrip (String c r)) with (if is_space c then lstrip r else String c r).
  rewrite H, <- E. apply rstrip_rstrip.
Qed.

Lemma git_found (os : list string -> option string -> Z -> process)
    (args : list string) (cwd : string) :
  os ("git" :: args) (Some cwd) 30 <> NotFound ->
  os ("git" :: args) (Some cwd) 30 <> NoSuchDirectory ->
  git os args cwd =
    Ok (match os ("git" :: args) (Some cwd) 30 with
        | Exits _ out => out
        | _ => ""
        end).
Proof. apply run_git_unchecked_ok. Qed.

Lemma git_no_directory (os : list string -> option string -> Z -> process)
    (args : list string) (cwd : string) :
  os ("git" :: args) (Some cwd) 30 = NoSuchDirectory ->
  git os args cwd = Raise (RuntimeError git_not_found).
Proof.
  intros H. unfold git, run_git. rewrite H. reflexivity.
Qed.

Lemma git_not_found_raises (os : list string -> option string -> Z -> process)
    (args : list string) (cwd : string) :
  os ("git" :: args) (Some cwd) 30 = NotFound ->
  git os args cwd = Raise (RuntimeError git_not_found).
Proof. intros H. apply (run_git_not_found os args (Some cwd) 30 false H). Qed.

(** X5: the root that [get_repo_root] returns is never empty and carries no
    white space at either end.  In a directory that is given, [is_git_repo]
    never raises: it is true exactly when the command ran, whatever its exit
    code, and printed something other than white space, and so it is false
    when git itself is missing. *)
Theorem repo_root_discovery :
  forall (os : list string -> option string -> Z -> process)
         (getcwd : result string) (path : option string) (cwd : string),
    (if truthy_opt path then Ok (text_of path) else getcwd) = Ok cwd ->
    (forall root, get_repo_root os getcwd path = Ok root ->
       root <> "" /\ strip root = root)
    /\ is_git_repo os getcwd path =
         Ok (match os ["git"; "rev-parse"; "--show-toplevel"] (Some cwd) 30 with
             | Exits _ out => truthy (strip out)
             | _ => false
             end)
    /\ (os ["git"; "rev-parse"; "--show-toplevel"] (Some cwd) 30 = NotFound ->
          get_repo_root os getcwd path = Raise (RuntimeError git_not_found)
          /\ is_git_repo os getcwd path = Ok false).
Proof.
  intros os getcwd path cwd Hcwd.
  unfold is_git_repo, get_repo_root. rewrite Hcwd. cbn [bind].
  destruct (os ["git"; "rev-parse"; "--show-toplevel"] (Some cwd) 30) eqn:E.
  - rewrite git_found by congruence. rewrite E. cbn [bind].
    destruct (strip stdout) eqn:Es; simpl.
    + repeat split; try discriminate.
    + split; [|split; [reflexivity | discriminate]].
      intros root H. injection H as <-. split; [discriminate|].
      rewrite <- Es. apply strip_strip.
  - rewrite git_found by congruence. rewrite E. simpl.
    repeat split; discriminate.
  - rewrite git_not_found_raises by exact E. simpl.
    repeat split; discriminate.
  - rewrite git_found by congruence. rewrite E. simpl.
    repeat split; discriminate.
  - rewrite git_no_directory by exact E. simpl.
    repeat split; discriminate.
Qed.

Lemma repo_root_discovery_witness :
  is_git_repo (os_const 128 "fatal: not a git repository") (Ok "/tmp") None
    = Ok true
  /\ is_git_repo (fun _ _ _ => NotFound) (Ok "/tmp") (Some "/srv/repo")
     = Ok false.
Proof.
  split.
  - apply (repo_root_discovery (os_const 128 "fatal: not a git repository")
             (Ok "/tmp") None "/tmp" eq_refl).
  - apply (repo_root_discovery (fun _ _ _ => NotFound)
             (Ok "/tmp") (Some "/srv/repo") "/srv/repo" eq_refl).
    reflexivity.
Defined.

(** ** The diff fetchers *)

Lemma parse_diff_files_only (diff_raw s1 s2 : string) (r1 r2 : DiffResult) :
  parse_diff diff_raw s1 = Ok r1 -> parse_diff diff_raw s2 = Ok r2 ->
  files r1 = files r2 /\ total_files r1 = total_files r2
  /\ total_additions r1 = total_additions r2
  /\ total_deletions r1 = total_deletions r2.
Proof.
  unfold parse_diff. intros H1 H2.
  destruct (run initial_state (split_nl diff_raw)) as [st|]; [|discriminate].
  cbn [bind] in *.
  apply bind_ok in H1. destruct H1 as (c1 & _ & H1). injection H1 as <-.
  apply bind_ok in H2. destruct H2 as (c2 & _ & H2). injection H2 as <-.
  repeat split.
Qed.

Lemma get_diff_args_staged (base compare : option string) (context : Z) :
  get_diff_args base compare true context =
    (["diff"; "-U" ++ str_of_int context; "--cached"],
     ["diff"; "--cached"; "--stat"], false).
Proof.
  unfold get_diff_args, startswith. simpl. rewrite prefix_empty. reflexivity.
Qed.

Lemma get_diff_args_worktree (base compare : option string) (context : Z) :
  truthy_opt base = false ->
  get_diff_args base compare false context =
    (["diff"; "-U" ++ str_of_int context], ["diff"; "--stat"], false).
Proof.
  intros H. unfold get_diff_args, startswith. rewrite H. simpl.
  rewrite prefix_empty. reflexivity.
Qed.

Lemma range_is_not_show (b c : string) :
  truthy b = true -> ("show" =? b ++ "..." ++ c)%string = false.
Proof.
  intros Hb. apply String.eqb_neq. intros H.
  destruct b as [|b1 [|b2 [|b3 [|b4 [|b5 b]]]]]; simpl in *; try discriminate.
Qed.

Lemma get_diff_args_range (b c : string) (context : Z) :
  truthy b = true -> truthy c = true ->
  fst (fst (get_diff_args (Some b) (Some c) false context)) =
    ["diff"; "-U" ++ str_of_int context; b ++ "..." ++ c]
  /\ snd (get_diff_args (Some b) (Some c) false context) = false.
Proof.
  intros Hb Hc. unfold get_diff_args. cbn [truthy_opt text_of].
  rewrite Hb, Hc. cbn [andb filter].
  replace (startswith "diff" "-U") with false by reflexivity.
  replace (startswith ("-U" ++ str_of_int context) "-U") with true
    by (unfold startswith; simpl; rewrite prefix_empty; reflexivity).
  cbn [negb].
  destruct (negb (startswith (b ++ "..." ++ c) "-U")); cbn [existsb];
    replace ("show" =? "diff")%string with false by reflexivity;
    rewrite ?(range_is_not_show b c Hb); cbn [orb fst snd]; auto.
Qed.

Lemma get_diff_args_show (b : string) (compare : option string) (context : Z) :
  truthy b = true -> truthy_opt compare = false ->
  get_diff_args (Some b) compare false context =
    (["show"; "-U" ++ str_of_int context; "--format="; b],
     ["show"; "--stat"; "--format="; b], false).
Proof.
  intros Hb Hc. unfold get_diff_args. cbn [truthy_opt text_of].
  rewrite Hb, Hc. cbn [andb filter].
  replace (startswith "show" "-U") with false by reflexivity.
  cbn [negb existsb].
  replace ("show" =? "show")%string with true by reflexivity.
  reflexivity.
Qed.

(** X6: how [get_diff] chooses its mode.  With [staged] the refs play no
    part; without a base the comparison ref is ignored and the working tree is
    compared, so that [get_commit_diff] with an empty hash is
    [get_unstaged_diff]; with a base alone the commit is shown, with its own
    stat command; and no mode leaves the stat command sharing the list of the
    diff command. *)
Theorem get_diff_modes :
  forall (os : list string -> option string -> Z -> process)
         (repo_root : string) (base compare : option string) (context : Z)
         (path_filter : option string),
    (forall base' compare',
       get_diff os repo_root base compare true context path_filter
       = get_diff os repo_root base' compare' true context path_filter)
    /\ (truthy_opt base = false ->
          get_diff os repo_root base compare false context path_filter
          = get_diff os repo_root None None false context path_filter)
    /\ get_commit_diff os "" repo_root context
       = get_unstaged_diff os repo_root context
    /\ (forall b, truthy b = true -> truthy_opt compare = false ->
          get_diff os repo_root (Some b) compare false context None
          = (stat_raw <- git os ["show"; "--stat"; "--format="; b] repo_root ;;
             diff_raw <- git os ["show"; "-U" ++ str_of_int context;
                                 "--format="; b] repo_root ;;
             parse_diff diff_raw stat_raw))
    /\ (forall staged, snd (get_diff_args base compare staged context) = false).
Proof.
  intros os repo_root base compare context path_filter.
  split; [|split; [|split; [|split]]].
  - intros base' compare'. unfold get_diff.
    rewrite !get_diff_args_staged. reflexivity.
  - intros H. unfold get_diff.
    rewrite (get_diff_args_worktree base compare context H).
    rewrite (get_diff_args_worktree None None context eq_refl). reflexivity.
  - unfold get_commit_diff, get_unstaged_diff, get_diff.
    rewrite (get_diff_args_worktree (Some "") None context eq_refl).
    rewrite (get_diff_args_worktree None None context eq_refl). reflexivity.
  - intros b Hb Hc. unfold get_diff.
    rewrite (get_diff_args_show b compare context Hb Hc). reflexivity.
  - intros [|].
    + rewrite get_diff_args_staged. reflexivity.
    + destruct (truthy_opt base) eqn:Hb.
      * destruct base as [b|]; [|discriminate]. simpl in Hb.
        destruct (truthy_opt compare) eqn:Hc.
        -- destruct compare as [c|]; [|discriminate].
           apply (get_diff_args_range b c context Hb Hc).
        -- rewrite (get_diff_args_show b compare context Hb Hc). reflexivity.
      * rewrite (get_diff_args_worktree base compare context Hb). reflexivity.
Qed.

(** X7: [get_range_diff] and [get_diff] with both refs run the same diff
    command, so whenever both return they return the same files and the same
    totals; only the caption, which comes from differently ordered stat
    commands, can differ. *)
Theorem range_diff_agrees_with_get_diff :
  forall (os : list string -> option string -> Z -> process)
         (repo_root b c : string) (context : Z) (r1 r2 : DiffResult),
    truthy b = true -> truthy c = true ->
    get_range_diff os repo_root b c context = Ok r1 ->
    get_diff os repo_root (Some b) (Some c) false context None = Ok r2 ->
    files r1 = files r2 /\ total_files r1 = total_files r2
    /\ total_additions r1 = total_additions r2
    /\ total_deletions r1 = total_deletions r2.
Proof.
  intros os repo_root b c context r1 r2 Hb Hc H1 H2.
  unfold get_range_diff in H1. unfold get_diff in H2.
  destruct (get_diff_args_range b c context Hb Hc) as [Ha Hs].
  destruct (get_diff_args (Some b) (Some c) false context) as [[args stat] shared].
  cbn [fst snd] in Ha, Hs. subst args shared.
  cbn [with_path_filter truthy_opt] in H2.
  apply bind_ok in H1. destruct H1 as (s1 & _ & H1).
  apply bind_ok in H1. destruct H1 as (d1 & Hd1 & H1).
  apply bind_ok in H2. destruct H2 as (s2 & _ & H2).
  apply bind_ok in H2. destruct H2 as (d2 & Hd2 & H2).
  rewrite Hd1 in Hd2. injection Hd2 as <-.
  apply (parse_diff_files_only d1 s1 s2 r1 r2 H1 H2).
Qed.

Lemma range_diff_agrees_with_get_diff_witness :
  get_range_diff os_sample "/srv/repo" "main" "dev" 3
    = Ok result_four_kinds_captioned
  /\ get_diff os_sample "/srv/repo" (Some "main") (Some "dev") false 3 None
     = Ok result_four_kinds_captioned
  /\ files result_four_kinds_captioned = files result_four_kinds_captioned.
Proof.
  split; [reflexivity|]. split; [reflexivity|].
  apply (range_diff_agrees_with_get_diff os_sample "/srv/repo" "main" "dev" 3
           result_four_kinds_captioned result_four_kinds_captioned
           eq_refl eq_refl eq_refl eq_refl).
Defined.

(** ** The caption of the result *)

Lemma rstrip_fixed_tail (c : ascii) (s : string) :
  s <> "" -> rstrip (String c s) = String c s -> rstrip s = s.
Proof.
  intros Hs H. simpl in H. destruct (rstrip s) as [|c' r] eqn:E.
  - destruct (is_space c); [discriminate|]. injection H as H. congruence.
  - injection H as H. exact H.
Qed.

Lemma rstrip_fixed_last (c : ascii) :
  rstrip (String c "") = String c "" -> is_space c = false.
Proof. simpl. destruct (is_space c); [discriminate | reflexivity]. Qed.

Lemma linebreak_is_space (c : ascii) : is_linebreak c = true -> is_space c = true.
Proof.
  destruct c as [[] [] [] [] [] [] [] []]; intros H; try reflexivity;
    discriminate H.
Qed.

Lemma rstrip_cons_fixed (c : ascii) (l : string) :
  l <> "" -> rstrip l = l -> rstrip (String c l) = String c l.
Proof.
  intros Hl H. simpl. rewrite H. destruct l; [congruence | reflexivity].
Qed.

(** The last line of a text that ends in a character other than white space
    ends in that character. *)
Lemma last_line_of_stripped (s : string) :
  forall after_cr,
    s <> "" -> rstrip s = s ->
    exists l, last_item (splitlines_from after_cr s) = Ok l
              /\ l <> "" /\ rstrip l = l.
Proof.
  induction s as [|c s IH]; intros after_cr Hs Hfix; [congruence|].
  destruct s as [|c' s'].
  - pose proof (rstrip_fixed_last c Hfix) as Hc.
    assert (Hb : is_linebreak c = false).
    { destruct (is_linebreak c) eqn:E; [|reflexivity].
      rewrite (linebreak_is_space c E) in Hc. discriminate. }
    assert (Hlf : Ascii.eqb c LF = false).
    { destruct (Ascii.eqb_spec c LF) as [->|]; [discriminate Hb | reflexivity]. }
    simpl. rewrite Hlf, andb_false_r, Hb. exists (String c "").
    repeat split; [discriminate | exact Hfix].
  - assert (Hs' : String c' s' <> "") by discriminate.
    pose proof (rstrip_fixed_tail c (String c' s') Hs' Hfix) as Hfix'.
    remember (String c' s') as t eqn:Et. clear Et Hfix Hs.
    cbn [splitlines_from].
    destruct (after_cr && Ascii.eqb c LF); [apply (IH false Hs' Hfix')|].
    destruct (is_linebreak c).
    + destruct (IH (Ascii.eqb c CR) Hs' Hfix') as (l & Hl & Hne & Hr).
      exists l. split; [|auto].
      destruct (splitlines_from (Ascii.eqb c CR) t) as [|x xs];
        [discriminate Hl | exact Hl].
    + destruct (IH false Hs' Hfix') as (l & Hl & Hne & Hr).
      destruct (splitlines_from false t) as [|x xs];
        [discriminate Hl|].
      destruct xs as [|y ys].
      * injection Hl as ->. exists (String c l).
        repeat split; [discriminate | apply rstrip_cons_fixed; assumption].
      * exists l. split; [exact Hl | auto].
Qed.

(** X8: the caption of the result is empty exactly when the stat text holds
    nothing but white space; otherwise it is one line, not empty, without a
    line boundary and without white space at its end.  White space at its
    start stays: the text is stripped as a whole, not the line. *)
Theorem stat_summary_shape :
  forall (diff_raw stat_raw : string) (r : DiffResult),
    parse_diff diff_raw stat_raw = Ok r ->
    (strip stat_raw = "" -> stat_summary r = "")
    /\ (strip stat_raw <> "" ->
          stat_summary r <> "" /\ rstrip (stat_summary r) = stat_summary r
          /\ no_linebreak (stat_summary r) = true)
    /\ stat_caption (" a | 1 +" ++ nl ++ " 1 file changed" ++ nl)
       = Ok " 1 file changed".
Proof.
  intros diff_raw stat_raw r H. unfold parse_diff in H.
  apply bind_ok in H. destruct H as (st & _ & H).
  apply bind_ok in H. destruct H as (cap & Hcap & H).
  injection H as <-. cbn [stat_summary]. unfold stat_caption in Hcap.
  split; [|split; [|reflexivity]].
  - intros E. rewrite E in Hcap. injection Hcap as <-. reflexivity.
  - intros E. destruct (strip stat_raw) as [|c s] eqn:Es; [congruence|].
    cbn [truthy] in Hcap. unfold splitlines in Hcap.
    destruct (last_line_of_stripped (String c s) false) as (l & Hl & Hne & Hr).
    + discriminate.
    + rewrite <- Es. unfold strip. apply rstrip_rstrip.
    + rewrite Hl in Hcap. injection Hcap as <-. repeat split; try assumption.
      apply (proj1 (Forall_forall _ _)
               (splitlines_from_no_linebreak (String c s) false)).
      clear - Hl. revert Hl. generalize (splitlines_from false (String c s)).
      intros ls. induction ls as [|x xs IH]; [discriminate|].
      destruct xs as [|y ys]; intros H.
      * injection H as ->. left. reflexivity.
      * right. apply IH. exact H.
Qed.

Lemma stat_summary_shape_witness :
  stat_summary result_four_kinds_captioned <> ""
  /\ rstrip (stat_summary result_four_kinds_captioned)
     = stat_summary result_four_kinds_captioned
  /\ no_linebreak (stat_summary result_four_kinds_captioned) = true.
Proof.
  apply (stat_summary_shape diff_four_kinds
           (" f | 2 +-" ++ nl ++ " 1 file changed, 1 insertion(+), 1 deletion(-)" ++ nl)
           result_four_kinds_captioned eq_refl).
  discriminate.
Defined.

(** ** Cutting a text at a separator *)

Lemma split_char_nonempty (c : ascii) (n : option nat) (s : string) :
  split_char c n s <> [].
Proof.
  destruct s as [|a s]; simpl; [discriminate|].
  destruct (match n with Some O => false | _ => Ascii.eqb a c end);
    [discriminate|].
  destruct (split_char c n s); discriminate.
Qed.

Lemma concat_cons_head (sep a : string) (l : string) (ls : list string) (x : ascii) :
  String.concat sep (String x l :: ls) = String x (String.concat sep (l :: ls)).
Proof. destruct ls; reflexivity. Qed.

(** Joining the parts with the separator gives the text back. *)
Lemma split_char_concat (c : ascii) (s : string) :
  forall n, String.concat (String c "") (split_char c n s) = s.
Proof.
  induction s as [|a s IH]; intros n; [reflexivity|].
  cbn [split_char].
  destruct (match n with Some O => false | _ => Ascii.eqb a c end) eqn:E.
  - assert (a = c) as ->.
    { destruct n as [[|k]|]; try discriminate; apply Ascii.eqb_eq, E. }
    specialize (IH (option_map pred n)).
    pose proof (split_char_nonempty c (option_map pred n) s) as Hne.
    destruct (split_char c (option_map pred n) s) as [|l ls]; [congruence|].
    change (String.concat (String c "") ("" :: l :: ls))
      with (String c (String.concat (String c "") (l :: ls))).
    rewrite IH. reflexivity.
  - specialize (IH n). pose proof (split_char_nonempty c n s) as Hne.
    destruct (split_char c n s) as [|l ls]; [congruence|].
    rewrite (concat_cons_head (String c "") l l ls a), IH. reflexivity.
Qed.

Lemma split_char_app (c : ascii) (a r : string) :
  forall n, lacks c a = true -> n <> Some O ->
    split_char c n (a ++ String c r) = a :: split_char c (option_map pred n) r.
Proof.
  induction a as [|x a IH]; intros n Ha Hn.
  - simpl. rewrite Ascii.eqb_refl.
    destruct n as [[|k]|]; [congruence | reflexivity | reflexivity].
  - unfold lacks in Ha. simpl in Ha. apply andb_prop in Ha. destruct Ha as [Hx Ha].
    apply negb_true_iff in Hx. simpl. rewrite Hx.
    replace (match n with Some O => false | _ => false end) with false
      by (destruct n as [[|k]|]; reflexivity).
    rewrite (IH n Ha Hn). reflexivity.
Qed.

Lemma split_char_last (c : ascii) (s : string) :
  forall n, lacks c s = true -> split_char c n s = [s].
Proof.
  induction s as [|x s IH]; intros n Hs; [reflexivity|].
  unfold lacks in Hs. simpl in Hs. apply andb_prop in Hs. destruct Hs as [Hx Hs].
  apply negb_true_iff in Hx. simpl. rewrite Hx.
  replace (match n with Some O => false | _ => false end) with false
    by (destruct n as [[|k]|]; reflexivity).
  rewrite (IH n Hs). reflexivity.
Qed.

Lemma split_char_zero (c : ascii) (s : string) : split_char c (Some O) s = [s].
Proof.
  induction s as [|x s IH]; [reflexivity|]. simpl. rewrite IH. reflexivity.
Qed.

(** Every part but the last is free of the separator. *)
Lemma split_char_parts_lack (c : ascii) (s : string) :
  forall n, Forall (fun p => lacks c p = true) (but_last (split_char c n s)).
Proof.
  induction s as [|a s IH]; intros n; [constructor|].
  cbn [split_char].
  destruct (match n with Some O => false | _ => Ascii.eqb a c end) eqn:E.
  - specialize (IH (option_map pred n)).
    pose proof (split_char_nonempty c (option_map pred n) s) as Hne.
    destruct (split_char c (option_map pred n) s) as [|l ls]; [congruence|].
    change (but_last ("" :: l :: ls)) with ("" :: but_last (l :: ls)).
    constructor; [reflexivity | exact IH].
  - specialize (IH n). pose proof (split_char_nonempty c n s) as Hne.
    destruct (split_char c n s) as [|l ls] eqn:Es; [congruence|].
    destruct ls as [|l' ls]; [constructor|].
    change (but_last (String a l :: l' :: ls))
      with (String a l :: but_last (l' :: ls)).
    change (but_last (l :: l' :: ls)) with (l :: but_last (l' :: ls)) in IH.
    inversion IH as [|? ? Hl Hls]; subst. constructor; [|exact Hls].
    unfold lacks in *. simpl. rewrite Hl, andb_true_r.
    destruct n as [[|k]|]; try (rewrite E; reflexivity).
    rewrite split_char_zero in Es. discriminate Es.
Qed.

(** ** References *)

Lemma ref_entry_spec (line : string) (e : Ref.t) :
  In e (ref_entry line) <->
  line = Ref.name e ++ "|" ++ Ref.hash e ++ "|" ++ Ref.type e
  /\ lacks "|" (Ref.name e) = true /\ lacks "|" (Ref.hash e) = true.
Proof.
  unfold ref_entry. split.
  - intros H.
    pose proof (split_char_concat "|" line (Some 2%nat)) as Hcat.
    pose proof (split_char_parts_lack "|" line (Some 2%nat)) as Hl.
    destruct (split_char "|" (Some 2%nat) line) as [|a [|b [|c [|d l]]]];
      try contradiction.
    destruct H as [<-|[]]. simpl in *.
    inversion Hl as [|? ? Ha Hl']; subst. inversion Hl' as [|? ? Hb _]; subst.
    auto.
  - intros (-> & Ha & Hb). destruct e as [a b c]. simpl in *.
    rewrite (split_char_app "|" a _ (Some 2%nat) Ha) by discriminate.
    simpl option_map.
    rewrite (split_char_app "|" b _ (Some 1%nat) Hb) by discriminate.
    simpl option_map. rewrite split_char_zero. left. reflexivity.
Qed.

(** X9: [get_all_refs] returns exactly the references that the output
    names: a record is returned if and only if some line of the output reads
    name, bar, hash, bar, type, with no bar in the name or in the hash; every
    other line is passed over. *)
Theorem get_all_refs_round_trip :
  forall (os : list string -> option string -> Z -> process)
         (repo_root : string) (rc : Z) (raw : string),
    os all_refs_command (Some repo_root) 30 = Exits rc raw ->
    exists rs,
      get_all_refs os repo_root = Ok rs
      /\ forall e,
           In e rs <->
           exists line,
             In line (splitlines raw)
             /\ line = Ref.name e ++ "|" ++ Ref.hash e ++ "|" ++ Ref.type e
             /\ lacks "|" (Ref.name e) = true /\ lacks "|" (Ref.hash e) = true.
Proof.
  intros os repo_root rc raw Hos. unfold get_all_refs.
  rewrite git_found; fold all_refs_command; rewrite Hos; [|discriminate..].
  cbn [bind]. eexists. split; [reflexivity|].
  intros e. rewrite in_flat_map. split.
  - intros (line & Hin & He). exists line. split; [exact Hin|].
    apply ref_entry_spec, He.
  - intros (line & Hin & He). exists line. split; [exact Hin|].
    apply ref_entry_spec, He.
Qed.

Lemma get_all_refs_round_trip_witness :
  exists rs,
    get_all_refs (os_const 0 ("main|1a2b3c4|commit" ++ nl ++ "v1.0|5d6e7f8|tag" ++ nl))
      "/srv/repo" = Ok rs
    /\ In {| Ref.name := "v1.0"; Ref.hash := "5d6e7f8"; Ref.type := "tag" |} rs.
Proof.
  destruct (get_all_refs_round_trip
              (os_const 0 ("main|1a2b3c4|commit" ++ nl ++ "v1.0|5d6e7f8|tag" ++ nl))
              "/srv/repo" 0 _ eq_refl) as (rs & Hrs & H).
  exists rs. split; [exact Hrs|]. apply H.
  exists "v1.0|5d6e7f8|tag". repeat split. right. left. reflexivity.
Defined.

(** ** Texts that stripping leaves alone *)

Lemma all_chars_impl (p q : ascii -> bool) (s : string) :
  (forall c, p c = true -> q c = true) ->
  all_chars p s = true -> all_chars q s = true.
Proof.
  intros Hpq. induction s as [|c s IH]; simpl; [reflexivity|].
  intros H. apply andb_true_iff in H as [Hc Hs].
  rewrite (Hpq c Hc), (IH Hs). reflexivity.
Qed.

Lemma lstrip_by_clean (p : ascii -> bool) (s : string) :
  all_chars (fun c => negb (p c)) s = true -> lstrip_by p s = s.
Proof.
  destruct s as [|c s]; simpl; [reflexivity|].
  intros H. apply andb_true_iff in H as [Hc _].
  apply negb_true_iff in Hc. rewrite Hc. reflexivity.
Qed.

Lemma rstrip_by_clean (p : ascii -> bool) (s : string) :
  all_chars (fun c => negb (p c)) s = true -> rstrip_by p s = s.
Proof.
  induction s as [|c s IH]; simpl; [reflexivity|].
  intros H. apply andb_true_iff in H as [Hc Hs].
  apply negb_true_iff in Hc. rewrite (IH Hs), Hc.
  destruct s; reflexivity.
Qed.

Lemma strip_by_clean (p : ascii -> bool) (s : string) :
  all_chars (fun c => negb (p c)) s = true -> strip_by p s = s.
Proof.
  intros H. unfold strip_by. rewrite (lstrip_by_clean p s H).
  apply rstrip_by_clean, H.
Qed.

Lemma lstrip_is_lstrip_by (s : string) : lstrip s = lstrip_by is_space s.
Proof.
  induction s as [|c s IH]; simpl; [reflexivity|]. rewrite IH. reflexivity.
Qed.

Lemma rstrip_is_rstrip_by (s : string) : rstrip s = rstrip_by is_space s.
Proof.
  induction s as [|c s IH]; simpl; [reflexivity|]. rewrite IH. reflexivity.
Qed.

Lemma strip_is_strip_by (s : string) : strip s = strip_by is_space s.
Proof.
  unfold strip, strip_by. rewrite lstrip_is_lstrip_by. apply rstrip_is_rstrip_by.
Qed.

Lemma strip_clean (s : string) :
  all_chars (fun c => negb (is_space c)) s = true -> strip s = s.
Proof. intros H. rewrite strip_is_strip_by. apply strip_by_clean, H. Qed.

(** What is left of a text after stripping is made of characters of the
    text. *)
Lemma lstrip_by_keeps (p q : ascii -> bool) (s : string) :
  all_chars q s = true -> all_chars q (lstrip_by p s) = true.
Proof.
  induction s as [|c s IH]; simpl; [reflexivity|].
  intros H. destruct (p c).
  - apply IH. apply andb_true_iff in H. apply H.
  - exact H.
Qed.

Lemma rstrip_by_keeps (p q : ascii -> bool) (s : string) :
  all_chars q s = true -> all_chars q (rstrip_by p s) = true.
Proof.
  induction s as [|c s IH]; simpl; [reflexivity|].
  intros H. apply andb_true_iff in H as [Hc Hs]. specialize (IH Hs).
  destruct (rstrip_by p s) as [|c' r].
  - destruct (p c); simpl; [reflexivity | rewrite Hc; reflexivity].
  - change (all_chars q (String c (String c' r)))
      with (q c && all_chars q (String c' r)).
    rewrite Hc, IH. reflexivity.
Qed.

(** A character that stripping does not take and that the text holds is
    still there afterwards. *)
Lemma lstrip_by_holds (p : ascii -> bool) (a : ascii) (s : string) :
  p a = false -> lacks a (lstrip_by p s) = true -> lacks a s = true.
Proof.
  intros Ha. induction s as [|c s IH]; simpl; [reflexivity|].
  destruct (p c) eqn:Hc.
  - intros H. unfold lacks in *. simpl. rewrite (IH H), andb_true_r.
    apply negb_true_iff. apply Ascii.eqb_neq. intros ->. congruence.
  - intros H. exact H.
Qed.

Lemma rstrip_by_holds (p : ascii -> bool) (a : ascii) (s : string) :
  p a = false -> lacks a (rstrip_by p s) = true -> lacks a s = true.
Proof.
  intros Ha. unfold lacks. induction s as [|c s IH]; simpl; [reflexivity|].
  destruct (rstrip_by p s) as [|c' r] eqn:E.
  - intros H. rewrite (IH eq_refl), andb_true_r.
    destruct (p c) eqn:Hc.
    + apply negb_true_iff. apply Ascii.eqb_neq. intros ->. congruence.
    + simpl in H. rewrite andb_true_r in H. exact H.
  - intros H.
    change (all_chars (fun a0 => negb (Ascii.eqb a0 a)) (String c (String c' r)))
      with (negb (Ascii.eqb c a)
            && all_chars (fun a0 => negb (Ascii.eqb a0 a)) (String c' r)) in H.
    apply andb_true_iff in H as [Hc Hr]. rewrite Hc, (IH Hr). reflexivity.
Qed.

Lemma strip_holds (a : ascii) (s : string) :
  is_space a = false -> lacks a (strip s) = true -> lacks a s = true.
Proof.
  intros Ha H. rewrite strip_is_strip_by in H. unfold strip_by in H.
  apply (lstrip_by_holds is_space a s Ha).
  apply (rstrip_by_holds is_space a _ Ha H).
Qed.

(** ** Numerals under [int] *)

Lemma digit_classes (c : ascii) :
  is_digit c = true ->
  is_space c = false /\ is_int_space c = false /\ is_digit_char c = true
  /\ c <> "+"%char /\ c <> "-"%char /\ c <> "|"%char.
Proof.
  destruct c as [[] [] [] [] [] [] [] []]; intros H; try discriminate H;
    repeat split; discriminate.
Qed.

Lemma all_digits_clean (p : ascii -> bool) (s : string) :
  (forall c, is_digit c = true -> p c = true) ->
  all_digits s = true -> all_chars p s = true.
Proof.
  intros Hp. induction s as [|c s IH]; simpl; [reflexivity|].
  intros H. apply andb_true_iff in H as [Hc Hs].
  rewrite (Hp c Hc), (IH Hs). reflexivity.
Qed.

Lemma int_digits_all (s : string) :
  forall after_digit,
    all_digits s = true -> after_digit = true \/ truthy s = true ->
    int_digits after_digit s = Some s.
Proof.
  induction s as [|c s IH]; intros b Hd Hb.
  - simpl. destruct Hb as [-> | Hb]; [reflexivity | discriminate Hb].
  - simpl in Hd. apply andb_true_iff in Hd as [Hc Hs].
    cbn [int_digits]. rewrite Hc, (IH true Hs) by (left; reflexivity).
    reflexivity.
Qed.

(** On a numeral, [int] gives the value of the digits. *)
Lemma py_int_text_numeral (s : string) :
  numeral s = true -> py_int_text s = Ok (decimal_value 0 s).
Proof.
  intros H. destruct (numeral_inv s H) as (Ht & Hd & Hl).
  unfold py_int_text.
  rewrite strip_by_clean
    by (apply all_digits_clean; [|exact Hd]; intros c Hc;
        apply negb_true_iff; apply (digit_classes c Hc)).
  assert (Hbody : match s with
                  | String "+" r => (false, r)
                  | String "-" r => (true, r)
                  | _ => (false, s)
                  end = (false, s)).
  { destruct s as [|c r]; [reflexivity|]. simpl in Hd.
    apply andb_true_iff in Hd as [Hc _].
    destruct c as [[] [] [] [] [] [] [] []]; try discriminate Hc; reflexivity. }
  rewrite Hbody. rewrite (int_digits_all s false Hd) by (right; exact Ht).
  apply Nat.ltb_ge in Hl. rewrite Hl. reflexivity.
Qed.

Lemma isdigit_numeral (s : string) :
  numeral s = true -> isdigit (strip s) = true.
Proof.
  intros H. destruct (numeral_inv s H) as (Ht & Hd & _).
  rewrite strip_clean
    by (apply all_digits_clean; [|exact Hd]; intros c Hc;
        apply negb_true_iff; apply (digit_classes c Hc)).
  unfold isdigit. rewrite Ht. simpl.
  apply all_digits_clean; [|exact Hd]. intros c Hc. apply (digit_classes c Hc).
Qed.

Lemma int_if_digit_numeral (s : string) :
  numeral s = true -> int_if_digit s = Ok (decimal_value 0 s).
Proof.
  intros H. unfold int_if_digit. rewrite (isdigit_numeral s H).
  apply py_int_text_numeral, H.
Qed.

(** A text that holds a bar is no run of digits, however it is stripped. *)
Lemma int_if_digit_bar (s : string) :
  lacks "|" s = false -> int_if_digit s = Ok 0.
Proof.
  intros H. unfold int_if_digit.
  destruct (isdigit (strip s)) eqn:E; [|reflexivity].
  unfold isdigit in E. apply andb_true_iff in E as [_ E].
  assert (Hl : lacks "|" (strip s) = true).
  { unfold lacks. apply (all_chars_impl is_digit_char); [|exact E].
    intros c Hc. apply negb_true_iff, Ascii.eqb_neq. intros ->. discriminate Hc. }
  apply strip_holds in Hl; [congruence | reflexivity].
Qed.

Lemma lacks_app_bar (c : ascii) (a b : string) :
  lacks c (a ++ String c b) = false.
Proof.
  unfold lacks. induction a as [|x a IH]; simpl.
  - rewrite Ascii.eqb_refl. reflexivity.
  - rewrite IH. apply andb_false_r.
Qed.

(** ** Stashes *)

Lemma string_app_assoc (a b c : string) : (a ++ b) ++ c = a ++ b ++ c.
Proof. induction a as [|x a IH]; simpl; [reflexivity | rewrite IH; reflexivity]. Qed.

Lemma stash_line_parts (ref hash message relative rest : string) :
  lacks "|" ref = true -> lacks "|" hash = true ->
  lacks "|" message = true -> lacks "|" relative = true ->
  split_char "|" (Some 4%nat) (stash_line ref hash message relative rest)
  = [ref; hash; message; relative; rest].
Proof.
  intros H1 H2 H3 H4. unfold stash_line. cbn [append].
  rewrite (split_char_app "|" ref _ (Some 4%nat) H1) by discriminate.
  simpl option_map.
  rewrite (split_char_app "|" hash _ (Some 3%nat) H2) by discriminate.
  simpl option_map.
  rewrite (split_char_app "|" message _ (Some 2%nat) H3) by discriminate.
  simpl option_map.
  rewrite (split_char_app "|" relative _ (Some 1%nat) H4) by discriminate.
  simpl option_map. rewrite split_char_zero. reflexivity.
Qed.

(** X10: [get_stashes] reads a stash line back field by field.  For a line
    made of a reference, a hash, a message and a relative date that hold no
    bar, and of a time stamp that is a numeral, the loop appends the record
    with exactly these fields, the time stamp as a number, and goes on with
    the lines that follow. *)
Theorem stash_line_round_trip :
  forall (ref hash message relative timestamp : string) (ls : list string),
    lacks "|" ref = true -> lacks "|" hash = true ->
    lacks "|" message = true -> lacks "|" relative = true ->
    numeral timestamp = true ->
    stash_entries (stash_line ref hash message relative timestamp :: ls)
    = (rest <- stash_entries ls ;;
       Ok ({| Stash.ref := ref; Stash.hash := hash; Stash.message := message;
              Stash.relative := relative;
              Stash.timestamp := decimal_value 0 timestamp |} :: rest)).
Proof.
  intros ref hash message relative timestamp ls H1 H2 H3 H4 Hn.
  cbn [stash_entries].
  rewrite (stash_line_parts ref hash message relative timestamp H1 H2 H3 H4).
  cbn [length Nat.leb nth_error nth].
  rewrite (int_if_digit_numeral timestamp Hn). reflexivity.
Qed.

Lemma stash_line_round_trip_witness :
  stash_entries
    [stash_line "stash@{0}" "9fceb02d" "WIP on main: fix" "2 hours ago" "1700000000"]
  = Ok [{| Stash.ref := "stash@{0}"; Stash.hash := "9fceb02d";
           Stash.message := "WIP on main: fix"; Stash.relative := "2 hours ago";
           Stash.timestamp := 1700000000 |}].
Proof.
  exact (stash_line_round_trip "stash@{0}" "9fceb02d" "WIP on main: fix"
           "2 hours ago" "1700000000" [] eq_refl eq_refl eq_refl eq_refl eq_refl).
Defined.

(** X11: a bar in the message of a stash shifts the fields of its record.
    The line is cut at its first four bars, so the message stops at its own
    first bar, what follows up to the next bar is taken for the relative
    date, and the time stamp is 0 whatever the time stamp of the line is. *)
Theorem stash_message_with_bar :
  forall (ref hash before after relative timestamp : string) (ls : list string),
    lacks "|" ref = true -> lacks "|" hash = true ->
    lacks "|" before = true -> lacks "|" after = true ->
    stash_entries
      (stash_line ref hash (before ++ "|" ++ after) relative timestamp :: ls)
    = (rest <- stash_entries ls ;;
       Ok ({| Stash.ref := ref; Stash.hash := hash; Stash.message := before;
              Stash.relative := after; Stash.timestamp := 0 |} :: rest)).
Proof.
  intros ref hash before after relative timestamp ls H1 H2 H3 H4.
  replace (stash_line ref hash (before ++ "|" ++ after) relative timestamp)
    with (stash_line ref hash before after (relative ++ "|" ++ timestamp))
    by (unfold stash_line; rewrite !string_app_assoc; reflexivity).
  cbn [stash_entries].
  rewrite (stash_line_parts ref hash before after _ H1 H2 H3 H4).
  cbn [length Nat.leb nth_error nth].
  rewrite int_if_digit_bar by apply lacks_app_bar. reflexivity.
Qed.

Lemma stash_message_with_bar_witness :
  stash_entries
    [stash_line "stash@{0}" "9fceb02d" "try a|b" "2 hours ago" "1700000000"]
  = Ok [{| Stash.ref := "stash@{0}"; Stash.hash := "9fceb02d";
           Stash.message := "try a"; Stash.relative := "b";
           Stash.timestamp := 0 |}].
Proof.
  exact (stash_message_with_bar "stash@{0}" "9fceb02d" "try a" "b"
           "2 hours ago" "1700000000" [] eq_refl eq_refl eq_refl eq_refl).
Defined.

(** ** The working tree status *)

Lemma plain_inv (p : string) :
  plain p = true ->
  truthy p = true /\ lacks " " p = true
  /\ strip p = p /\ strip_quotes p = p.
Proof.
  unfold plain. intros H. apply andb_true_iff in H as [Ht Hp].
  split; [exact Ht|]. split; [|split].
  - unfold lacks. revert Hp. apply all_chars_impl.
    intros c Hc. apply andb_true_iff in Hc as [Hc _].
    apply negb_true_iff, Ascii.eqb_neq. intros ->. discriminate Hc.
  - apply strip_clean. revert Hp. apply all_chars_impl.
    intros c Hc. apply andb_true_iff in Hc. apply Hc.
  - apply strip_by_clean. revert Hp. apply all_chars_impl.
    intros c Hc. apply andb_true_iff in Hc. apply Hc.
Qed.

Lemma cut_arrow_none (s : string) :
  lacks " " s = true -> cut ARROW s = None.
Proof.
  unfold lacks. induction s as [|c s IH]; intros H; [reflexivity|].
  simpl in H. apply andb_true_iff in H as [Hc Hs].
  apply negb_true_iff in Hc.
  change (cut ARROW (String c s))
    with (if startswith (String c s) ARROW
          then Some (EmptyString, drop (String.length ARROW) (String c s))
          else match cut ARROW s with
               | Some (x, y) => Some (String c x, y)
               | None => None
               end).
  replace (startswith (String c s) ARROW) with false.
  - rewrite (IH Hs). reflexivity.
  - unfold startswith, ARROW. cbn [prefix].
    destruct (ascii_dec " " c) as [<-|]; [discriminate Hc | reflexivity].
Qed.

Lemma cut_arrow_app (a b : string) :
  lacks " " a = true -> cut ARROW (a ++ ARROW ++ b) = Some (a, b).
Proof.
  unfold lacks. induction a as [|c a IH]; intros H.
  - simpl. unfold startswith. rewrite prefix_empty. reflexivity.
  - simpl in H. apply andb_true_iff in H as [Hc Ha].
    apply negb_true_iff in Hc.
    change (cut ARROW (String c a ++ ARROW ++ b))
      with (if startswith (String c (a ++ ARROW ++ b)) ARROW
            then Some (EmptyString,
                       drop (String.length ARROW) (String c (a ++ ARROW ++ b)))
            else match cut ARROW (a ++ ARROW ++ b) with
                 | Some (x, y) => Some (String c x, y)
                 | None => None
                 end).
    replace (startswith (String c (a ++ ARROW ++ b)) ARROW) with false.
    + rewrite (IH Ha). reflexivity.
    + unfold startswith, ARROW. cbn [prefix].
      destruct (ascii_dec " " c) as [<-|]; [discriminate Hc | reflexivity].
Qed.

Lemma status_entry_plain (x y z : ascii) (new : string) :
  plain new = true ->
  status_entry (status_line x y z new)
  = {| StatusEntry.staged := String x ""; StatusEntry.unstaged := String y "";
       StatusEntry.path := new; StatusEntry.old_path := None;
       StatusEntry.xy := String x (String y "") |}.
Proof.
  intros Hp. destruct (plain_inv new Hp) as (_ & Hl & Hs & Hq).
  unfold status_entry, status_line. cbn [take drop].
  fold ARROW. rewrite (cut_arrow_none new Hl).
  rewrite String.eqb_refl, Hs, Hq. reflexivity.
Qed.

Lemma status_entry_rename (x y z : ascii) (old new : string) :
  plain old = true -> plain new = true ->
  status_entry (status_line x y z (old ++ ARROW ++ new))
  = {| StatusEntry.staged := String x ""; StatusEntry.unstaged := String y "";
       StatusEntry.path := new;
       StatusEntry.old_path := if String.eqb old new then None else Some old;
       StatusEntry.xy := String x (String y "") |}.
Proof.
  intros Ho Hn. destruct (plain_inv old Ho) as (_ & Hl & Hs & Hq).
  destruct (plain_inv new Hn) as (_ & _ & Hs' & Hq').
  unfold status_entry, status_line. cbn [take drop].
  fold ARROW. rewrite (cut_arrow_app old new Hl).
  rewrite Hs, Hq, Hs', Hq'. reflexivity.
Qed.

Lemma status_line_length (x y z : ascii) (rest : string) :
  truthy rest = true -> (4 <=? String.length (status_line x y z rest))%nat = true.
Proof. destruct rest; [discriminate | reflexivity]. Qed.

Lemma truthy_app (a b : string) : truthy a = true -> truthy (a ++ b) = true.
Proof. destruct a; [discriminate | reflexivity]. Qed.

(** X12: [get_status] reads the entries of the porcelain output back.  A
    line made of the two status letters, one character and a path without
    white space or quotes gives the entry with these letters and this path
    and no old path; a line whose path is an old path, an arrow and a new
    path gives the entry with the new path, and with the old path unless the
    two are the same. *)
Theorem get_status_round_trip :
  forall (os : list string -> option string -> Z -> process)
         (repo_root : string) (rc : Z) (raw : string)
         (x y z : ascii) (old new : string),
    os status_command (Some repo_root) 30 = Exits rc raw ->
    plain old = true -> plain new = true ->
    exists es,
      get_status os repo_root = Ok es
      /\ (In (status_line x y z new) (splitlines raw) ->
          In {| StatusEntry.staged := String x "";
                StatusEntry.unstaged := String y "";
                StatusEntry.path := new; StatusEntry.old_path := None;
                StatusEntry.xy := String x (String y "") |} es)
      /\ (In (status_line x y z (old ++ ARROW ++ new)) (splitlines raw) ->
          In {| StatusEntry.staged := String x "";
                StatusEntry.unstaged := String y "";
                StatusEntry.path := new;
                StatusEntry.old_path :=
                  if String.eqb old new then None else Some old;
                StatusEntry.xy := String x (String y "") |} es).
Proof.
  intros os repo_root rc raw x y z old new Hos Ho Hn. unfold get_status.
  rewrite git_found; fold status_command; rewrite Hos; [|discriminate..].
  cbn [bind]. eexists. split; [reflexivity|]. split; intros Hin.
  - rewrite <- (status_entry_plain x y z new Hn). apply in_map.
    apply filter_In. split; [exact Hin|]. apply status_line_length.
    apply (plain_inv new Hn).
  - rewrite <- (status_entry_rename x y z old new Ho Hn). apply in_map.
    apply filter_In. split; [exact Hin|]. apply status_line_length.
    apply truthy_app. apply (plain_inv old Ho).
Qed.

Lemma get_status_round_trip_witness :
  exists es,
    get_status
      (os_const 0 (" M src/a.py" ++ nl ++ "R  old.txt -> new.txt" ++ nl))
      "/srv/repo" = Ok es
    /\ In {| StatusEntry.staged := "R"; StatusEntry.unstaged := " ";
             StatusEntry.path := "new.txt"; StatusEntry.old_path := Some "old.txt";
             StatusEntry.xy := "R " |} es.
Proof.
  destruct (get_status_round_trip
              (os_const 0 (" M src/a.py" ++ nl ++ "R  old.txt -> new.txt" ++ nl))
              "/srv/repo" 0 _ "R" " " " " "old.txt" "new.txt"
              eq_refl eq_refl eq_refl) as (es & Hes & _ & H2).
  exists es. split; [exact Hes|].
  apply H2. right. left. reflexivity.
Defined.

(** ** The file tree *)

Lemma but_last_snoc {A : Type} (l : list A) (d : A) :
  l <> [] -> l = (but_last l ++ [List.last l d])%list.
Proof.
  induction l as [|x l IH]; [congruence|]. intros _.
  destruct l as [|y l]; [reflexivity|].
  change (but_last (x :: y :: l)) with (x :: but_last (y :: l)).
  change (List.last (x :: y :: l) d) with (List.last (y :: l) d).
  simpl app. f_equal. apply IH. discriminate.
Qed.

Lemma concat_snoc (sep : string) (bl : list string) (x : string) :
  String.concat sep (bl ++ [x])
  = match bl with
    | [] => x
    | _ => String.concat sep bl ++ sep ++ x
    end.
Proof.
  induction bl as [|a bl IH]; [reflexivity|].
  destruct bl as [|b bl]; [reflexivity|].
  change (String.concat sep ((a :: b :: bl) ++ [x]))
    with (a ++ sep ++ String.concat sep ((b :: bl) ++ [x])).
  rewrite IH.
  change (String.concat sep (a :: b :: bl))
    with (a ++ sep ++ String.concat sep (b :: bl)).
  rewrite !string_app_assoc. reflexivity.
Qed.

(** Cut without a bound, every part is free of the separator. *)
Lemma split_char_none_lack (c : ascii) (s : string) :
  Forall (fun p => lacks c p = true) (split_char c None s).
Proof.
  induction s as [|a s IH]; [repeat constructor|].
  cbn [split_char option_map]. destruct (Ascii.eqb a c) eqn:Ha.
  - constructor; [reflexivity | exact IH].
  - destruct (split_char c None s) as [|l ls]; [repeat constructor|].
    + unfold lacks. simpl. rewrite Ha. reflexivity.
    + inversion IH as [|? ? Hl Hls]; subst. constructor; [|exact Hls].
      unfold lacks in *. simpl. rewrite Ha, Hl. reflexivity.
Qed.

Lemma path_recomposed (p : string) :
  let parts := split_char "/" None p in
  let name := List.last parts EmptyString in
  let dir := String.concat "/" (but_last parts) in
  lacks "/" name = true
  /\ p = (if lacks "/" p then name else dir ++ "/" ++ name)
  /\ (lacks "/" p = true -> dir = "").
Proof.
  intros parts name dir.
  pose proof (split_char_nonempty "/" None p) as Hne.
  pose proof (split_char_concat "/" p None) as Hcat.
  pose proof (split_char_none_lack "/" p) as Hall.
  fold parts in Hne, Hcat, Hall.
  pose proof (but_last_snoc parts EmptyString Hne) as Hsnoc. fold name in Hsnoc.
  assert (Hname : lacks "/" name = true).
  { apply (proj1 (Forall_forall _ _) Hall). rewrite Hsnoc.
    apply in_or_app. right. left. reflexivity. }
  split; [exact Hname|].
  destruct (lacks "/" p) eqn:Hp.
  - assert (E : parts = [p]) by (apply split_char_last, Hp).
    subst name dir. rewrite E. simpl. auto.
  - split; [|discriminate]. rewrite Hsnoc, concat_snoc in Hcat. fold dir in Hcat.
    destruct (but_last parts) eqn:Eb.
    + congruence.
    + subst dir. symmetry. exact Hcat.
Qed.

Lemma is_digit_value (c : ascii) : is_digit c = true -> 0 <= digit_value c.
Proof.
  unfold is_digit, digit_value. intros H. apply andb_true_iff in H as [H _].
  apply N.leb_le in H. lia.
Qed.

Lemma decimal_value_nonneg (s : string) :
  forall acc, all_digits s = true -> 0 <= acc -> 0 <= decimal_value acc s.
Proof.
  induction s as [|c s IH]; intros acc Hd Hacc; [exact Hacc|].
  simpl in Hd. apply andb_true_iff in Hd as [Hc Hs]. cbn [decimal_value].
  apply IH; [exact Hs|]. pose proof (is_digit_value c Hc). lia.
Qed.

Lemma span_by_digits (s : string) :
  forall d r, span_by is_digit s = (d, r) -> all_digits d = true.
Proof.
  induction s as [|c s IH]; simpl; intros d r H.
  - injection H as <- <-. reflexivity.
  - destruct (is_digit c) eqn:Hc.
    + destruct (span_by is_digit s) as [d' r'] eqn:E. injection H as <- <-.
      simpl. rewrite Hc. apply (IH d' r' eq_refl).
    + injection H as <- <-. reflexivity.
Qed.

Lemma py_int_text_digits (d : string) (v : Z) :
  truthy d = true -> all_digits d = true -> py_int_text d = Ok v -> 0 <= v.
Proof.
  intros Ht Hd H.
  destruct (Nat.le_gt_cases (String.length d) int_max_str_digits) as [Hl|Hl].
  - rewrite (py_int_text_numeral d (numeral_intro d Ht Hd Hl)) in H.
    injection H as <-. apply decimal_value_nonneg; [exact Hd | lia].
  - exfalso. revert H. unfold py_int_text.
    rewrite strip_by_clean
      by (apply all_digits_clean; [|exact Hd]; intros c Hc;
          apply negb_true_iff; apply (digit_classes c Hc)).
    assert (Hbody : match d with
                    | String "+" r => (false, r)
                    | String "-" r => (true, r)
                    | _ => (false, d)
                    end = (false, d)).
    { destruct d as [|c r]; [reflexivity|]. simpl in Hd.
      apply andb_true_iff in Hd as [Hc _].
      destruct c as [[] [] [] [] [] [] [] []]; try discriminate Hc; reflexivity. }
    rewrite Hbody. rewrite (int_digits_all d false Hd) by (right; exact Ht).
    apply Nat.ltb_lt in Hl. rewrite Hl. discriminate.
Qed.

Lemma ls_tree_groups_spec (line g1 g2 g3 g4 g5 : string) :
  ls_tree_groups line = Some (g1, g2, g3, g4, g5) ->
  truthy g5 = true
  /\ (g4 = "-" \/ truthy g4 = true /\ all_digits g4 = true).
Proof.
  unfold ls_tree_groups.
  destruct (span_by is_digit line) as [a r1].
  destruct (negb (truthy a)); [discriminate|].
  destruct r1 as [|c1 r2]; [discriminate|].
  destruct (Ascii.eqb c1 " ") eqn:E1;
    [apply Ascii.eqb_eq in E1; subst c1 |
     destruct c1 as [[] [] [] [] [] [] [] []]; try discriminate; discriminate E1].
  destruct (span_by is_word r2) as [b r3].
  destruct (negb (truthy b)); [discriminate|].
  destruct r3 as [|c2 r4]; [discriminate|].
  destruct (Ascii.eqb c2 " ") eqn:E2;
    [apply Ascii.eqb_eq in E2; subst c2 |
     destruct c2 as [[] [] [] [] [] [] [] []]; try discriminate; discriminate E2].
  destruct (span_by is_hex r4) as [h r5].
  destruct (negb (truthy h)); [discriminate|].
  destruct (span_by is_space r5) as [ws r6].
  destruct (negb (truthy ws)); [discriminate|].
  destruct (span_by is_digit r6) as [d r7] eqn:Ed.
  intros H.
  assert (Hsize : forall x rest,
             (if truthy d then Some (d, r7)
              else match r6 with
                   | String "-" r7' => Some ("-", r7')
                   | _ => None
                   end) = Some (x, rest) ->
             x = "-" \/ truthy x = true /\ all_digits x = true).
  { intros x rest Hx. destruct (truthy d) eqn:Hd.
    - injection Hx as <- <-. right. split; [exact Hd|].
      apply (span_by_digits r6 d r7 Ed).
    - left. destruct r6 as [|c r]; [discriminate Hx|].
      destruct c as [[] [] [] [] [] [] [] []]; try discriminate Hx.
      injection Hx as <- _. reflexivity. }
  destruct (if truthy d then Some (d, r7)
            else match r6 with
                 | String "-" r7' => Some ("-", r7')
                 | _ => None
                 end) as [[x rest]|] eqn:Ex; [|discriminate H].
  specialize (Hsize x rest eq_refl).
  destruct rest as [|t r8]; [discriminate H|].
  destruct (Ascii.eqb t TAB); [|discriminate H].
  destruct (dot_star r8) eqn:Eg; [discriminate H|].
  injection H as <- <- <- <- <-. split; [reflexivity | exact Hsize].
Qed.

Lemma file_tree_entries_ok (ls : list string) :
  forall es, file_tree_entries ls = Ok es -> Forall tree_entry_ok es.
Proof.
  induction ls as [|line ls IH]; intros es H.
  - injection H as <-. constructor.
  - cbn [file_tree_entries] in H.
    destruct (ls_tree_groups line) as [[[[[g1 g2] g3] g4] g5]|] eqn:Eg;
      [|apply IH, H].
    destruct (ls_tree_groups_spec line g1 g2 g3 g4 g5 Eg) as [Hp Hsize].
    destruct (if String.eqb g4 "-" then Ok 0 else py_int_text g4)
      as [size|e] eqn:Es; [|discriminate H].
    cbn [bind] in H.
    destruct (file_tree_entries ls) as [rest|e] eqn:Er; [|discriminate H].
    cbn [bind] in H. injection H as <-.
    constructor; [|apply IH; reflexivity].
    unfold tree_entry_ok. cbn [TreeEntry.path TreeEntry.name TreeEntry.size
                                 TreeEntry.dir].
    split; [exact Hp|].
    destruct (path_recomposed g5) as (Hn & Hpath & Hdir).
    split; [exact Hn|]. split; [|split; [exact Hpath | exact Hdir]].
    destruct (String.eqb g4 "-") eqn:E4.
    + injection Es as <-. lia.
    + destruct Hsize as [-> | [Ht Hd]]; [discriminate E4|].
      apply (py_int_text_digits g4 size Ht Hd Es).
Qed.

(** X13: every entry that [get_file_tree] returns satisfies [tree_entry_ok]:
    its path is not empty, its name holds no slash, its size is not
    negative, and its directory and name give its path back (the name alone
    for a path without a slash, with an empty directory; the directory, a
    slash and the name otherwise). *)
Theorem get_file_tree_entries :
  forall (os : list string -> option string -> Z -> process)
         (repo_root ref : string) (es : list TreeEntry.t),
    get_file_tree os repo_root ref = Ok es -> Forall tree_entry_ok es.
Proof.
  intros os repo_root ref es H. unfold get_file_tree in H.
  destruct (git os ["ls-tree"; "-r"; "--long"; ref] repo_root) as [raw|e];
    [|discriminate H].
  cbn [bind] in H. apply (file_tree_entries_ok _ es H).
Qed.

Lemma get_file_tree_entries_witness :
  get_file_tree
    (os_const 0 ("100644 blob 9fceb02d0ae598e95dc970b74767f19372d61af8     120"
                 ++ String TAB "src/git_diff/cli.py" ++ nl))
    "/srv/repo" "HEAD"
  = Ok [{| TreeEntry.mode := "100644"; TreeEntry.type := "blob";
           TreeEntry.hash := "9fceb02d0ae598e95dc970b74767f19372d61af8";
           TreeEntry.size := 120; TreeEntry.path := "src/git_diff/cli.py";
           TreeEntry.name := "cli.py"; TreeEntry.dir := "src/git_diff" |}]
  /\ Forall tree_entry_ok
       [{| TreeEntry.mode := "100644"; TreeEntry.type := "blob";
           TreeEntry.hash := "9fceb02d0ae598e95dc970b74767f19372d61af8";
           TreeEntry.size := 120; TreeEntry.path := "src/git_diff/cli.py";
           TreeEntry.name := "cli.py"; TreeEntry.dir := "src/git_diff" |}].
Proof.
  split; [reflexivity|].
  apply (get_file_tree_entries
           (os_const 0 ("100644 blob 9fceb02d0ae598e95dc970b74767f19372d61af8     120"
                        ++ String TAB "src/git_diff/cli.py" ++ nl))
           "/srv/repo" "HEAD").
  reflexivity.
Defined.

(** ** Commits per day *)

Lemma compare_lt_trans (a b c : string) :
  String.compare a b = Lt -> String.compare b c = Lt -> String.compare a c = Lt.
Proof.
  intros H1 H2.
  apply OrderedTypeEx.String_as_OT.cmp_lt.
  apply OrderedTypeEx.String_as_OT.cmp_lt in H1.
  apply OrderedTypeEx.String_as_OT.cmp_lt in H2.
  exact (OrderedTypeEx.String_as_OT.lt_trans _ _ _ H1 H2).
Qed.

Lemma item_lt_true (x y : string * Z) :
  fst x <> fst y -> item_lt x y = true -> key_lt x y.
Proof.
  unfold item_lt, key_lt. intros Hne H.
  destruct (String.compare (fst x) (fst y)) eqn:E; try discriminate H.
  - apply String.compare_eq_iff in E. contradiction.
  - reflexivity.
Qed.

Lemma item_lt_false (x y : string * Z) :
  fst x <> fst y -> item_lt x y = false -> key_lt y x.
Proof.
  unfold item_lt, key_lt. intros Hne H.
  rewrite String.compare_antisym.
  destruct (String.compare (fst x) (fst y)) eqn:E; try discriminate H.
  - apply String.compare_eq_iff in E. contradiction.
  - reflexivity.
Qed.

Lemma insert_item_in (x : string * Z) (l : list (string * Z)) (y : string * Z) :
  In y (insert_item x l) <-> y = x \/ In y l.
Proof.
  induction l as [|z l IH]; simpl.
  - intuition congruence.
  - destruct (item_lt x z); simpl; [intuition congruence|].
    rewrite IH. intuition congruence.
Qed.

Lemma insert_item_sorted (x : string * Z) (l : list (string * Z)) :
  StronglySorted key_lt l -> (forall y, In y l -> fst x <> fst y) ->
  StronglySorted key_lt (insert_item x l).
Proof.
  induction l as [|y l IH]; intros Hs Hx; simpl.
  - repeat constructor.
  - apply StronglySorted_inv in Hs as [Hs Hf].
    assert (Hxy : fst x <> fst y) by (apply Hx; left; reflexivity).
    destruct (item_lt x y) eqn:E.
    + apply item_lt_true in E; [|exact Hxy].
      constructor; [constructor; assumption|].
      constructor; [exact E|].
      apply Forall_forall. intros z Hz.
      apply (compare_lt_trans _ (fst y)); [exact E|].
      apply (proj1 (Forall_forall _ _) Hf z Hz).
    + apply item_lt_false in E; [|exact Hxy].
      constructor.
      * apply IH; [exact Hs|]. intros z Hz. apply Hx. right. exact Hz.
      * apply Forall_forall. intros z Hz. apply insert_item_in in Hz as [-> | Hz].
        -- exact E.
        -- apply (proj1 (Forall_forall _ _) Hf z Hz).
Qed.

Lemma insert_item_total (x : string * Z) (l : list (string * Z)) :
  total (insert_item x l) = snd x + total l.
Proof.
  unfold total. induction l as [|y l IH]; simpl; [reflexivity|].
  destruct (item_lt x y); simpl; [reflexivity|]. rewrite IH. lia.
Qed.

Lemma sort_fold (l : list (string * Z)) :
  forall acc,
    StronglySorted key_lt acc -> NoDup (map fst l) ->
    (forall x y, In x l -> In y acc -> fst x <> fst y) ->
    let r := fold_left (fun acc x => insert_item x acc) l acc in
    StronglySorted key_lt r
    /\ (forall y, In y r <-> In y acc \/ In y l)
    /\ total r = total acc + total l.
Proof.
  induction l as [|x l IH]; intros acc Hs Hnd Hdis; simpl.
  - split; [exact Hs|]. split; [intuition | unfold total; simpl; lia].
  - inversion Hnd as [|? ? Hx Hnd']; subst.
    destruct (IH (insert_item x acc)) as (Hs' & Hin & Ht).
    + apply insert_item_sorted; [exact Hs|].
      intros y Hy. apply (Hdis x y); [left; reflexivity | exact Hy].
    + exact Hnd'.
    + intros x' y Hx' Hy. apply insert_item_in in Hy as [-> | Hy].
      * intros E. apply Hx. rewrite <- E. apply in_map, Hx'.
      * apply (Hdis x' y); [right; exact Hx' | exact Hy].
    + split; [exact Hs'|]. split.
      * intros y. rewrite Hin, insert_item_in. intuition congruence.
      * rewrite Ht, insert_item_total. unfold total. simpl. lia.
Qed.

Lemma sorted_items_spec (l : list (string * Z)) :
  NoDup (map fst l) ->
  StronglySorted key_lt (sorted_items l)
  /\ (forall y, In y (sorted_items l) <-> In y l)
  /\ total (sorted_items l) = total l.
Proof.
  intros Hnd. unfold sorted_items.
  destruct (sort_fold l [] (SSorted_nil _) Hnd) as (Hs & Hin & Ht).
  - intros x y _ [].
  - split; [exact Hs|]. split.
    + intros y. rewrite (Hin y). simpl. intuition.
    + rewrite Ht. reflexivity.
Qed.

Lemma counter_add_keys (k : string) (c : list (string * Z)) :
  (In k (map fst c) /\ map fst (counter_add k c) = map fst c)
  \/ (~ In k (map fst c) /\ map fst (counter_add k c) = (map fst c ++ [k])%list).
Proof.
  induction c as [|[k' n] c IH]; simpl.
  - right. split; [intros [] | reflexivity].
  - destruct (String.eqb k k') eqn:E.
    + apply String.eqb_eq in E. subst k'. left. split; [left|]; reflexivity.
    + apply String.eqb_neq in E. destruct IH as [[Hin Hk] | [Hin Hk]]; simpl.
      * left. split; [right; exact Hin | rewrite Hk; reflexivity].
      * right. split; [intros [H|H]; congruence | rewrite Hk; reflexivity].
Qed.

Lemma counter_add_count (k k' : string) (c : list (string * Z)) :
  count_of k' (counter_add k c)
  = count_of k' c + (if String.eqb k' k then 1 else 0).
Proof.
  induction c as [|[k0 n] c IH]; simpl.
  - destruct (String.eqb k' k); lia.
  - destruct (String.eqb k k0) eqn:E; simpl.
    + apply String.eqb_eq in E. subst k0.
      destruct (String.eqb k' k); lia.
    + destruct (String.eqb k' k0) eqn:E'; [|exact IH].
      apply String.eqb_eq in E'. subst k0.
      rewrite String.eqb_sym, E. lia.
Qed.

Lemma counter_add_total (k : string) (c : list (string * Z)) :
  total (counter_add k c) = total c + 1.
Proof.
  unfold total. induction c as [|[k' n] c IH]; simpl; [reflexivity|].
  destruct (String.eqb k k'); simpl; [lia | rewrite IH; lia].
Qed.

Lemma occurrences_cons (k x : string) (ls : list string) :
  occurrences k (x :: ls)
  = (if String.eqb k x then 1 else 0) + occurrences k ls.
Proof.
  unfold occurrences. simpl. destruct (string_dec x k) as [->|Hne].
  - rewrite String.eqb_refl. lia.
  - replace (String.eqb k x) with false; [lia|].
    symmetry. apply String.eqb_neq. congruence.
Qed.

Lemma counter_fold (keys : list string) :
  forall c,
    NoDup (map fst c) ->
    let r := fold_left (fun c k => counter_add k c) keys c in
    NoDup (map fst r)
    /\ (forall k, In k (map fst r) <-> In k (map fst c) \/ In k keys)
    /\ (forall k, count_of k r = count_of k c + occurrences k keys)
    /\ total r = total c + Z.of_nat (length keys).
Proof.
  induction keys as [|x keys IH]; intros c Hnd; simpl.
  - split; [exact Hnd|]. split; [intuition|]. split; [|lia].
    intros k. unfold occurrences. simpl. lia.
  - destruct (IH (counter_add x c)) as (Hnd' & Hin & Hc & Ht).
    + destruct (counter_add_keys x c) as [[_ ->] | [Hx ->]]; [exact Hnd|].
      apply NoDup_app; [exact Hnd | repeat constructor; intros [] | ].
      intros a Ha [<-|[]]. exact (Hx Ha).
    + split; [exact Hnd'|]. split; [|split].
      * intros k. rewrite Hin.
        destruct (counter_add_keys x c) as [[Hx ->] | [Hx ->]].
        -- intuition congruence.
        -- rewrite in_app_iff. simpl. intuition congruence.
      * intros k. rewrite Hc, counter_add_count, occurrences_cons. lia.
      * rewrite Ht, counter_add_total. lia.
Qed.

Lemma count_of_in (c : list (string * Z)) (k : string) (n : Z) :
  NoDup (map fst c) -> In (k, n) c -> count_of k c = n.
Proof.
  induction c as [|[k' n'] c IH]; intros Hnd Hin; [destruct Hin|].
  simpl in Hnd. inversion Hnd as [|? ? Hk Hnd']; subst. simpl.
  destruct Hin as [E | Hin].
  - injection E as -> ->. rewrite String.eqb_refl. reflexivity.
  - destruct (String.eqb k k') eqn:E; [|apply IH; assumption].
    apply String.eqb_eq in E. subst k'. exfalso. apply Hk.
    apply (in_map fst _ _ Hin).
Qed.

Lemma in_count_of (c : list (string * Z)) (k : string) :
  In k (map fst c) -> In (k, count_of k c) c.
Proof.
  induction c as [|[k' n'] c IH]; intros Hin; [destruct Hin|]. simpl.
  destruct (String.eqb k k') eqn:E.
  - apply String.eqb_eq in E. subst k'. left. reflexivity.
  - right. apply IH. destruct Hin as [H|H]; [|exact H].
    simpl in H. apply String.eqb_neq in E. congruence.
Qed.

Lemma Counter_spec (keys : list string) :
  NoDup (map fst (Counter keys))
  /\ (forall k n, In (k, n) (Counter keys)
                  <-> In k keys /\ n = occurrences k keys)
  /\ total (Counter keys) = Z.of_nat (length keys).
Proof.
  destruct (counter_fold keys [] (NoDup_nil _)) as (Hnd & Hin & Hc & Ht).
  fold (Counter keys) in Hnd, Hin, Hc, Ht.
  split; [exact Hnd|]. split; [|exact Ht].
  intros k n. split.
  - intros H. split.
    + apply (in_map fst) in H. simpl in H. apply Hin in H as [[]|H]. exact H.
    + rewrite <- (count_of_in _ k n Hnd H), Hc. reflexivity.
  - intros [Hk ->]. rewrite <- (Z.add_0_l (occurrences k keys)).
    change 0 with (count_of k []) at 1. rewrite <- Hc.
    apply in_count_of. apply Hin. right. exact Hk.
Qed.

Lemma sorted_keys_nodup (l : list (string * Z)) :
  NoDup (map fst l) -> NoDup (map fst (sorted_items l)) .
Proof.
  intros Hnd. destruct (sorted_items_spec l Hnd) as (Hs & _ & _).
  induction Hs as [|a r Hs IH Hf]; simpl; constructor; [|exact IH].
  intros Hin. apply in_map_iff in Hin as (y & Hy & Hin).
  pose proof (proj1 (Forall_forall _ _) Hf y Hin) as Hlt.
  unfold key_lt in Hlt. rewrite Hy in Hlt.
  pose proof (String.compare_antisym (fst a) (fst a)) as E.
  rewrite Hlt in E. discriminate E.
Qed.

(** X14: the table of [get_commit_stats_by_day].  Its days stand in
    strictly ascending order, so no day stands twice; a day is in the table
    exactly when it is a line of the output, and its count is the number of
    the lines that read this day; the counts add up to the number of
    lines. *)
Theorem commit_stats_by_day_counts :
  forall (os : list string -> option string -> Z -> process)
         (repo_root : string) (days rc : Z) (raw : string),
    os (stats_by_day_command days) (Some repo_root) 30 = Exits rc raw ->
    exists items,
      get_commit_stats_by_day os repo_root days = Ok items
      /\ StronglySorted key_lt items
      /\ NoDup (map fst items)
      /\ (forall day n,
            In (day, n) items
            <-> In day (splitlines raw) /\ n = occurrences day (splitlines raw))
      /\ total items = Z.of_nat (length (splitlines raw)).
Proof.
  intros os repo_root days rc raw Hos. unfold get_commit_stats_by_day.
  rewrite git_found; fold (stats_by_day_command days); rewrite Hos;
    [|discriminate..].
  cbn [bind]. eexists. split; [reflexivity|].
  destruct (Counter_spec (splitlines raw)) as (Hnd & Hin & Ht).
  destruct (sorted_items_spec _ Hnd) as (Hs & Hin' & Ht').
  split; [exact Hs|]. split; [apply sorted_keys_nodup, Hnd|]. split.
  - intros day n. rewrite Hin'. apply Hin.
  - rewrite Ht'. exact Ht.
Qed.

Lemma commit_stats_by_day_counts_witness :
  exists items,
    get_commit_stats_by_day
      (os_const 0 ("2024-03-02" ++ nl ++ "2024-03-01" ++ nl ++ "2024-03-02" ++ nl))
      "/srv/repo" 90 = Ok items
    /\ In ("2024-03-02", 2) items
    /\ total items = 3.
Proof.
  destruct (commit_stats_by_day_counts
              (os_const 0 ("2024-03-02" ++ nl ++ "2024-03-01" ++ nl
                           ++ "2024-03-02" ++ nl))
              "/srv/repo" 90 0 _ eq_refl) as (items & Hi & _ & _ & Hin & Ht).
  exists items. split; [exact Hi|]. split; [|exact Ht].
  apply Hin. split; [left; reflexivity | reflexivity].
Defined.

(** ** The port of the server *)

Lemma port_ok_test (p : Z) :
  (p <? 0) || (65535 <? p) = false <-> port_ok p.
Proof.
  unfold port_ok. rewrite orb_false_iff, !Z.ltb_ge. lia.
Qed.

Lemma scan_ports_spec (can_bind : Z -> bool) (n : nat) :
  forall port,
    match scan_ports can_bind port n with
    | Ok (Some r) =>
        port <= r < port + Z.of_nat n /\ port_ok r /\ can_bind r = true
        /\ forall q, port <= q < r -> port_ok q /\ can_bind q = false
    | Ok None =>
        forall q, port <= q < port + Z.of_nat n ->
                  port_ok q /\ can_bind q = false
    | Raise e =>
        e = OverflowError
        /\ exists r, port <= r < port + Z.of_nat n /\ ~ port_ok r
                     /\ forall q, port <= q < r ->
                                  port_ok q /\ can_bind q = false
    end.
Proof.
  induction n as [|n IH]; intros port; cbn [scan_ports].
  - intros q Hq. lia.
  - destruct ((port <? 0) || (65535 <? port)) eqn:Ep.
    + split; [reflexivity|]. exists port. split; [lia|]. split.
      * intros Hok. apply port_ok_test in Hok. congruence.
      * intros q Hq. lia.
    + apply port_ok_test in Ep. destruct (can_bind port) eqn:E.
      * split; [lia|]. split; [exact Ep|]. split; [exact E|].
        intros q Hq. lia.
      * specialize (IH (port + 1)).
        assert (Hhere : forall q, q = port -> port_ok q /\ can_bind q = false)
          by (intros q ->; split; assumption).
        destruct (scan_ports can_bind (port + 1) n) as [[r|]|e].
        -- destruct IH as (Hr & Hok & Hb & Hq). split; [lia|].
           split; [exact Hok|]. split; [exact Hb|].
           intros q Hq'. destruct (Z.eq_dec q port) as [Heq|Hne];
             [apply Hhere, Heq | apply Hq; lia].
        -- intros q Hq. destruct (Z.eq_dec q port) as [Heq|Hne];
             [apply Hhere, Heq | apply IH; lia].
        -- destruct IH as (He & r & Hr & Hbad & Hq). split; [exact He|].
           exists r. split; [lia|]. split; [exact Hbad|].
           intros q Hq'. destruct (Z.eq_dec q port) as [Heq|Hne];
             [apply Hhere, Heq | apply Hq; lia].
Qed.

(** X15: [find_free_port] tries the ports of the range from [start] up to,
    not including, [stop] in ascending order.  It returns the least port
    that can be bound, when every port before it is one that a socket takes,
    from 0 to 65535; when every port of the range is such a port and none
    can be bound, the range being empty included, it returns [start] all the
    same; and when it comes to a port below 0 or above 65535 before it has
    found one to bind, it raises [OverflowError]. *)
Theorem find_free_port_least :
  forall (can_bind : Z -> bool) (start stop : Z),
    let r := find_free_port can_bind start stop in
    ((exists port,
        r = Ok port /\ start <= port < stop /\ port_ok port
        /\ can_bind port = true
        /\ forall q, start <= q < port -> port_ok q /\ can_bind q = false)
     \/ (r = Ok start
         /\ forall q, start <= q < stop -> port_ok q /\ can_bind q = false)
     \/ (r = Raise OverflowError
         /\ exists port,
              start <= port < stop /\ ~ port_ok port
              /\ forall q, start <= q < port ->
                           port_ok q /\ can_bind q = false))
    /\ find_free_port (fun p => 7435 <=? p) 7433 7500 = Ok 7435
    /\ find_free_port (fun _ => false) 7433 7500 = Ok 7433
    /\ find_free_port (fun _ => false) 65530 65540 = Raise OverflowError
    /\ find_free_port (fun _ => true) (-1) 10 = Raise OverflowError.
Proof.
  intros can_bind start stop r. subst r.
  split; [|repeat split; reflexivity].
  unfold find_free_port.
  pose proof (scan_ports_spec can_bind (Z.to_nat (stop - start)) start) as H.
  destruct (scan_ports can_bind start (Z.to_nat (stop - start))) as [[p|]|e];
    cbn [bind].
  - left. exists p. destruct H as (Hr & Hok & Hb & Hq).
    split; [reflexivity|]. split; [lia|]. split; [exact Hok|].
    split; [exact Hb | exact Hq].
  - right. left. split; [reflexivity|]. intros q Hq. apply H. lia.
  - right. right. destruct H as (-> & p & Hr & Hbad & Hq).
    split; [reflexivity|]. exists p. split; [lia|]. split; assumption.
Qed.

(** ** Queries when git gives nothing *)

Lemma git_quiet (os : list string -> option string -> Z -> process)
    (args : list string) (cwd : string) :
  quiet (os ("git" :: args) (Some cwd) 30) -> git os args cwd = Ok "".
Proof.
  intros H. unfold git, run_git.
  destruct (os ("git" :: args) (Some cwd) 30); simpl in *;
    [subst; reflexivity | reflexivity | contradiction | reflexivity
    | contradiction].
Qed.

(** X16: a git that gives nothing is reported as an empty repository, not
    as an error.  When every command in the repository times out, fails
    with an exception other than [FileNotFoundError], or runs and prints
    nothing, the status, the file tree, the stashes, the references, the
    commits per day and per author, the history and the blame are empty
    lists, a resolved reference is the empty text, the detail of a commit is
    the empty dict, and every diff is the empty result: no query raises. *)
Theorem queries_without_output :
  forall (os : list string -> option string -> Z -> process) (repo_root : string),
    (forall argv, quiet (os argv (Some repo_root) 30)) ->
    get_status os repo_root = Ok []
    /\ (forall ref, get_file_tree os repo_root ref = Ok [])
    /\ get_stashes os repo_root = Ok []
    /\ get_all_refs os repo_root = Ok []
    /\ (forall days, get_commit_stats_by_day os repo_root days = Ok [])
    /\ (forall args, run_git_lines os args (Some repo_root) = Ok [])
    /\ (forall ref, resolve_ref os repo_root ref = Ok "")
    /\ (forall base compare staged context path_filter,
          get_diff os repo_root base compare staged context path_filter
          = Ok empty_diff)
    /\ (forall base compare context,
          get_range_diff os repo_root base compare context = Ok empty_diff)
    /\ (forall ref context,
          get_stash_diff os repo_root ref context = Ok empty_diff)
    /\ (forall clock local_time limit branch author path_filter search,
          get_commit_history os clock local_time repo_root limit branch
            author path_filter search = Ok [])
    /\ (forall now local_time ref,
          get_commit_detail os now local_time ref repo_root = Ok None)
    /\ get_commit_stats_by_author os repo_root = Ok []
    /\ (forall local_date path ref,
          get_file_blame os local_date repo_root path ref = Returns []).
Proof.
  intros os repo_root H.
  assert (Hg : forall args, git os args repo_root = Ok "")
    by (intros args; apply git_quiet, H).
  unfold get_status, get_file_tree, get_stashes, get_all_refs,
    get_commit_stats_by_day, resolve_ref, get_range_diff, get_stash_diff,
    get_commit_history, get_commit_detail, get_commit_stats_by_author,
    get_file_blame.
  repeat split; intros; rewrite ?Hg; try reflexivity.
  - unfold run_git_lines. fold (git os args repo_root). rewrite Hg. reflexivity.
  - unfold get_diff.
    match goal with
    | |- context [with_path_filter ?a ?f] =>
        destruct (with_path_filter a f) as [x s]
    end.
    rewrite !Hg. reflexivity.
Qed.

Lemma queries_without_output_witness :
  get_status os_timeout "/srv/repo" = Ok []
  /\ get_staged_diff os_timeout "/srv/repo" 3 = Ok empty_diff.
Proof.
  destruct (queries_without_output os_timeout "/srv/repo" (fun _ => I))
    as (Hs & _ & _ & _ & _ & _ & _ & Hd & _).
  split; [exact Hs | apply Hd].
Defined.

(** X17: without git every query raises the same error.  When the program
    cannot be found, each of the queries raises [RuntimeError] with the
    message that git is not installed, whatever its arguments. *)
Theorem queries_without_git :
  forall (os : list string -> option string -> Z -> process) (repo_root : string),
    (forall argv, os argv (Some repo_root) 30 = NotFound) ->
    get_status os repo_root = Raise (RuntimeError git_not_found)
    /\ (forall ref,
          get_file_tree os repo_root ref = Raise (RuntimeError git_not_found))
    /\ get_stashes os repo_root = Raise (RuntimeError git_not_found)
    /\ get_all_refs os repo_root = Raise (RuntimeError git_not_found)
    /\ (forall days,
          get_commit_stats_by_day os repo_root days
          = Raise (RuntimeError git_not_found))
    /\ (forall args,
          run_git_lines os args (Some repo_root)
          = Raise (RuntimeError git_not_found))
    /\ (forall ref,
          resolve_ref os repo_root ref = Raise (RuntimeError git_not_found))
    /\ (forall path ref,
          get_file_content os repo_root path ref
          = Raise (RuntimeError git_not_found))
    /\ (forall base compare staged context path_filter,
          get_diff os repo_root base compare staged context path_filter
          = Raise (RuntimeError git_not_found))
    /\ (forall base compare context,
          get_range_diff os repo_root base compare context
          = Raise (RuntimeError git_not_found))
    /\ (forall ref context,
          get_stash_diff os repo_root ref context
          = Raise (RuntimeError git_not_found))
    /\ (forall clock local_time limit branch author path_filter search,
          get_commit_history os clock local_time repo_root limit branch
            author path_filter search = Raise (RuntimeError git_not_found))
    /\ (forall now local_time ref,
          get_commit_detail os now local_time ref repo_root
          = Raise (RuntimeError git_not_found))
    /\ get_commit_stats_by_author os repo_root
       = Raise (RuntimeError git_not_found)
    /\ (forall local_date path ref,
          get_file_blame os local_date repo_root path ref
          = Throws (Earlier (RuntimeError git_not_found))).
Proof.
  intros os repo_root H.
  assert (Hg : forall args,
             git os args repo_root = Raise (RuntimeError git_not_found))
    by (intros args; apply git_not_found_raises, H).
  unfold get_status, get_file_tree, get_stashes, get_all_refs,
    get_commit_stats_by_day, resolve_ref, get_file_content, get_range_diff,
    get_stash_diff, get_commit_history, get_commit_detail,
    get_commit_stats_by_author, get_file_blame.
  repeat split; intros; rewrite ?Hg; try reflexivity.
  - unfold run_git_lines. fold (git os args repo_root). rewrite Hg. reflexivity.
  - unfold get_diff.
    match goal with
    | |- context [with_path_filter ?a ?f] =>
        destruct (with_path_filter a f) as [x s]
    end.
    rewrite !Hg. reflexivity.
Qed.

Lemma queries_without_git_witness :
  get_status os_no_git "/srv/repo" = Raise (RuntimeError git_not_found)
  /\ get_staged_diff os_no_git "/srv/repo" 3 = Raise (RuntimeError git_not_found).
Proof.
  destruct (queries_without_git os_no_git "/srv/repo" (fun _ => eq_refl))
    as (Hs & _ & _ & _ & _ & _ & _ & _ & Hd & _).
  split; [exact Hs | apply Hd].
Defined.

(** ** The raw git command of the server *)

Lemma split_space (c : ascii) (s : string) :
  is_space c = true -> split (String c s) = split s.
Proof. intros H. simpl. rewrite H. reflexivity. Qed.

Lemma split_word_end (w : string) : word w = true -> split w = [w].
Proof.
  unfold word. induction w as [|a w IH]; [discriminate|].
  intros H. simpl in H. apply andb_true_iff in H as [Ha Hw].
  apply negb_true_iff in Ha. cbn [split]. rewrite Ha.
  destruct w as [|b w]; [reflexivity|].
  pose proof Hw as Hw'. simpl in Hw'. apply andb_true_iff in Hw' as [Hb _].
  apply negb_true_iff in Hb. rewrite Hb. rewrite IH by exact Hw. reflexivity.
Qed.

Lemma split_word_app (w r : string) (c : ascii) :
  word w = true -> is_space c = true ->
  split (w ++ String c r) = w :: split r.
Proof.
  unfold word. intros H Hc. induction w as [|a w IH]; [discriminate|].
  simpl in H. apply andb_true_iff in H as [Ha Hw].
  apply negb_true_iff in Ha.
  change (String a w ++ String c r) with (String a (w ++ String c r)).
  cbn [split]. rewrite Ha.
  destruct w as [|b w].
  - change ("" ++ String c r) with (String c r). cbv beta iota. rewrite Hc.
    rewrite (split_space c r Hc). reflexivity.
  - change (String b w ++ String c r) with (String b (w ++ String c r)).
    pose proof Hw as Hw'. simpl in Hw'. apply andb_true_iff in Hw' as [Hb _].
    apply negb_true_iff in Hb. cbv beta iota. rewrite Hb.
    change (String b (w ++ String c r)) with (String b w ++ String c r).
    rewrite IH by exact Hw. reflexivity.
Qed.

(** Splitting words that were joined by single spaces gives the words
    back. *)
Lemma split_unwords (w : string) (ws : list string) :
  word w = true -> Forall (fun x => word x = true) ws ->
  split (unwords (w :: ws)) = w :: ws.
Proof.
  intros Hw Hws. revert w Hw. induction Hws as [|x ws Hx Hws IH]; intros w Hw.
  - apply split_word_end, Hw.
  - change (unwords (w :: x :: ws)) with (w ++ String " " (unwords (x :: ws))).
    rewrite (split_word_app w _ " " Hw eq_refl). rewrite (IH x Hx). reflexivity.
Qed.

Lemma existsb_eqb_in (a : string) (l : list string) :
  existsb (String.eqb a) l = true <-> In a l.
Proof.
  rewrite existsb_exists. split.
  - intros (x & Hx & E). apply String.eqb_eq in E. subst. exact Hx.
  - intros H. exists a. split; [exact H | apply String.eqb_refl].
Qed.

(** X18: the answer of the raw git command depends on no command outside
    the list.  Two environments that agree on every git command whose first
    argument is in [SAFE] get the same answer to every request: a command
    whose first word is not in the list is never run. *)
Theorem route_git_runs_listed_only :
  forall (os os' : list string -> option string -> Z -> process)
         (root cmd : string),
    (forall sub rest,
       In sub SAFE ->
       os ("git" :: sub :: rest) (Some root) 30
       = os' ("git" :: sub :: rest) (Some root) 30) ->
    route_git os root cmd = route_git os' root cmd.
Proof.
  intros os os' root cmd H. unfold route_git.
  destruct (split cmd) as [|a rest]; [reflexivity|].
  destruct (existsb (String.eqb a) SAFE) eqn:E; [|reflexivity].
  apply existsb_eqb_in in E. cbn [negb].
  unfold git, run_git. rewrite (H a rest E). reflexivity.
Qed.

Lemma route_git_runs_listed_only_witness :
  route_git os_echo "/srv/repo" "log -1 --oneline"
  = route_git os_listed "/srv/repo" "log -1 --oneline"
  /\ route_git os_echo "/srv/repo" "push origin main"
     = route_git os_listed "/srv/repo" "push origin main".
Proof.
  split; apply (route_git_runs_listed_only os_echo os_listed "/srv/repo");
    intros sub rest Hin; apply existsb_eqb_in in Hin;
    unfold os_echo, os_listed; rewrite Hin; reflexivity.
Defined.

Lemma SAFE_words (sub : string) : In sub SAFE -> word sub = true.
Proof.
  intros H. unfold SAFE in H.
  repeat (destruct H as [<- | H]; [reflexivity|]). destruct H.
Qed.

(** X19: the list is checked against the first word only.  Every command
    made of a listed first word and of any further words is run, with all
    its words as the arguments of git, and its output is sent with the
    status 200, whatever its exit code: the words after the first are not
    looked at. *)
Theorem route_git_passes_words_on :
  forall (os : list string -> option string -> Z -> process)
         (root sub : string) (rest : list string) (rc : Z) (out : string),
    In sub SAFE -> Forall (fun w => word w = true) rest ->
    os ("git" :: sub :: rest) (Some root) 30 = Exits rc out ->
    route_git os root (unwords (sub :: rest))
    = Ok {| Response.status := 200; Response.body := Output out |}.
Proof.
  intros os root sub rest rc out Hsub Hrest Hos. unfold route_git.
  rewrite (split_unwords sub rest (SAFE_words sub Hsub) Hrest).
  apply existsb_eqb_in in Hsub. rewrite Hsub. cbn [negb].
  unfold git, run_git. rewrite Hos. reflexivity.
Qed.

Lemma route_git_passes_words_on_witness :
  route_git os_echo "/srv/repo" "branch -D main"
  = Ok {| Response.status := 200;
          Response.body := Output "git branch -D main" |}.
Proof.
  apply (route_git_passes_words_on os_echo "/srv/repo" "branch" ["-D"; "main"] 0).
  - right. right. right. right. right. right. right. right. right. right.
    right. right. left. reflexivity.
  - repeat constructor.
  - reflexivity.
Defined.

(** ** The commit history *)

Lemma split_words (s : string) : Forall (fun w => word w = true) (split s).
Proof.
  unfold word. induction s as [|c s IH]; [constructor|].
  cbn [split]. destruct (is_space c) eqn:Hc; [exact IH|].
  destruct s as [|c' s'].
  - constructor; [|constructor]. simpl. rewrite Hc. reflexivity.
  - destruct (is_space c') eqn:Hc'.
    + constructor; [|exact IH]. simpl. rewrite Hc. reflexivity.
    + destruct (split (String c' s')) as [|t ts].
      * constructor; [|constructor]. simpl. rewrite Hc. reflexivity.
      * inversion IH as [|? ? Ht Hts]; subst. constructor; [|exact Hts].
        apply andb_true_iff in Ht as [_ Ht]. simpl. rewrite Hc, Ht. reflexivity.
Qed.

(** The words of a text need no further stripping. *)
Lemma stripped_words_split (s : string) : stripped_words s = split s.
Proof.
  unfold stripped_words. pose proof (split_words s) as H.
  induction H as [|w ws Hw Hws IH]; [reflexivity|].
  unfold word in Hw. apply andb_true_iff in Hw as [Ht Hc].
  cbn [filter]. rewrite (strip_clean w Hc), Ht. cbn [map].
  rewrite (strip_clean w Hc), IH. reflexivity.
Qed.

Lemma lstrip_bar (a r : string) :
  lacks "|" (lstrip (a ++ String "|" r)) = false.
Proof.
  destruct (lacks "|" (lstrip (a ++ String "|" r))) eqn:E; [|reflexivity].
  rewrite lstrip_is_lstrip_by in E.
  apply (lstrip_by_holds is_space "|" _ eq_refl) in E.
  rewrite lacks_app_bar in E. discriminate E.
Qed.

Lemma strip_bar_truthy (a r : string) :
  truthy (strip (a ++ String "|" r)) = true.
Proof.
  destruct (strip (a ++ String "|" r)) eqn:E; [|reflexivity].
  assert (H : lacks "|" (strip (a ++ String "|" r)) = true)
    by (rewrite E; reflexivity).
  apply (strip_holds "|" _ eq_refl) in H.
  rewrite lacks_app_bar in H. discriminate H.
Qed.

Lemma commit_line_parts (h sh an ae at' cn ce ct s P D : string) :
  lacks "|" h = true -> lacks "|" sh = true -> lacks "|" an = true ->
  lacks "|" ae = true -> lacks "|" at' = true -> lacks "|" cn = true ->
  lacks "|" ce = true -> lacks "|" ct = true -> lacks "|" s = true ->
  lacks "|" P = true ->
  split_char "|" (Some 10%nat) (commit_line h sh an ae at' cn ce ct s P D)
  = [h; sh; an; ae; at'; cn; ce; ct; s; P; D].
Proof.
  intros H0 H1 H2 H3 H4 H5 H6 H7 H8 H9. unfold commit_line. cbn [append].
  rewrite (split_char_app "|" h _ _ H0) by discriminate. simpl option_map.
  rewrite (split_char_app "|" sh _ _ H1) by discriminate. simpl option_map.
  rewrite (split_char_app "|" an _ _ H2) by discriminate. simpl option_map.
  rewrite (split_char_app "|" ae _ _ H3) by discriminate. simpl option_map.
  rewrite (split_char_app "|" at' _ _ H4) by discriminate. simpl option_map.
  rewrite (split_char_app "|" cn _ _ H5) by discriminate. simpl option_map.
  rewrite (split_char_app "|" ce _ _ H6) by discriminate. simpl option_map.
  rewrite (split_char_app "|" ct _ _ H7) by discriminate. simpl option_map.
  rewrite (split_char_app "|" s _ _ H8) by discriminate. simpl option_map.
  rewrite (split_char_app "|" P _ _ H9) by discriminate. simpl option_map.
  rewrite split_char_zero. reflexivity.
Qed.

Lemma numeral_lacks_bar (s : string) : numeral s = true -> lacks "|" s = true.
Proof.
  intros H. destruct (numeral_inv s H) as (_ & Hd & _).
  unfold lacks. apply all_digits_clean; [|exact Hd].
  intros c Hc. apply negb_true_iff, Ascii.eqb_neq. apply (digit_classes c Hc).
Qed.

Lemma commit_entries_line
    (clock : nat -> spec_float) (local_time : Z -> result string)
    (h sh an ae at' cn ce ct s P D : string) (n : nat) (ls : list string) :
  lacks "|" h = true -> lacks "|" sh = true -> lacks "|" an = true ->
  lacks "|" ae = true -> lacks "|" cn = true -> lacks "|" ce = true ->
  lacks "|" s = true -> lacks "|" P = true ->
  numeral at' = true -> numeral ct = true ->
  let ts := decimal_value 0 at' in
  commit_entries clock local_time n
    (commit_line h sh an ae at' cn ce ct s P D :: ls)
  = (date <- (if ts =? 0 then Ok EmptyString else local_time ts) ;;
     relative <- _relative_time (clock n) ts ;;
     rest <- commit_entries clock local_time (if ts =? 0 then n else S n) ls ;;
     Ok ({| Commit.hash := strip h; Commit.short_hash := strip sh;
            Commit.author_name := strip an; Commit.author_email := strip ae;
            Commit.author_timestamp := ts; Commit.date := date;
            Commit.date_relative := relative;
            Commit.committer_name := strip cn;
            Commit.committer_email := strip ce;
            Commit.committer_timestamp := decimal_value 0 ct;
            Commit.subject := strip s; Commit.parents := split P;
            Commit.refs := strip D |} :: rest)).
Proof.
  intros H0 H1 H2 H3 H5 H6 H8 H9 Hat Hct ts.
  cbn [commit_entries].
  replace (truthy (strip (commit_line h sh an ae at' cn ce ct s P D))) with true
    by (symmetry; unfold commit_line; cbn [append]; apply strip_bar_truthy).
  cbn [negb].
  rewrite (commit_line_parts h sh an ae at' cn ce ct s P D H0 H1 H2 H3
             (numeral_lacks_bar at' Hat) H5 H6 (numeral_lacks_bar ct Hct) H8 H9).
  cbn [length Nat.ltb Nat.leb nth nth_error].
  rewrite (int_if_digit_numeral at' Hat), (int_if_digit_numeral ct Hct).
  rewrite stripped_words_split. fold ts. cbn [bind].
  destruct (if ts =? 0 then Ok EmptyString else local_time ts); reflexivity.
Qed.

(** X20: [get_commit_history] reads a line of the log back field by field.
    For a line of the eleven fields of the format in which no field before
    the last holds a bar and the two time stamps are numerals, the loop
    appends the commit with each text field stripped, the time stamps as
    numbers, the parents as the words of the parents field, the date taken
    from the local time unless the time stamp is 0, the relative date as
    [_relative_time] gives it at that moment (an error of either is passed
    on), and goes on with the following lines. *)
Theorem commit_line_round_trip :
  forall (clock : nat -> spec_float) (local_time : Z -> result string)
         (h sh an ae at' cn ce ct s P D : string) (n : nat) (ls : list string),
    lacks "|" h = true -> lacks "|" sh = true -> lacks "|" an = true ->
    lacks "|" ae = true -> lacks "|" cn = true -> lacks "|" ce = true ->
    lacks "|" s = true -> lacks "|" P = true ->
    numeral at' = true -> numeral ct = true ->
    let ts := decimal_value 0 at' in
    commit_entries clock local_time n
      (commit_line h sh an ae at' cn ce ct s P D :: ls)
    = (date <- (if ts =? 0 then Ok EmptyString else local_time ts) ;;
       relative <- _relative_time (clock n) ts ;;
       rest <- commit_entries clock local_time (if ts =? 0 then n else S n) ls ;;
       Ok ({| Commit.hash := strip h; Commit.short_hash := strip sh;
              Commit.author_name := strip an; Commit.author_email := strip ae;
              Commit.author_timestamp := ts; Commit.date := date;
              Commit.date_relative := relative;
              Commit.committer_name := strip cn;
              Commit.committer_email := strip ce;
              Commit.committer_timestamp := decimal_value 0 ct;
              Commit.subject := strip s; Commit.parents := split P;
              Commit.refs := strip D |} :: rest)).
Proof. exact commit_entries_line. Qed.

Lemma commit_line_round_trip_witness :
  commit_entries (clock_at 1700000100) (local_time_const "2023-11-14 22:13:20") 0
    [commit_line "9fceb02d0ae598e95dc970b74767f19372d61af8" "9fceb02" "Ann Lee"
       "ann@example.org" "1700000000" "Bob Roy" "bob@example.org" "1700000050"
       "Fix the parser" "1a2b3c4 5d6e7f8" "HEAD -> main, origin/main"]
  = Ok [{| Commit.hash := "9fceb02d0ae598e95dc970b74767f19372d61af8";
           Commit.short_hash := "9fceb02";
           Commit.author_name := "Ann Lee";
           Commit.author_email := "ann@example.org";
           Commit.author_timestamp := 1700000000;
           Commit.date := "2023-11-14 22:13:20";
           Commit.date_relative := "1 minute ago";
           Commit.committer_name := "Bob Roy";
           Commit.committer_email := "bob@example.org";
           Commit.committer_timestamp := 1700000050;
           Commit.subject := "Fix the parser";
           Commit.parents := ["1a2b3c4"; "5d6e7f8"];
           Commit.refs := "HEAD -> main, origin/main" |}].
Proof.
  exact (commit_line_round_trip
           (clock_at 1700000100) (local_time_const "2023-11-14 22:13:20")
           "9fceb02d0ae598e95dc970b74767f19372d61af8" "9fceb02" "Ann Lee"
           "ann@example.org" "1700000000" "Bob Roy" "bob@example.org"
           "1700000050" "Fix the parser" "1a2b3c4 5d6e7f8"
           "HEAD -> main, origin/main" 0 []
           eq_refl eq_refl eq_refl eq_refl eq_refl eq_refl eq_refl eq_refl
           eq_refl eq_refl).
Defined.

(** X21: a bar in the subject of a commit shifts the fields after it.  The
    line is cut at its first ten bars, so the subject stops at its own first
    bar, the words of what follows up to the next bar are taken for the
    parents, and the parents and the references of the line, with the bar
    between them, are taken for the references. *)
Theorem subject_with_bar :
  forall (clock : nat -> spec_float) (local_time : Z -> result string)
         (h sh an ae at' cn ce ct before after P D : string)
         (n : nat) (ls : list string),
    lacks "|" h = true -> lacks "|" sh = true -> lacks "|" an = true ->
    lacks "|" ae = true -> lacks "|" cn = true -> lacks "|" ce = true ->
    lacks "|" before = true -> lacks "|" after = true ->
    numeral at' = true -> numeral ct = true ->
    let ts := decimal_value 0 at' in
    commit_entries clock local_time n
      (commit_line h sh an ae at' cn ce ct (before ++ "|" ++ after) P D :: ls)
    = (date <- (if ts =? 0 then Ok EmptyString else local_time ts) ;;
       relative <- _relative_time (clock n) ts ;;
       rest <- commit_entries clock local_time (if ts =? 0 then n else S n) ls ;;
       Ok ({| Commit.hash := strip h; Commit.short_hash := strip sh;
              Commit.author_name := strip an; Commit.author_email := strip ae;
              Commit.author_timestamp := ts; Commit.date := date;
              Commit.date_relative := relative;
              Commit.committer_name := strip cn;
              Commit.committer_email := strip ce;
              Commit.committer_timestamp := decimal_value 0 ct;
              Commit.subject := strip before; Commit.parents := split after;
              Commit.refs := strip (P ++ "|" ++ D) |} :: rest)).
Proof.
  intros clock local_time h sh an ae at' cn ce ct before after P D n ls
    H0 H1 H2 H3 H5 H6 H8 H9 Hat Hct.
  replace (commit_line h sh an ae at' cn ce ct (before ++ "|" ++ after) P D)
    with (commit_line h sh an ae at' cn ce ct before after (P ++ "|" ++ D))
    by (unfold commit_line; rewrite !string_app_assoc; reflexivity).
  apply commit_entries_line; assumption.
Qed.

Lemma subject_with_bar_witness :
  commit_entries (clock_at 1700000100) (local_time_const "2023-11-14 22:13:20") 0
    [commit_line "9fceb02d0ae598e95dc970b74767f19372d61af8" "9fceb02" "Ann Lee"
       "ann@example.org" "1700000000" "Bob Roy" "bob@example.org" "1700000050"
       "Add a|b operator" "1a2b3c4" "HEAD -> main"]
  = Ok [{| Commit.hash := "9fceb02d0ae598e95dc970b74767f19372d61af8";
           Commit.short_hash := "9fceb02";
           Commit.author_name := "Ann Lee";
           Commit.author_email := "ann@example.org";
           Commit.author_timestamp := 1700000000;
           Commit.date := "2023-11-14 22:13:20";
           Commit.date_relative := "1 minute ago";
           Commit.committer_name := "Bob Roy";
           Commit.committer_email := "bob@example.org";
           Commit.committer_timestamp := 1700000050;
           Commit.subject := "Add a";
           Commit.parents := ["b"; "operator"];
           Commit.refs := "1a2b3c4|HEAD -> main" |}].
Proof.
  exact (subject_with_bar
           (clock_at 1700000100) (local_time_const "2023-11-14 22:13:20")
           "9fceb02d0ae598e95dc970b74767f19372d61af8" "9fceb02" "Ann Lee"
           "ann@example.org" "1700000000" "Bob Roy" "bob@example.org"
           "1700000050" "Add a" "b operator" "1a2b3c4" "HEAD -> main" 0 []
           eq_refl eq_refl eq_refl eq_refl eq_refl eq_refl eq_refl eq_refl
           eq_refl eq_refl).
Defined.

(** ** Commits per author *)

Lemma span_by_app (p : ascii -> bool) (a r : string) :
  all_chars p a = true ->
  match r with
  | EmptyString => True
  | String c _ => p c = false
  end ->
  span_by p (a ++ r) = (a, r).
Proof.
  intros Ha Hr. induction a as [|x a IH].
  - simpl. destruct r as [|c r]; [reflexivity|]. simpl. rewrite Hr. reflexivity.
  - simpl in Ha. apply andb_true_iff in Ha as [Hx Ha].
    simpl. rewrite Hx, (IH Ha). reflexivity.
Qed.

Lemma lstrip_length (s : string) : (String.length (lstrip s) <= String.length s)%nat.
Proof.
  induction s as [|c s IH]; simpl; [lia|]. destruct (is_space c); simpl; lia.
Qed.

Lemma rstrip_length (s : string) : (String.length (rstrip s) <= String.length s)%nat.
Proof.
  induction s as [|c s IH]; simpl; [lia|].
  destruct (rstrip s) as [|c' r]; [destruct (is_space c)|]; simpl in *; lia.
Qed.

(** A text that stripping leaves alone starts with a character other than
    white space. *)
Lemma stripped_head (c : ascii) (s : string) :
  strip (String c s) = String c s -> is_space c = false.
Proof.
  intros H. destruct (is_space c) eqn:Hc; [|reflexivity]. exfalso.
  unfold strip in H. simpl in H. rewrite Hc in H.
  pose proof (rstrip_length (lstrip s)) as H1.
  pose proof (lstrip_length s) as H2.
  rewrite H in H1. simpl in H1. lia.
Qed.

Lemma dot_star_no_lf (s : string) : lacks LF s = true -> dot_star s = s.
Proof.
  unfold lacks. induction s as [|c s IH]; [reflexivity|].
  simpl. intros H. apply andb_true_iff in H as [Hc Hs].
  apply negb_true_iff in Hc. rewrite Hc, (IH Hs). reflexivity.
Qed.

Lemma numeral_head (d : string) :
  numeral d = true ->
  exists c r, d = String c r /\ is_digit c = true /\ is_space c = false.
Proof.
  intros H. destruct (numeral_inv d H) as (Ht & Hd & _).
  destruct d as [|c r]; [discriminate Ht|].
  simpl in Hd. apply andb_true_iff in Hd as [Hc _].
  exists c, r. split; [reflexivity|]. split; [exact Hc|].
  apply (digit_classes c Hc).
Qed.

Lemma all_digits_chars (d : string) :
  all_digits d = true -> all_chars is_digit d = true.
Proof. apply all_digits_clean. auto. Qed.

Lemma shortlog_line_groups (pad count sep name : string) :
  blank pad = true -> numeral count = true ->
  truthy sep = true -> blank sep = true ->
  truthy name = true -> strip name = name -> lacks LF name = true ->
  shortlog_groups (shortlog_line pad count sep name) = Some (count, name).
Proof.
  intros Hpad Hcount Hsep Hsepb Hname Hstrip Hlf.
  destruct (numeral_inv count Hcount) as (Ht & Hd & _).
  destruct (numeral_head count Hcount) as (c & r & -> & Hc & Hcs).
  destruct sep as [|x sep]; [discriminate Hsep|].
  destruct name as [|y name]; [discriminate Hname|].
  pose proof (stripped_head y name Hstrip) as Hy.
  unfold blank in Hsepb. pose proof Hsepb as Hx. simpl in Hx.
  apply andb_true_iff in Hx as [Hx _].
  assert (Hxd : is_digit x = false).
  { destruct (is_digit x) eqn:E; [|reflexivity].
    destruct (digit_classes x E) as [Hn _]. congruence. }
  unfold shortlog_groups, shortlog_line.
  rewrite (span_by_app is_space pad
             (String c r ++ String x sep ++ String y name) Hpad Hcs).
  rewrite (span_by_app is_digit (String c r) (String x sep ++ String y name)
             (all_digits_chars _ Hd) Hxd).
  rewrite Ht. cbn [negb].
  rewrite (span_by_app is_space (String x sep) (String y name) Hsepb Hy).
  rewrite (dot_star_no_lf _ Hlf). reflexivity.
Qed.

(** X22: [get_commit_stats_by_author] reads a line of the short log back.
    For a line made of padding, a count that is a numeral, white space and a
    name that starts and ends with a character other than white space, the
    loop appends the record with the count as a number and the name, and
    goes on with the following lines. *)
Theorem shortlog_line_round_trip :
  forall (pad count sep name : string) (ls : list string),
    blank pad = true -> numeral count = true ->
    truthy sep = true -> blank sep = true ->
    truthy name = true -> strip name = name -> lacks LF name = true ->
    author_entries (shortlog_line pad count sep name :: ls)
    = (rest <- author_entries ls ;;
       Ok ({| AuthorCount.count := decimal_value 0 count;
              AuthorCount.author := name |} :: rest)).
Proof.
  intros pad count sep name ls Hpad Hcount Hsep Hsepb Hname Hstrip Hlf.
  cbn [author_entries].
  rewrite (shortlog_line_groups pad count sep name Hpad Hcount Hsep Hsepb
             Hname Hstrip Hlf).
  rewrite (py_int_text_numeral count Hcount), Hstrip. reflexivity.
Qed.

Lemma shortlog_line_round_trip_witness :
  author_entries [shortlog_line "    " "12" (String TAB "") "Ann Lee"]
  = Ok [{| AuthorCount.count := 12; AuthorCount.author := "Ann Lee" |}].
Proof.
  exact (shortlog_line_round_trip "    " "12" (String TAB "") "Ann Lee" []
           eq_refl eq_refl eq_refl eq_refl eq_refl eq_refl eq_refl).
Defined.

(** ** The detail of a commit *)

Lemma split_nl_app_lines (a r : string) :
  split_nl (a ++ String LF r) = (split_nl a ++ split_nl r)%list.
Proof.
  induction a as [|c a IH].
  - simpl. reflexivity.
  - change (String c a ++ String LF r) with (String c (a ++ String LF r)).
    cbn [split_nl]. rewrite IH. destruct (Ascii.eqb c LF); [reflexivity|].
    pose proof (split_nl_nonempty a) as Hne.
    destruct (split_nl a) as [|l ls]; [congruence | reflexivity].
Qed.

Lemma join_nl_cons_head (c : ascii) (l : string) (ls : list string) :
  join_nl (String c l :: ls) = String c (join_nl (l :: ls)).
Proof. destruct ls; reflexivity. Qed.

(** Joining the lines of a text gives the text back. *)
Lemma join_split_nl (b : string) : join_nl (split_nl b) = b.
Proof.
  induction b as [|c b IH]; [reflexivity|].
  cbn [split_nl]. pose proof (split_nl_nonempty b) as Hne.
  destruct (Ascii.eqb c LF) eqn:E.
  - apply Ascii.eqb_eq in E. subst c.
    destruct (split_nl b) as [|l ls]; [congruence|].
    change (join_nl ("" :: l :: ls)) with (String LF (join_nl (l :: ls))).
    rewrite IH. reflexivity.
  - destruct (split_nl b) as [|l ls]; [congruence|].
    rewrite join_nl_cons_head, IH. reflexivity.
Qed.

Lemma until_end_app (ls rest : list string) :
  forallb (fun l => negb (String.eqb l END_MARK)) ls = true ->
  until_end (ls ++ END_MARK :: rest) = ls.
Proof.
  induction ls as [|l ls IH]; intros H.
  - reflexivity.
  - simpl in H. apply andb_true_iff in H as [Hl Hls].
    apply negb_true_iff in Hl. cbn [app until_end]. rewrite Hl, (IH Hls).
    reflexivity.
Qed.

Lemma detail_text_lines (h sh an ae at' cn ce P D s b : string) :
  no_lf h = true -> no_lf sh = true -> no_lf an = true -> no_lf ae = true ->
  no_lf at' = true -> no_lf cn = true -> no_lf ce = true -> no_lf P = true ->
  no_lf D = true -> no_lf s = true ->
  split_nl (detail_text h sh an ae at' cn ce P D s b)
  = (h :: sh :: an :: ae :: at' :: cn :: ce :: P :: D :: s
       :: split_nl b ++ [END_MARK; EmptyString])%list.
Proof.
  intros H0 H1 H2 H3 H4 H5 H6 H7 H8 H9. unfold detail_text, nl. cbn [append].
  rewrite (split_nl_app h _ H0), (split_nl_app sh _ H1), (split_nl_app an _ H2),
    (split_nl_app ae _ H3), (split_nl_app at' _ H4), (split_nl_app cn _ H5),
    (split_nl_app ce _ H6), (split_nl_app P _ H7), (split_nl_app D _ H8),
    (split_nl_app s _ H9).
  rewrite split_nl_app_lines. reflexivity.
Qed.

(** X23: [get_commit_detail] reads back what [git show] prints.  For the
    ten fields of the format, none of which holds a line feed, with a
    numeral for the time stamp, and for a body none of whose lines is the
    end mark, the result has each field stripped, the time stamp as a
    number, the date taken from the local time unless the time stamp is 0,
    the relative date as [_relative_time] gives it (an error of either is
    passed on), the parents as the words of their field, [is_merge] exactly
    when there is more than one parent, and the body as it was printed,
    stripped: the line feeds inside the body are kept. *)
Theorem commit_detail_round_trip :
  forall (os : list string -> option string -> Z -> process) (now : spec_float)
         (local_time : Z -> result string) (ref repo_root : string) (rc : Z)
         (h sh an ae at' cn ce P D s b : string),
    no_lf h = true -> no_lf sh = true -> no_lf an = true -> no_lf ae = true ->
    no_lf cn = true -> no_lf ce = true -> no_lf P = true -> no_lf D = true ->
    no_lf s = true -> numeral at' = true -> free_of_mark b = true ->
    os ["git"; "show"; "-s"; detail_format; ref] (Some repo_root) 30
    = Exits rc (detail_text h sh an ae at' cn ce P D s b) ->
    let ts := decimal_value 0 at' in
    get_commit_detail os now local_time ref repo_root
    = (date <- (if ts =? 0 then Ok EmptyString else local_time ts) ;;
       relative <- _relative_time now ts ;;
       Ok (Some {| Detail.hash := strip h; Detail.short_hash := strip sh;
                   Detail.author_name := strip an;
                   Detail.author_email := strip ae;
                   Detail.author_timestamp := ts; Detail.date := date;
                   Detail.date_relative := relative;
                   Detail.committer_name := strip cn;
                   Detail.committer_email := strip ce;
                   Detail.parents := split P;
                   Detail.is_merge := (1 <? length (split P))%nat;
                   Detail.refs := strip D; Detail.subject := strip s;
                   Detail.body := strip b |})).
Proof.
  intros os now local_time ref repo_root rc h sh an ae at' cn ce P D s b
    H0 H1 H2 H3 H5 H6 H7 H8 H9 Hat Hb Hos ts.
  unfold get_commit_detail.
  rewrite git_found; rewrite Hos; [|discriminate..]. cbn [bind].
  rewrite (detail_text_lines h sh an ae at' cn ce P D s b H0 H1 H2 H3
             (numeral_no_lf at' Hat) H5 H6 H7 H8 H9).
  replace (length (h :: sh :: an :: ae :: at' :: cn :: ce :: P :: D :: s
                     :: split_nl b ++ [END_MARK; EmptyString]) <? 10)%nat
    with false by reflexivity.
  cbn [nth skipn].
  rewrite (until_end_app (split_nl b) [EmptyString] Hb), join_split_nl.
  rewrite (int_if_digit_numeral at' Hat), stripped_words_split. fold ts.
  reflexivity.
Qed.

Lemma commit_detail_round_trip_witness :
  get_commit_detail
    (os_const 0
       (detail_text "9fceb02d0ae598e95dc970b74767f19372d61af8" "9fceb02"
          "Ann Lee" "ann@example.org" "1700000000" "Bob Roy" "bob@example.org"
          "1a2b3c4 5d6e7f8" "HEAD -> main" "Merge the parser"
          ("First line." ++ nl ++ nl ++ "Third line." ++ nl)))
    (double 1700007200 0) (local_time_const "2023-11-14 22:13:20")
    "HEAD" "/srv/repo"
  = Ok (Some {| Detail.hash := "9fceb02d0ae598e95dc970b74767f19372d61af8";
                Detail.short_hash := "9fceb02";
                Detail.author_name := "Ann Lee";
                Detail.author_email := "ann@example.org";
                Detail.author_timestamp := 1700000000;
                Detail.date := "2023-11-14 22:13:20";
                Detail.date_relative := "2 hours ago";
                Detail.committer_name := "Bob Roy";
                Detail.committer_email := "bob@example.org";
                Detail.parents := ["1a2b3c4"; "5d6e7f8"];
                Detail.is_merge := true;
                Detail.refs := "HEAD -> main";
                Detail.subject := "Merge the parser";
                Detail.body := "First line." ++ nl ++ nl ++ "Third line." |}).
Proof.
  exact (commit_detail_round_trip
           (os_const 0
              (detail_text "9fceb02d0ae598e95dc970b74767f19372d61af8" "9fceb02"
                 "Ann Lee" "ann@example.org" "1700000000" "Bob Roy"
                 "bob@example.org" "1a2b3c4 5d6e7f8" "HEAD -> main"
                 "Merge the parser"
                 ("First line." ++ nl ++ nl ++ "Third line." ++ nl)))
           (double 1700007200 0) (local_time_const "2023-11-14 22:13:20")
           "HEAD" "/srv/repo" 0
           "9fceb02d0ae598e95dc970b74767f19372d61af8" "9fceb02"
           "Ann Lee" "ann@example.org" "1700000000" "Bob Roy" "bob@example.org"
           "1a2b3c4 5d6e7f8" "HEAD -> main" "Merge the parser"
           ("First line." ++ nl ++ nl ++ "Third line." ++ nl)
           eq_refl eq_refl eq_refl eq_refl eq_refl eq_refl eq_refl eq_refl
           eq_refl eq_refl eq_refl eq_refl).
Defined.

(** ** Blame *)

Lemma take_drop (n : nat) (s : string) : take n s ++ drop n s = s.
Proof.
  revert s. induction n as [|n IH]; intros s; [reflexivity|].
  destruct s as [|c s]; [reflexivity|]. simpl. rewrite IH. reflexivity.
Qed.

Lemma hex_not_space (c : ascii) : is_hex c = true -> is_space c = false.
Proof.
  destruct c as [[] [] [] [] [] [] [] []]; intros H; try reflexivity;
    discriminate H.
Qed.

Lemma hex40_word (h : string) : hex40 h = true -> word h = true.
Proof.
  unfold hex40, word. intros H. apply andb_true_iff in H as [Hl Hh].
  apply andb_true_iff. split.
  - destruct h; [discriminate Hl | reflexivity].
  - revert Hh. apply all_chars_impl. intros c Hc.
    apply negb_true_iff, hex_not_space, Hc.
Qed.

Lemma blame_header_split (line : string) :
  blame_header line = true ->
  hex40 (take 40 line) = true
  /\ exists r, split line = take 40 line :: r.
Proof.
  unfold blame_header. intros H.
  apply andb_true_iff in H as [H Hd]. fold (hex40 (take 40 line)) in H.
  split; [exact H|].
  destruct (drop 40 line) as [|c r] eqn:E; [discriminate Hd|].
  assert (Hc : c = " "%char)
    by (destruct c as [[] [] [] [] [] [] [] []]; try discriminate Hd; reflexivity).
  subst c.
  pose proof (take_drop 40 line) as Hl. rewrite E in Hl.
  remember (take 40 line) as h eqn:Hh. rewrite <- Hl.
  exists (split r). apply split_word_app; [apply hex40_word, H | reflexivity].
Qed.

Lemma meta_get_set (k h : string) (f : Meta.t -> Meta.t)
    (m : list (string * Meta.t)) :
  meta_get k (meta_set h f m)
  = if String.eqb k h then option_map f (meta_get k m) else meta_get k m.
Proof.
  induction m as [|[k' d] m IH]; simpl.
  - destruct (String.eqb k h); reflexivity.
  - destruct (String.eqb h k') eqn:E; simpl.
    + apply String.eqb_eq in E. subst k'.
      destruct (String.eqb k h); reflexivity.
    + destruct (String.eqb k k') eqn:E'.
      * apply String.eqb_eq in E'. subst k'.
        rewrite String.eqb_sym, E. reflexivity.
      * exact IH.
Qed.

Lemma meta_get_app (k h : string) (d : Meta.t) (m : list (string * Meta.t)) :
  meta_get k (m ++ [(h, d)])
  = match meta_get k m with
    | Some x => Some x
    | None => if String.eqb k h then Some d else None
    end.
Proof.
  induction m as [|[k' d'] m IH]; simpl; [reflexivity|].
  destruct (String.eqb k k'); [reflexivity | exact IH].
Qed.

Lemma meta_assign_invariant (st st' : Blame.state) (f : Meta.t -> Meta.t) :
  (forall d, Meta.hash (f d) = Meta.hash d
             /\ Meta.short_hash (f d) = Meta.short_hash d) ->
  blame_invariant st -> meta_assign st f = Returns st' -> blame_invariant st'.
Proof.
  intros Hf (Hm & Hc & Hl) H. unfold meta_assign in H.
  destruct (Blame.current_hash st) as [h|] eqn:Eh; [|discriminate H].
  destruct (meta_get h (Blame.meta st)) as [d0|] eqn:Ed; [|discriminate H].
  injection H as <-. unfold blame_invariant. cbn [Blame.meta Blame.current_hash
                                                    Blame.lines].
  assert (Hkeep : forall k, meta_get k (Blame.meta st) <> None ->
                            meta_get k (meta_set h f (Blame.meta st)) <> None).
  { intros k Hk. rewrite meta_get_set. destruct (String.eqb k h); [|exact Hk].
    destruct (meta_get k (Blame.meta st)); [discriminate | congruence]. }
  split; [|split].
  - intros k d. rewrite meta_get_set. destruct (String.eqb k h).
    + destruct (meta_get k (Blame.meta st)) as [d1|] eqn:E1; [|discriminate].
      simpl. intros E. injection E as <-.
      destruct (Hm k d1 E1) as (Hk & Hh & Hs). destruct (Hf d1) as [-> ->].
      auto.
    + apply Hm.
  - intros h' Hh'. apply Hkeep. apply Hc. congruence.
  - intros c h' Hin. apply Hkeep. apply (Hl c h' Hin).
Qed.

Lemma blame_step_invariant (local_date : Z -> result string)
    (st st' : Blame.state) (line : string) :
  blame_invariant st -> blame_step local_date st line = Returns st' ->
  blame_invariant st'.
Proof.
  intros Hinv H. unfold blame_step in H.
  destruct (blame_header line) eqn:Eh.
  - destruct (blame_header_split line Eh) as (Hhex & r & Hs).
    remember (take 40 line) as h0 eqn:Hh0. clear Hh0. rewrite Hs in H.
    injection H as <-. destruct Hinv as (Hm & Hc & Hl).
    unfold blame_invariant.
    cbn [Blame.meta Blame.current_hash Blame.lines].
    destruct (meta_get h0 (Blame.meta st)) as [d0|] eqn:Ed.
    + split; [exact Hm|]. split; [|exact Hl].
      intros h E. injection E as <-. congruence.
    + split; [|split].
      * intros k d. rewrite meta_get_app.
        destruct (meta_get k (Blame.meta st)) as [x|] eqn:Ex.
        -- intros E. injection E as <-. apply (Hm k x Ex).
        -- destruct (String.eqb k h0) eqn:Ek; [|discriminate].
           apply String.eqb_eq in Ek. subst k. intros E. injection E as <-.
           auto.
      * intros h E. injection E as <-. rewrite meta_get_app, Ed.
        rewrite String.eqb_refl. discriminate.
      * intros c h Hin. rewrite meta_get_app.
        pose proof (Hl c h Hin) as Hne.
        destruct (meta_get h (Blame.meta st)); [discriminate | congruence].
  - destruct (startswith line "author ").
    { refine (meta_assign_invariant st st' _ _ Hinv H).
      intros d. split; reflexivity. }
    destruct (startswith line "author-time ").
    { destruct (py_int_text (strip (drop 12 line))) as [ts|]; [|discriminate H].
      cbn [lift and_then] in H.
      destruct (local_date ts) as [value|]; [|discriminate H].
      cbn [lift and_then] in H.
      refine (meta_assign_invariant st st' _ _ Hinv H).
      intros d. split; reflexivity. }
    destruct (startswith line "summary ").
    { refine (meta_assign_invariant st st' _ _ Hinv H).
      intros d. split; reflexivity. }
    destruct (startswith line (String TAB "")); injection H as <-; [|exact Hinv].
    destruct Hinv as (Hm & Hc & Hl). unfold blame_invariant.
    cbn [Blame.meta Blame.current_hash Blame.lines].
    split; [exact Hm|]. split; [exact Hc|].
    intros c h Hin. apply in_app_or in Hin as [Hin | [E | []]].
    + apply (Hl c h Hin).
    + injection E as _ E. apply Hc, E.
Qed.

Lemma blame_run_invariant (local_date : Z -> result string) (ls : list string) :
  forall st st',
    blame_invariant st -> blame_run local_date st ls = Returns st' ->
    blame_invariant st'.
Proof.
  induction ls as [|line ls IH]; intros st st' Hinv H.
  - injection H as <-. exact Hinv.
  - cbn [blame_run] in H.
    destruct (blame_step local_date st line) as [st1|] eqn:E; [|discriminate H].
    cbn [and_then] in H.
    apply (IH st1 st' (blame_step_invariant local_date st st1 line Hinv E) H).
Qed.

Lemma blame_start_invariant : blame_invariant blame_start.
Proof.
  unfold blame_invariant, blame_start. simpl.
  split; [discriminate|]. split; [discriminate | intros c h []].
Qed.

(** X24: in every entry that [get_file_blame] returns the hash and the dict
    agree.  An entry that stands before the first header has no hash and the
    empty dict; every other entry has an object name of forty hexadecimal
    digits for its hash, and its dict is there and holds this very hash and
    its first seven digits. *)
Theorem get_file_blame_entries :
  forall (os : list string -> option string -> Z -> process)
         (local_date : Z -> result string) (repo_root path ref : string)
         (es : list BlameLine.t),
    get_file_blame os local_date repo_root path ref = Returns es ->
    Forall blame_entry_ok es.
Proof.
  intros os local_date repo_root path ref es H. unfold get_file_blame in H.
  destruct (git os ["blame"; "-p"; ref; "--"; path] repo_root) as [raw|];
    [|discriminate H].
  cbn [lift and_then] in H.
  destruct (blame_run local_date blame_start (splitlines raw)) as [st|] eqn:E;
    [|discriminate H].
  cbn [and_then] in H. injection H as <-.
  destruct (blame_run_invariant local_date _ _ _ blame_start_invariant E)
    as (Hm & _ & Hl).
  unfold blame_lines. apply Forall_forall. intros e Hin.
  apply in_map_iff in Hin as ([c h] & <- & Hin).
  unfold blame_entry_ok. cbn [BlameLine.hash BlameLine.meta fst snd].
  destruct h as [h|]; [|reflexivity].
  pose proof (Hl c h Hin) as Hne.
  destruct (meta_get h (Blame.meta st)) as [d|] eqn:Ed; [|congruence].
  destruct (Hm h d Ed) as (Hk & Hh & Hs).
  split; [exact Hk|]. exists d. auto.
Qed.

Lemma get_file_blame_entries_witness :
  get_file_blame (os_const 0 blame_sample) (local_time_const "2023-11-14")
    "/srv/repo" "src/a.py" "HEAD" = Returns blame_sample_entries
  /\ Forall blame_entry_ok blame_sample_entries.
Proof.
  split; [reflexivity|].
  apply (get_file_blame_entries (os_const 0 blame_sample)
           (local_time_const "2023-11-14") "/srv/repo" "src/a.py" "HEAD").
  reflexivity.
Defined.

Lemma passive_step (local_date : Z -> result string) (st : Blame.state)
    (line : string) :
  passive line = true -> Blame.current_hash st = None ->
  exists st', blame_step local_date st line = Returns st'
              /\ Blame.current_hash st' = None.
Proof.
  unfold passive. intros H Hc.
  apply andb_true_iff in H as [H H4]. apply andb_true_iff in H as [H H3].
  apply andb_true_iff in H as [H1 H2].
  apply negb_true_iff in H1, H2, H3, H4.
  unfold blame_step. rewrite H1, H2, H3, H4.
  destruct (startswith line (String TAB "")); eexists; split;
    try reflexivity; exact Hc.
Qed.

Lemma passive_run (local_date : Z -> result string) (pre : list string) :
  forall st rest,
    forallb passive pre = true -> Blame.current_hash st = None ->
    exists st', blame_run local_date st (pre ++ rest)
                = blame_run local_date st' rest
                /\ Blame.current_hash st' = None.
Proof.
  induction pre as [|l pre IH]; intros st rest Hp Hc.
  - exists st. split; [reflexivity | exact Hc].
  - simpl in Hp. apply andb_true_iff in Hp as [Hl Hp].
    destruct (passive_step local_date st l Hl Hc) as (st1 & E1 & Hc1).
    destruct (IH st1 rest Hp Hc1) as (st2 & E2 & Hc2).
    exists st2. split; [|exact Hc2].
    change ((l :: pre) ++ rest)%list with (l :: (pre ++ rest))%list.
    cbn [blame_run]. rewrite E1. cbn [and_then]. exact E2.
Qed.

Lemma summary_not_author (line : string) :
  startswith line "summary " = true ->
  startswith line "author " = false /\ startswith line "author-time " = false.
Proof.
  unfold startswith. destruct line as [|c line]; [discriminate|].
  cbn [prefix]. destruct (ascii_dec "s" c) as [<-|]; [|discriminate].
  intros _. split; reflexivity.
Qed.

(** X25: metadata without a header makes the blame fail.  When a line that
    starts with the word author or summary and a space comes before any
    header line, that is a line of forty hexadecimal digits and a space,
    [get_file_blame] raises [KeyError] for the key [None]: there is no
    current commit to file the value under.  So it is for every output in
    which the object names are longer than forty digits. *)
Theorem blame_without_header :
  forall (os : list string -> option string -> Z -> process)
         (local_date : Z -> result string) (repo_root path ref : string)
         (rc : Z) (raw : string) (pre : list string) (line : string)
         (rest : list string),
    os (blame_command ref path) (Some repo_root) 30 = Exits rc raw ->
    splitlines raw = (pre ++ line :: rest)%list ->
    forallb passive pre = true ->
    blame_header line = false ->
    startswith line "author " || startswith line "summary " = true ->
    get_file_blame os local_date repo_root path ref = Throws (KeyError None).
Proof.
  intros os local_date repo_root path ref rc raw pre line rest Hos Hraw Hpre
    Hh Hline.
  unfold get_file_blame.
  rewrite git_found; fold (blame_command ref path); rewrite Hos;
    [|discriminate..].
  cbn [lift and_then]. rewrite Hraw.
  destruct (passive_run local_date pre blame_start (line :: rest) Hpre eq_refl)
    as (st & -> & Hc).
  cbn [blame_run]. unfold blame_step. rewrite Hh.
  apply orb_true_iff in Hline as [Ha | Hs].
  - rewrite Ha. unfold meta_assign. rewrite Hc. reflexivity.
  - destruct (summary_not_author line Hs) as [-> ->]. rewrite Hs.
    unfold meta_assign. rewrite Hc. reflexivity.
Qed.

Lemma blame_without_header_witness :
  get_file_blame (os_const 0 blame_sample_long_names)
    (local_time_const "2023-11-14") "/srv/repo" "src/a.py" "HEAD"
  = Throws (KeyError None).
Proof.
  apply (blame_without_header (os_const 0 blame_sample_long_names)
           (local_time_const "2023-11-14") "/srv/repo" "src/a.py" "HEAD" 0
           blame_sample_long_names
           ["9fceb02d0ae598e95dc970b74767f19372d61af89fceb02d0ae598e95dc970b7 1 1 1"]
           "author Ann Lee" [String TAB "first line"]);
    reflexivity.
Defined.

(** ** Parsing one file section after another *)

Lemma deref_relocate (junk hp : list Hunk) (r : ref) :
  deref (junk ++ hp) (length junk + r)%nat = deref hp r.
Proof. unfold deref. apply app_nth2_plus. Qed.

Lemma mutate_relocate (junk hp : list Hunk) (r : ref) (g : Hunk -> Hunk) :
  mutate (junk ++ hp) (length junk + r)%nat g = (junk ++ mutate hp r g)%list.
Proof.
  induction junk as [|h junk IH]; [reflexivity|].
  simpl. rewrite IH. reflexivity.
Qed.

Lemma flush_hunk_relocate (pre : list FileDiff) (junk : list Hunk) (b : state) :
  flush_hunk (relocate pre junk b) = map (Nat.add (length junk)) (flush_hunk b).
Proof.
  unfold flush_hunk, relocate. simpl.
  destruct (current_hunk b); simpl; [|reflexivity].
  rewrite map_app. reflexivity.
Qed.

Lemma close_file_relocate (pre : list FileDiff) (junk : list Hunk) (b : state) :
  close_file (relocate pre junk b) = (pre ++ close_file b)%list.
Proof.
  unfold close_file. rewrite flush_hunk_relocate.
  cbn [relocate current_file st_files heap].
  destruct (current_file b) as [f|]; [|reflexivity].
  rewrite <- app_assoc, map_map.
  rewrite (map_ext _ (deref (heap b)) (deref_relocate junk (heap b))).
  reflexivity.
Qed.

Lemma update_hunk_relocate (pre : list FileDiff) (junk : list Hunk)
    (g : Hunk -> Hunk) (b : state) :
  update_hunk g (relocate pre junk b) = relocate pre junk (update_hunk g b).
Proof.
  unfold update_hunk. cbn [relocate current_hunk].
  destruct (current_hunk b) as [r|] eqn:E; cbn [option_map]; [|reflexivity].
  unfold relocate. cbn [st_files current_file heap current_hunks current_hunk
                        in_hunk].
  rewrite mutate_relocate. reflexivity.
Qed.

Lemma body_line_relocate (pre : list FileDiff) (junk : list Hunk)
    (l : string) (b : state) :
  body_line l (relocate pre junk b) = relocate pre junk (body_line l b).
Proof.
  unfold body_line.
  destruct (startswith l "---" || startswith l "+++"); [reflexivity|].
  repeat match goal with
    | |- context [if startswith ?x ?p then _ else _] =>
        destruct (startswith x p); [apply update_hunk_relocate|]
    end.
  reflexivity.
Qed.

(** Read after other sections, a line does to the state what it does to it
    alone. *)
Lemma step_relocate (pre : list FileDiff) (junk : list Hunk) (b : state)
    (l : string) :
  step (relocate pre junk b) l = relocated pre junk (step b l).
Proof.
  destruct (startswith l "diff --git ") eqn:Hd.
  - rewrite !(step_file_header _ l Hd). unfold relocated.
    rewrite close_file_relocate. reflexivity.
  - unfold step. rewrite Hd.
    replace (has_file (relocate pre junk b)) with (has_file b) by reflexivity.
    chain;
      try solve [reflexivity
                | destruct (last_item (split l)); reflexivity
                | destruct (Re.similarity l) as [d|]; [|reflexivity];
                  destruct (py_int d); reflexivity].
    + rewrite flush_hunk_relocate.
      destruct (Re.hunk_header l) as [g|]; [|reflexivity].
      destruct (new_hunk g) as [h|]; [|reflexivity].
      unfold relocated, relocate. cbn [bind heap st_files current_file
        current_hunks current_hunk in_hunk option_map].
      rewrite length_app, app_assoc. reflexivity.
    + replace (in_hunk (relocate pre junk b)) with (in_hunk b) by reflexivity.
      replace (match current_hunk (relocate pre junk b) with
               | Some _ => true | None => false end)
        with (match current_hunk b with Some _ => true | None => false end)
        by (simpl; destruct (current_hunk b); reflexivity).
      destruct (in_hunk b && match current_hunk b with
                             | Some _ => true | None => false end);
        [|reflexivity].
      unfold relocated. rewrite body_line_relocate. reflexivity.
    + replace (in_hunk (relocate pre junk b)) with (in_hunk b) by reflexivity.
      replace (match current_hunk (relocate pre junk b) with
               | Some _ => true | None => false end)
        with (match current_hunk b with Some _ => true | None => false end)
        by (simpl; destruct (current_hunk b); reflexivity).
      destruct (in_hunk b && match current_hunk b with
                             | Some _ => true | None => false end);
        [|reflexivity].
      unfold relocated. rewrite body_line_relocate. reflexivity.
Qed.

Lemma run_relocate (pre : list FileDiff) (junk : list Hunk) (ls : list string) :
  forall b, run (relocate pre junk b) ls = relocated pre junk (run b ls).
Proof.
  induction ls as [|l ls IH]; intros b; [reflexivity|].
  cbn [run]. rewrite step_relocate.
  destruct (step b l) as [b'|]; [apply IH | reflexivity].
Qed.

Lemma sum_from (l : list Z) : forall x, fold_left Z.add l x = x + sum l.
Proof.
  unfold sum. induction l as [|a l IH]; intros x; simpl; [lia|].
  rewrite (IH (x + a)), (IH a). lia.
Qed.

Lemma sum_app (a b : list Z) : sum (a ++ b) = sum a + sum b.
Proof.
  unfold sum at 1. rewrite fold_left_app. fold (sum a). apply sum_from.
Qed.

(** The first line of a text that starts with [p] starts with [p]. *)
Lemma first_line_prefix (p : string) :
  forall s, no_lf p = true -> prefix p s = true ->
    exists h rest, split_nl s = h :: rest /\ prefix p h = true.
Proof.
  induction p as [|a p IH]; intros s Hp Hs.
  - pose proof (split_nl_nonempty s) as Hne.
    destruct (split_nl s) as [|h rest]; [congruence|].
    exists h, rest. split; [reflexivity | apply prefix_empty].
  - destruct s as [|c s]; [discriminate Hs|].
    cbn [prefix] in Hs. destruct (ascii_dec a c) as [<-|]; [|discriminate Hs].
    unfold no_lf in Hp. simpl in Hp. apply andb_true_iff in Hp as [Ha Hp].
    destruct (IH s Hp Hs) as (h & rest & E & Hh).
    exists (String a h), rest. cbn [split_nl].
    apply negb_true_iff in Ha. rewrite Ha, E. split; [reflexivity|].
    cbn [prefix]. destruct (ascii_dec a a); [exact Hh | congruence].
Qed.

(** X26: [parse_diff] reads one file section after another.  When a diff
    text is followed, after a line feed, by a text that starts with a file
    header, and each of the two can be parsed, the whole can be parsed, and
    its files are the files of the first followed by the files of the
    second; the three totals add up.  What a section is parsed into does
    not depend on the sections before it. *)
Theorem parse_diff_sections :
  forall (d1 d2 s1 s2 s : string) (r1 r2 : DiffResult),
    startswith d2 "diff --git " = true ->
    parse_diff d1 s1 = Ok r1 -> parse_diff d2 s2 = Ok r2 ->
    exists r,
      parse_diff (d1 ++ nl ++ d2) s = Ok r
      /\ files r = (files r1 ++ files r2)%list
      /\ total_files r = total_files r1 + total_files r2
      /\ total_additions r = total_additions r1 + total_additions r2
      /\ total_deletions r = total_deletions r1 + total_deletions r2.
Proof.
  intros d1 d2 s1 s2 s r1 r2 Hd H1 H2.
  destruct (first_line_prefix "diff --git " d2 eq_refl Hd) as (h & rest & E & Hh).
  unfold parse_diff in *.
  change (d1 ++ nl ++ d2) with (d1 ++ String LF d2).
  rewrite split_nl_app_lines, run_app.
  destruct (run initial_state (split_nl d1)) as [st1|]; [|discriminate H1].
  cbn [bind] in H1 |- *.
  destruct (stat_caption s1) as [c1|]; [|discriminate H1].
  cbn [bind] in H1. injection H1 as <-.
  rewrite E in H2 |- *. cbn [run] in H2 |- *.
  rewrite (step_file_header initial_state h Hh) in H2.
  rewrite (step_file_header st1 h Hh). cbn [bind] in H2 |- *.
  replace {| st_files := close_file st1;
             current_file :=
               Some (new_file (fst (header_paths h)) (snd (header_paths h)));
             heap := heap st1; current_hunks := []; current_hunk := None;
             in_hunk := false |}
    with (relocate (close_file st1) (heap st1)
            {| st_files := [];
               current_file :=
                 Some (new_file (fst (header_paths h)) (snd (header_paths h)));
               heap := []; current_hunks := []; current_hunk := None;
               in_hunk := false |})
    by (unfold relocate; cbn [st_files current_file heap current_hunks
                               current_hunk in_hunk map option_map];
        rewrite !app_nil_r; reflexivity).
  rewrite run_relocate.
  change (close_file initial_state) with (@nil FileDiff) in H2.
  destruct (run _ rest) as [st2|]; [|discriminate H2].
  cbn [bind relocated] in H2 |- *.
  destruct (stat_caption s2) as [c2|]; [|discriminate H2].
  cbn [bind] in H2. injection H2 as <-.
  destruct (stat_caption_ok s) as [c ->]. cbn [bind].
  eexists. split; [reflexivity|].
  cbn [files total_files total_additions total_deletions].
  rewrite close_file_relocate.
  rewrite length_app, !map_app, !sum_app.
  repeat split; try reflexivity. lia.
Qed.

Lemma parse_diff_sections_witness :
  exists ra rb r,
    parse_diff section_a "" = Ok ra /\ parse_diff section_b "" = Ok rb
    /\ parse_diff (section_a ++ nl ++ section_b) "" = Ok r
    /\ files r = (files ra ++ files rb)%list
    /\ total_additions r = 3 /\ total_deletions r = 1.
Proof.
  destruct (parse_diff section_a "") as [ra|] eqn:Ea; [|discriminate Ea].
  destruct (parse_diff section_b "") as [rb|] eqn:Eb; [|discriminate Eb].
  destruct (parse_diff_sections section_a section_b "" "" "" ra rb
              eq_refl Ea Eb) as (r & Hr & Hf & _ & Ha & Hd).
  exists ra, rb, r. split; [reflexivity|]. split; [reflexivity|].
  split; [exact Hr|]. split; [exact Hf|].
  vm_compute in Ea. injection Ea as <-. vm_compute in Eb. injection Eb as <-.
  split; [rewrite Ha | rewrite Hd]; reflexivity.
Defined.

(** ** One file for every file header *)

Lemma update_file_has_file (g : FileDiff -> FileDiff) (st : state) :
  has_file (update_file g st) = has_file st.
Proof. unfold has_file, update_file. simpl. destruct (current_file st); reflexivity. Qed.

Lemma body_line_has_file (l : string) (st : state) :
  has_file (body_line l st) = has_file st.
Proof.
  unfold has_file. destruct (body_line_frame st l) as (_ & -> & _). reflexivity.
Qed.

(** A step leaves the current file in place; a file header puts one there. *)
Lemma step_has_file (st st' : state) (l : string) :
  step st l = Ok st' ->
  has_file st' = (startswith l "diff --git " || has_file st).
Proof.
  unfold step. destruct (startswith l "diff --git ") eqn:Hd.
  - intros H. injection H as <-. reflexivity.
  - cbn [orb]. chain; intros H;
      repeat match type of H with
        | (_ <- ?r ;; _) = Ok _ =>
            apply bind_ok in H; destruct H as (? & _ & H)
        | match ?x with _ => _ end = Ok _ => destruct x
        | (if ?b then _ else _) = Ok _ => destruct b
        end;
      try (injection H as <-);
      rewrite ?update_file_has_file, ?body_line_has_file;
      assumption.
Qed.

Lemma close_file_length (st : state) :
  length (close_file st)
  = (length (st_files st) + if has_file st then 1 else 0)%nat.
Proof.
  unfold close_file, has_file. destruct (current_file st).
  - rewrite length_app. reflexivity.
  - lia.
Qed.

Lemma run_headers (ls : list string) :
  forall st st',
    run st ls = Ok st' ->
    length (close_file st') = (length (close_file st) + headers ls)%nat.
Proof.
  unfold headers. induction ls as [|l ls IH]; intros st st' H.
  - injection H as <-. simpl. lia.
  - cbn [run] in H. apply bind_ok in H as (st1 & Hstep & Hrun).
    rewrite (IH st1 st' Hrun). cbn [filter].
    rewrite (close_file_length st1), (close_file_length st).
    rewrite (step_has_file st st1 l Hstep), (step_files st st1 l Hstep).
    destruct (startswith l "diff --git ").
    + rewrite (close_file_length st). simpl. lia.
    + simpl. lia.
Qed.

(** X27: [parse_diff] returns one file for every file header.  The number
    of files of the result, and [total_files], is the number of the lines of
    the diff text that start with the words of a file header: no file is
    dropped, none is made up, and a text without a file header gives no
    file, whatever else it holds. *)
Theorem one_file_per_header :
  forall (diff_raw stat_raw : string) (r : DiffResult),
    parse_diff diff_raw stat_raw = Ok r ->
    length (files r) = headers (split_nl diff_raw)
    /\ total_files r = Z.of_nat (headers (split_nl diff_raw))
    /\ (headers (split_nl diff_raw) = 0%nat ->
        files r = [] /\ total_additions r = 0 /\ total_deletions r = 0).
Proof.
  intros diff_raw stat_raw r H. unfold parse_diff in H.
  apply bind_ok in H as (st & Hrun & H).
  apply bind_ok in H as (cap & _ & H). injection H as <-.
  pose proof (run_headers _ _ _ Hrun) as Hl.
  change (length (close_file initial_state)) with 0%nat in Hl.
  cbn [files total_files total_additions total_deletions].
  rewrite Hl. split; [reflexivity|]. split; [reflexivity|].
  intros H0. rewrite H0 in Hl.
  destruct (close_file st); [|discriminate Hl]. repeat split; reflexivity.
Qed.

Lemma one_file_per_header_witness :
  exists r,
    parse_diff (section_a ++ nl ++ section_b) "" = Ok r
    /\ length (files r) = 2%nat /\ total_files r = 2.
Proof.
  destruct (parse_diff (section_a ++ nl ++ section_b) "") as [r|] eqn:E;
    [|discriminate E].
  destruct (one_file_per_header _ _ r E) as (Hl & Ht & _).
  exists r. split; [reflexivity|]. split; [exact Hl | exact Ht].
Defined.
